(** * saga-python: the ssh job wrapper script and the task/container layer

    A shallow embedding of

    - [src/saga/adaptors/ssh/ssh_wrapper.py]: the POSIX shell job daemon
      ([Module Wrapper]); and
    - [src/saga/task.py]: [Task] and [Container] ([Module TaskPy]).

    The wrapper keeps all job state in files under [$BASE/<id>/]; the
    embedding models that directory tree as a finite map from job ids to
    finite maps from file names to file contents, and the shell variables
    [ERROR], [RETVAL] and [DIR] as fields of an explicit shell state that
    every handler transforms. *)

From Stdlib Require Import String Ascii List NArith Lia.
From Stdlib Require Import Decimal DecimalString DecimalN.
From stdpp Require Import gmap strings list fin_maps.

Local Open Scope string_scope.

Module Wrapper.

(** ** Text: lines, fields, command substitution *)

Definition LF : ascii := "010"%char.
Definition TAB : ascii := "009"%char.
Definition SPC : ascii := " "%char.

(** The lines of a text file, as [grep] and [tail] see them: every line is
    terminated by a newline, except possibly the last. *)
Fixpoint lines (s : string) : list string :=
  match s with
  | EmptyString => []
  | String c s' =>
      if Ascii.eqb c LF then EmptyString :: lines s'
      else match lines s' with
           | [] => [String c EmptyString]
           | l :: ls => String c l :: ls
           end
  end.

(** The regular expression [' $']: the line ends in a space. *)
Fixpoint ends_in_space (l : string) : bool :=
  match l with
  | EmptyString => false
  | String c EmptyString => Ascii.eqb c SPC
  | String _ l' => ends_in_space l'
  end.

(** [`...`] strips every trailing newline from the captured output. *)
Fixpoint chomp (s : string) : string :=
  match s with
  | EmptyString => EmptyString
  | String c s' =>
      match chomp s' with
      | EmptyString => if Ascii.eqb c LF then EmptyString else String c EmptyString
      | r => String c r
      end
  end.

(** [`grep -e ' $' FILE | tail -n 1`] on the content of FILE: the last
    line that ends in a space, without its newline; empty when no line
    matches. *)
Definition last_state_line (content : string) : string :=
  default "" (last (List.filter ends_in_space (lines content))).

(** [echo TEXT] writes TEXT and a newline. *)
Definition echo (text : string) : string := text ++ String LF "".

(** Default [IFS]: space, tab, newline. *)
Definition is_ifs (c : ascii) : bool :=
  Ascii.eqb c SPC || Ascii.eqb c TAB || Ascii.eqb c LF.

(** Field splitting of an unquoted expansion: maximal runs of non-IFS
    characters.  Pathname expansion and the backslash processing of
    [read] are left out: the model is exact for text without [*], [?],
    [[] and backslashes. *)
Fixpoint fields (s : string) : list string :=
  match s with
  | EmptyString => []
  | String c s' =>
      if is_ifs c then fields s'
      else match s' with
           | EmptyString => [String c EmptyString]
           | String c' _ =>
               if is_ifs c' then String c EmptyString :: fields s'
               else match fields s' with
                    | w :: ws => String c w :: ws
                    | [] => [String c EmptyString]
                    end
           end
  end.

(** ["$*"], and [$@] on the right of an assignment: the positional
    parameters joined by single spaces. *)
Fixpoint join_sp (ws : list string) : string :=
  match ws with
  | [] => ""
  | [w] => w
  | w :: ws' => w ++ " " ++ join_sp ws'
  end.

(** [echo w1 ... wn] with operands that come from an expansion ([echo "$*"]
    has the one operand [join_sp args], [echo "$@"] has the parameters as
    operands).  The builtin takes a first operand [-n] as its option: it
    prints the remaining operands and no newline.  Every other operand is
    printed as text. *)
Definition sh_echo (operands : list string) : string :=
  match operands with
  | w :: rest => if String.eqb w "-n" then join_sp rest else echo (join_sp operands)
  | [] => echo ""
  end.

(** The words that an [echo] may take for options: [-n] in every [sh],
    and in some (bash) also [-e], [-E] and their combinations, that is a
    dash followed by one or more of the letters [n], [e], [E].  What is
    printed for the words other than [-n] depends on the shell; they are
    kept out of the statements about [sh_echo] by hypothesis. *)
Fixpoint option_letters (s : string) : bool :=
  match s with
  | EmptyString => true
  | String c s' =>
      (Ascii.eqb c "n" || Ascii.eqb c "e" || Ascii.eqb c "E")%char
      && option_letters s'
  end.

Definition echo_option (w : string) : bool :=
  match w with
  | String c (String c' s) => Ascii.eqb c "-" && option_letters (String c' s)
  | _ => false
  end.

(** [$1]: empty when there is no first parameter. *)
Definition arg1 (args : list string) : string := hd "" args.

(** [shift]. *)
Definition shift (args : list string) : list string := tl args.

(** Decimal numerals, for [$?] written to a file or into a message. *)
Definition show (n : N) : string := NilEmpty.string_of_uint (N.to_uint n).

Definition parse_int (s : string) : option N :=
  option_map N.of_uint (NilEmpty.uint_of_string s).

(** ** The job store and the shell state *)

(** [ERROR] and [RETVAL] carry the outcome of a handler to the command
    loop; [DIR] is the global that the [verify_*] helpers and the handlers
    assign.  [DIR] holds the path component below [$BASE]: [None] is the
    unset variable, [Some ""] is [$BASE/] itself, which holds no job
    files.  Job ids are single path components (they are pids). *)
Record shell := mkShell {
  ERROR : string;
  RETVAL : string;
  DIR : option string;
  BASE : gmap string (gmap string string)
}.

Definition set_ERROR (e : string) (sh : shell) : shell :=
  mkShell e (RETVAL sh) (DIR sh) (BASE sh).
Definition set_RETVAL (r : string) (sh : shell) : shell :=
  mkShell (ERROR sh) r (DIR sh) (BASE sh).
Definition set_DIR (id : string) (sh : shell) : shell :=
  mkShell (ERROR sh) (RETVAL sh) (Some id) (BASE sh).
Definition set_BASE (fs : gmap string (gmap string string)) (sh : shell) : shell :=
  mkShell (ERROR sh) (RETVAL sh) (DIR sh) fs.

(** The directory ["$DIR"] names, if it is a job directory: the lookup
    by key is the path resolution for an id that is a single path
    component. *)
Definition cur_dir (sh : shell) : option (gmap string string) :=
  match DIR sh with
  | Some id => if decide (id = "") then None else BASE sh !! id
  | None => None
  end.

(** The content of ["$DIR/name"], if the file exists. *)
Definition file (name : string) (sh : shell) : option string :=
  match cur_dir sh with
  | Some d => d !! name
  | None => None
  end.

(** [test -d "$DIR"], [test -r "$DIR/name"], [test -e "$DIR/name"],
    [test -s "$DIR/name"]. *)
Definition test_d (sh : shell) : bool := bool_decide (is_Some (cur_dir sh)).
Definition test_r (name : string) (sh : shell) : bool :=
  bool_decide (is_Some (file name sh)).
Definition test_s (name : string) (sh : shell) : bool :=
  match file name sh with
  | Some c => negb (String.eqb c "")
  | None => false
  end.

(** Apply a change to the files of ["$DIR"]; nothing happens when the
    directory does not exist. *)
Definition in_dir (f : gmap string string -> gmap string string) (sh : shell) : shell :=
  match DIR sh, cur_dir sh with
  | Some id, Some d => set_BASE (<[id := f d]> (BASE sh)) sh
  | _, _ => sh
  end.

(** [touch name], [rm -f name], [... > name], [... >> name] inside a
    directory. *)
Definition touch (name : string) (d : gmap string string) : gmap string string :=
  match d !! name with
  | Some _ => d
  | None => <[name := ""]> d
  end.
Definition rm_f (name : string) (d : gmap string string) : gmap string string :=
  delete name d.
Definition write (name text : string) (d : gmap string string) : gmap string string :=
  <[name := text]> d.
Definition append (name text : string) (d : gmap string string) : gmap string string :=
  <[name := default "" (d !! name) ++ text]> d.

(** [`cat "$DIR/name"`]; empty when the file is missing. *)
Definition cat_subst (name : string) (sh : shell) : string :=
  chomp (default "" (file name sh)).

(** [`grep -e ' $' "$DIR/state" | tail -n 1`]. *)
Definition state_subst (sh : shell) : string :=
  last_state_line (default "" (file "state" sh)).

(** ** The [verify_*] helpers

    Each returns the new shell state and whether its exit status is 0. *)

Definition verify_dir (a1 : string) (sh : shell) : shell * bool :=
  if decide (a1 = "") then (set_ERROR "no pid given" sh, false)
  else
    let sh := set_DIR a1 sh in
    if test_d sh then (sh, true)
    else (set_ERROR ("pid " ++ a1 ++ " not known") sh, false).

(** [verify_pid] and [verify_state] call [verify_dir] and ignore its
    status: [return 1] in [verify_dir] leaves only [verify_dir]. *)
Definition verify_pid (a1 : string) (sh : shell) : shell * bool :=
  let sh := fst (verify_dir a1 sh) in
  if test_r "pid" sh then (sh, true)
  else (set_ERROR ("pid " ++ a1 ++ " has no process id") sh, false).

Definition verify_state (a1 : string) (sh : shell) : shell * bool :=
  let sh := fst (verify_dir a1 sh) in
  if test_r "state" sh then (sh, true)
  else (set_ERROR ("pid " ++ a1 ++ " has no state") sh, false).

Definition verify_in (a1 : string) (sh : shell) : shell * bool :=
  let sh := fst (verify_dir a1 sh) in
  if test_r "in" sh then (sh, true)
  else (set_ERROR ("pid " ++ a1 ++ " has no stdin") sh, false).

(** ** Handlers without signals *)

Definition cmd_state (args : list string) (sh : shell) : shell :=
  let (sh, ok) := verify_state (arg1 args) sh in
  if ok then
    let sh := set_DIR (arg1 args) sh in
    set_RETVAL (state_subst sh) sh
  else sh.

Definition cmd_wait (args : list string) (sh : shell) : shell :=
  let (sh, ok) := verify_state (arg1 args) sh in
  if ok then
    let sh := set_DIR (arg1 args) sh in
    set_RETVAL (state_subst sh) sh
  else sh.

Definition is_final (state : string) : bool :=
  String.eqb state "DONE " || String.eqb state "FAILED "
  || String.eqb state "CANCELED ".

Definition cmd_result (args : list string) (sh : shell) : shell :=
  let (sh, ok) := verify_state (arg1 args) sh in
  if ok then
    let sh := set_DIR (arg1 args) sh in
    let state := state_subst sh in
    if negb (String.eqb state "DONE ") && negb (String.eqb state "FAILED ")
       && negb (String.eqb state "CANCELED ")
    then set_ERROR ("job " ++ arg1 args ++ " in incorrect state (" ++ state
                    ++ " != DONE|FAILED|CANCELED)") sh
    else
      let sh :=
        if negb (test_r "exit" sh)
        then set_ERROR ("job " ++ arg1 args
                        ++ " in incorrect state -- no exit code available") sh
        else sh in
      set_RETVAL (cat_subst "exit" sh) sh
  else sh.

Definition cmd_stdin (args : list string) (sh : shell) : shell :=
  let (sh, ok) := verify_in (arg1 args) sh in
  if ok then
    let sh := set_DIR (arg1 args) sh in
    let args := shift args in
    let sh := in_dir (append "in" (sh_echo [join_sp args])) sh in
    set_RETVAL "stdin refreshed" sh
  else sh.

(** ** Handlers that send a signal

    [kill sig pid] is what [`kill -SIG $rpid 2>&1`] gives at the moment of
    the call: the exit status and the captured output. *)

Section Signals.

Variable kill : string -> string -> N * string.

Definition cmd_suspend (args : list string) (sh : shell) : shell :=
  let (sh, ok) := verify_state (arg1 args) sh in
  if ok then
    let (sh, ok) := verify_pid (arg1 args) sh in
    if ok then
      let sh := set_DIR (arg1 args) sh in
      let state := state_subst sh in
      let rpid := cat_subst "pid" sh in
      if negb (String.eqb state "RUNNING ")
      then set_ERROR ("job " ++ arg1 args ++ " in incorrect state (" ++ state
                      ++ " != RUNNING)") sh
      else
        let sh := in_dir (touch "suspended") sh in
        let (ECODE, out) := kill "STOP" rpid in
        let sh := set_RETVAL out sh in
        if String.eqb (show ECODE) "0"
        then
          let sh := in_dir (append "state" (echo "SUSPENDED ")) sh in
          let sh := in_dir (write "state.susp" (echo (state ++ " "))) sh in
          set_RETVAL (arg1 args ++ " suspended") sh
        else
          let sh := in_dir (rm_f "suspended") sh in
          set_ERROR ("suspend failed (" ++ show ECODE ++ "): " ++ RETVAL sh) sh
    else sh
  else sh.

Definition cmd_resume (args : list string) (sh : shell) : shell :=
  let (sh, ok) := verify_state (arg1 args) sh in
  if ok then
    let (sh, ok) := verify_pid (arg1 args) sh in
    if ok then
      let sh := set_DIR (arg1 args) sh in
      let state := state_subst sh in
      let rpid := cat_subst "pid" sh in
      if negb (String.eqb state "SUSPENDED ")
      then set_ERROR ("job " ++ arg1 args ++ " in incorrect state (" ++ state
                      ++ " != SUSPENDED)") sh
      else
        let sh := in_dir (touch "resumed") sh in
        let (ECODE, out) := kill "CONT" rpid in
        let sh := set_RETVAL out sh in
        if String.eqb (show ECODE) "0"
        then
          let sh :=
            if test_s "state.susp" sh then sh
            else in_dir (write "state.susp" (echo "RUNNING ")) sh in
          let sh := in_dir (append "state" (default "" (file "state.susp" sh))) sh in
          let sh := in_dir (rm_f "state.susp") sh in
          set_RETVAL (arg1 args ++ " resumed") sh
        else
          let sh := in_dir (rm_f "resumed") sh in
          set_ERROR ("resume failed (" ++ show ECODE ++ "): " ++ RETVAL sh) sh
    else sh
  else sh.

Definition cmd_cancel (args : list string) (sh : shell) : shell :=
  let (sh, ok) := verify_state (arg1 args) sh in
  if ok then
    let (sh, ok) := verify_pid (arg1 args) sh in
    if ok then
      let sh := set_DIR (arg1 args) sh in
      let state := state_subst sh in
      let rpid := cat_subst "pid" sh in
      if negb (String.eqb state "SUSPENDED ") && negb (String.eqb state "RUNNING ")
      then set_ERROR ("job " ++ arg1 args ++ " in incorrect state ('" ++ state
                      ++ "' != 'SUSPENDED|RUNNING')") sh
      else
        let sh := in_dir (touch "canceled") sh in
        let (ECODE, out) := kill "KILL" rpid in
        let sh := set_RETVAL out sh in
        if String.eqb (show ECODE) "0"
        then set_RETVAL (arg1 args ++ " canceled") sh
        else
          let sh := in_dir (rm_f "canceled") sh in
          set_ERROR ("cancel failed (" ++ show ECODE ++ "): " ++ RETVAL sh) sh
    else sh
  else sh.

End Signals.

(** ** The monitor of one job

    The loop of [monitor.sh] after [wait $rpid] has returned [retv], on the
    files of the job's directory.  The second component tells whether the
    loop goes round again ([continue]) or is left ([break]). *)

Definition monitor_body (retv : N) (d : gmap string string)
  : gmap string string * bool :=
  if bool_decide (is_Some (d !! "suspended"))
  then (rm_f "suspended" d, true)
  else if bool_decide (is_Some (d !! "resumed"))
  then (rm_f "resumed" d, true)
  else
    let d := write "exit" (echo (show retv)) d in
    let d := if String.eqb (show retv) "0"
             then append "state" (echo "DONE ") d else d in
    let d := if String.eqb (show retv) "0"
             then d else append "state" (echo "FAILED ") d in
    let d := if bool_decide (is_Some (d !! "canceled"))
             then append "state" (echo "CANCELED ") d else d in
    let d := if bool_decide (is_Some (d !! "canceled"))
             then rm_f "canceled" d else d in
    (d, false).

(** [while true; do wait $rpid; ...; done], driven by the statuses that the
    successive [wait]s return. *)
Fixpoint monitor_loop (retvs : list N) (d : gmap string string)
  : gmap string string :=
  match retvs with
  | [] => d
  | retv :: rest =>
      let (d', again) := monitor_body retv d in
      if again then monitor_loop rest d' else d'
  end.

(** ** Starting a job: the files [cmd_run_process] writes

    [cmd_run $args] hands its parameters on as [cmd_run2 $@] and
    [cmd_run_process $@]; each unquoted [$@] splits every parameter into
    fields again.  [cmd_run_process] then writes the command line with
    [echo "$@" > "$DIR/cmd"] and creates the stdin feed with [touch]. *)

Definition resplit (params : list string) : list string :=
  flat_map fields params.

Definition cmd_run_process_files (params : list string) (d : gmap string string)
  : gmap string string :=
  touch "in" (write "cmd" (sh_echo params) d).

Definition run_files (args : string) (d : gmap string string) : gmap string string :=
  cmd_run_process_files (resplit (resplit (fields args))) d.

(** ** The command loop

    One round of [while read LINE] in [listen]; [LINE] is the value [read]
    assigned.  The result is the shell state after the handler and the
    text written to the channel before the next prompt.  The verbs whose
    handlers work on processes or call other programs ([RUN], [STDOUT],
    [STDERR], [LIST], [PURGE], [QUIT], [LOG]) are outside the model:
    [None]. *)

Definition get_cmd (params : list string) (sh : shell) : shell :=
  if decide (arg1 params = "") then set_RETVAL "NOOP" sh
  else set_RETVAL (arg1 params) sh.

Definition get_args (params : list string) (sh : shell) : shell :=
  if decide (arg1 params = "") then set_RETVAL "" sh
  else set_RETVAL (join_sp (shift params)) sh.

Definition outside_model (cmd : string) : bool :=
  bool_decide (cmd ∈ ["RUN"; "STDOUT"; "STDERR"; "LIST"; "PURGE"; "QUIT"; "LOG"]).

Section Listen.

Variable kill : string -> string -> N * string.

Definition dispatch (cmd args LINE : string) (sh : shell) : option shell :=
  if String.eqb cmd "SUSPEND" then Some (cmd_suspend kill (fields args) sh)
  else if String.eqb cmd "RESUME" then Some (cmd_resume kill (fields args) sh)
  else if String.eqb cmd "CANCEL" then Some (cmd_cancel kill (fields args) sh)
  else if String.eqb cmd "RESULT" then Some (cmd_result (fields args) sh)
  else if String.eqb cmd "STATE" then Some (cmd_state (fields args) sh)
  else if String.eqb cmd "WAIT" then Some (cmd_wait (fields args) sh)
  else if String.eqb cmd "STDIN" then Some (cmd_stdin (fields args) sh)
  else if String.eqb cmd "NOOP" then Some (set_ERROR "NOOP" sh)
  else if outside_model cmd then None
  else Some (set_ERROR (cmd ++ " unknown (" ++ LINE ++ ")") sh).

(** The frame written after the handler has returned. *)
Definition frame (sh : shell) : string :=
  if String.eqb (ERROR sh) "OK" then echo "OK" ++ echo (RETVAL sh)
  else if String.eqb (ERROR sh) "NOOP" then ""
  else echo "ERROR" ++ echo (ERROR sh).

Definition listen_step (LINE : string) (sh : shell) : option (shell * string) :=
  let sh := set_RETVAL "" (set_ERROR "OK" sh) in
  let sh := get_cmd (fields LINE) sh in
  let cmd := RETVAL sh in
  let sh := get_args (fields LINE) sh in
  let args := RETVAL sh in
  if negb (String.eqb (ERROR sh) "OK")
  then Some (sh, echo "ERROR" ++ echo (ERROR sh))
  else
    match dispatch cmd args LINE sh with
    | Some sh' => Some (sh', frame sh')
    | None => None
    end.

End Listen.

(** ** The output streams

    [uuencode content] is what [`uuencode FILE /dev/stdout`] prints for a
    file with that content, as the command substitution captures it. *)

Definition verify_out (a1 : string) (sh : shell) : shell * bool :=
  let sh := fst (verify_dir a1 sh) in
  if test_r "out" sh then (sh, true)
  else (set_ERROR ("pid " ++ a1 ++ " has no stdout") sh, false).

Definition verify_err (a1 : string) (sh : shell) : shell * bool :=
  let sh := fst (verify_dir a1 sh) in
  if test_r "err" sh then (sh, true)
  else (set_ERROR ("stderr " ++ a1 ++ " has no sterr") sh, false).

Section Streams.

Variable uuencode : string -> string.

Definition cmd_stdout (args : list string) (sh : shell) : shell :=
  let (sh, ok) := verify_out (arg1 args) sh in
  if ok then
    let sh := set_DIR (arg1 args) sh in
    set_RETVAL (match file "out" sh with
                | Some c => uuencode c
                | None => ""
                end) sh
  else sh.

Definition cmd_stderr (args : list string) (sh : shell) : shell :=
  let (sh, ok) := verify_err (arg1 args) sh in
  if ok then
    let sh := set_DIR (arg1 args) sh in
    set_RETVAL (match file "err" sh with
                | Some c => uuencode c
                | None => ""
                end) sh
  else sh.

End Streams.

(** ** Purging records

    [grep -l -e 'DONE' -e 'FAILED' -e 'CANCELED'] lists a state file when
    one of its lines contains one of the three words; the pattern
    ["$BASE"/*/state] does not reach into directories whose name starts
    with a dot.  [rm -rf "$BASE/$1"] removes the record whose key is the
    id when the id is a single path component; an id with a slash or a
    dot component is resolved by the file system and is outside the
    model. *)

Fixpoint starts_with (pat s : string) : bool :=
  match pat, s with
  | EmptyString, _ => true
  | String a pat', String b s' => Ascii.eqb a b && starts_with pat' s'
  | String _ _, EmptyString => false
  end.

Fixpoint contains (pat s : string) : bool :=
  starts_with pat s
  || match s with
     | EmptyString => false
     | String _ s' => contains pat s'
     end.

Definition has_final_word (l : string) : bool :=
  contains "DONE" l || contains "FAILED" l || contains "CANCELED" l.

Definition glob_star (name : string) : bool :=
  negb (starts_with "." name).

Definition swept (id : string) (d : gmap string string) : bool :=
  glob_star id
  && match d !! "state" with
     | Some st => existsb has_final_word (lines st)
     | None => false
     end.

Definition cmd_purge (args : list string) (sh : shell) : shell :=
  if decide (arg1 args = "")
  then
    let sh := set_BASE (filter (fun p => swept (fst p) (snd p) = false) (BASE sh)) sh in
    set_RETVAL "purged finished jobs" sh
  else
    let sh := set_DIR (arg1 args) sh in
    let sh := set_BASE (delete (arg1 args) (BASE sh)) sh in
    set_RETVAL ("purged " ++ arg1 args) sh.

(** ** One round of a job's monitor, seen from the store

    The monitor of job [id] writes into [$BASE/<id>/]; when the directory
    is gone its writes fail and the store stays as it is. *)

Definition monitor_round (retv : N) (id : string)
  (fs : gmap string (gmap string string)) : gmap string (gmap string string) :=
  match fs !! id with
  | Some d => <[id := fst (monitor_body retv d)]> fs
  | None => fs
  end.

(** ** Sample records *)

Definition kill_ok (sig pid : string) : N * string := (0%N, "").
Definition kill_fails (sig pid : string) : N * string :=
  (1%N, "kill: No such process").

Definition running_job : gmap string string :=
  {[ "state" := "NEW " ++ String LF ("RUNNING " ++ String LF "");
     "pid" := "4711" ++ String LF "" ]}.

Definition sh0 : shell :=
  mkShell "OK" "" None {[ "42" := running_job ]}.

(** A running job whose [canceled] marker is already there, as after an
    earlier [CANCEL] that the monitor has not yet seen. *)
Definition marked_job : gmap string string :=
  <[ "canceled" := "" ]> running_job.

Definition sh_marked : shell :=
  mkShell "OK" "" None {[ "42" := marked_job ]}.

Definition failed_job : gmap string string :=
  {[ "state" := "NEW " ++ String LF ("RUNNING " ++ String LF ("FAILED " ++ String LF ""));
     "pid" := "4711" ++ String LF "";
     "exit" := "7" ++ String LF "" ]}.

Definition sh_failed : shell :=
  mkShell "OK" "" None {[ "42" := failed_job ]}.

(** A suspended job whose snapshot file is missing. *)
Definition suspended_job : gmap string string :=
  {[ "state" := "NEW " ++ String LF ("RUNNING " ++ String LF ("SUSPENDED " ++ String LF ""));
     "pid" := "4711" ++ String LF "" ]}.

Definition sh_suspended : shell :=
  mkShell "OK" "" None {[ "42" := suspended_job ]}.

(** A running job that has been suspended and resumed while the monitor
    has not yet come back from [wait]: both markers are there. *)
Definition cycled_job : gmap string string :=
  <[ "suspended" := "" ]> (<[ "resumed" := "" ]> running_job).

Definition stdin_job : gmap string string :=
  <[ "in" := "" ]> running_job.

Definition sh_stdin : shell :=
  mkShell "OK" "" None {[ "42" := stdin_job ]}.

End Wrapper.

(** * [saga/task.py]: Task and Container

    Adaptors and [SagaThread] are external collaborators: a call into one
    of them is recorded in a trace, and what the environment answers (the
    state a thread shows, what a worker thread has done when the poll
    looks at it) is a parameter of the section.  Task objects carry an
    object identity [oid]; [in] on a list of tasks compares identities. *)

Module TaskPy.

Inductive tstate := UNKNOWN | NEW | RUNNING | DONE | FAILED | CANCELED.

Inductive wmode := ALL | ANY.

Inductive exn :=
| AttributeError (obj attr : string)
| TypeError
| ValueError
| IndexError
| BadParameter (msg : string)
| WorkerError (code : nat).

Definition tstate_eqb (a b : tstate) : bool :=
  match a, b with
  | UNKNOWN, UNKNOWN | NEW, NEW | RUNNING, RUNNING
  | DONE, DONE | FAILED, FAILED | CANCELED, CANCELED => true
  | _, _ => false
  end.

(** The Python values the container methods hand around. *)
Inductive pyval :=
| PyNone
| PyBool (b : bool)
| PyTask (oid : nat)
| PyTaskList (oids : list nat)
| PyBoundMethod (name : string).

(** Truth value testing: [None], [False] and empty sequences are false,
    any other object, a bound method among them, is true. *)
Definition truthy (v : pyval) : bool :=
  match v with
  | PyNone => false
  | PyBool b => b
  | PyTask _ => true
  | PyTaskList l => negb (Nat.eqb (length l) 0)
  | PyBoundMethod _ => true
  end.

(** An adaptor instance and its [_container] attribute, the object the
    bulk operations go to. *)
Record Adaptor := mkAdaptor {
  a_oid : nat;
  _container : option nat
}.

Record Task := mkTask {
  oid : nat;
  _thread : option nat;
  _adaptor : option Adaptor;
  _method_type : string;
  state : tstate;
  result : pyval;
  exception : option exn
}.

Definition _set_state (s : tstate) (t : Task) : Task :=
  mkTask (oid t) (_thread t) (_adaptor t) (_method_type t) s (result t) (exception t).

(** [task in tasks]. *)
Definition py_in (t : Task) (l : list Task) : bool :=
  existsb (fun t' => Nat.eqb (oid t') (oid t)) l.

(** ** Methods of the built-in [list]

    [l.name (x)] for a list of tasks [l] and a task [x]: the list after
    the call, or the exception.  A name that is no attribute of [list]
    raises [AttributeError]. *)

Definition list_attributes : list string :=
  ["append"; "count"; "extend"; "index"; "insert"; "pop"; "remove";
   "reverse"; "sort"].

Fixpoint remove_first (x : Task) (l : list Task) : list Task :=
  match l with
  | [] => []
  | y :: l' => if Nat.eqb (oid y) (oid x) then l' else y :: remove_first x l'
  end.

Definition list_call (name : string) (x : Task) (l : list Task)
  : exn + list Task :=
  if negb (existsb (String.eqb name) list_attributes)
  then inl (AttributeError "list" name)
  else if String.eqb name "append" then inr (l ++ [x])%list
  else if String.eqb name "remove"
  then if py_in x l then inr (remove_first x l) else inl ValueError
  else if String.eqb name "count" then inr l
  else if String.eqb name "index"
  then if py_in x l then inr l else inl ValueError
  else inl TypeError.

Record Container := mkContainer { tasks : list Task }.

(** ** The trace and error monad of the methods *)

Section Methods.

(** Timeouts are passed through and never computed with: any type with a
    value for the literal [-1.0] will do. *)
Variable float : Type.
Variable minus_one : float.

Inductive call :=
| thread_run (th : nat)
| thread_wait (th : nat)
| task_run (a t : nat)
| task_wait (a t : nat) (timeout : float)
| container_wait (c : nat) (ts : list nat) (mode : wmode) (timeout : float).

Definition M (A : Type) : Type := (list call * (exn + A))%type.

Definition ret {A : Type} (a : A) : M A := ([], inr a).
Definition raise {A : Type} (e : exn) : M A := ([], inl e).
Definition emit (c : call) : M unit := ([c], inr tt).
Definition bind {A B : Type} (m : M A) (k : A -> M B) : M B :=
  match m with
  | (tr, inl e) => (tr, inl e)
  | (tr, inr a) => let (tr', r) := k a in ((tr ++ tr')%list, r)
  end.

Definition trace {A : Type} (m : M A) : list call := fst m.
Definition outcome {A : Type} (m : M A) : exn + A := snd m.

(** [for x in xs: body], threading the loop-carried value. *)
Fixpoint for_each {A S : Type} (xs : list A) (body : A -> S -> M S) (s : S) : M S :=
  match xs with
  | [] => ret s
  | x :: xs' => bind (body x s) (for_each xs' body)
  end.

(** ** Task *)

(** [self._thread.state], as the thread shows it once [wait] is back. *)
Variable thread_state : nat -> tstate.

Definition Task_run (self : Task) : M unit :=
  match _thread self with
  | Some th => emit (thread_run th)
  | None =>
      match _adaptor self with
      | Some a => emit (task_run (a_oid a) (oid self))
      | None => raise (AttributeError "NoneType" "task_run")
      end
  end.

Definition Task_wait (self : Task) (timeout : option float) : M Task :=
  let timeout := match timeout with None => minus_one | Some t => t end in
  match _thread self with
  | Some th =>
      bind (emit (thread_wait th)) (fun _ =>
      ret (_set_state (thread_state th) self))
  | None =>
      match _adaptor self with
      | Some a =>
          bind (emit (task_wait (a_oid a) (oid self) timeout)) (fun _ => ret self)
      | None => raise (AttributeError "NoneType" "task_wait")
      end
  end.

(** ** Container *)

Definition add (task : Task) (self : Container) : exn + Container :=
  if negb (py_in task (tasks self))
  then match list_call "append" task (tasks self) with
       | inr l => inr (mkContainer l)
       | inl e => inl e
       end
  else inr self.

Definition remove (task : Task) (self : Container) : exn + Container :=
  if py_in task (tasks self)
  then match list_call "delete" task (tasks self) with
       | inr l => inr (mkContainer l)
       | inl e => inl e
       end
  else inr self.

Definition get_size (self : Container) : nat := length (tasks self).
Definition get_tasks (self : Container) : list Task := tasks self.

(** The buckets of [_get_buckets]: the dictionaries are association
    lists, here in insertion order.  The iteration order of a Python 2
    [dict] is unspecified: a statement that depends on the order of the
    entries is made for every order ([iteration_order] below). *)
Record buckets := mkBuckets {
  unbound : list Task;
  bound : list (nat * list (string * list Task))
}.

Fixpoint append_method (m : string) (t : Task) (ms : list (string * list Task))
  : list (string * list Task) :=
  match ms with
  | [] => [(m, [t])]
  | (m', ts) :: ms' =>
      if String.eqb m' m then (m', (ts ++ [t])%list) :: ms'
      else (m', ts) :: append_method m t ms'
  end.

Fixpoint append_bound (c : nat) (m : string) (t : Task)
  (b : list (nat * list (string * list Task)))
  : list (nat * list (string * list Task)) :=
  match b with
  | [] => [(c, [(m, [t])])]
  | (c', ms) :: b' =>
      if Nat.eqb c' c then (c', append_method m t ms) :: b'
      else (c', ms) :: append_bound c m t b'
  end.

Definition sort_task (bk : buckets) (task : Task) : buckets :=
  match _adaptor task with
  | Some a =>
      match _container a with
      | Some c => mkBuckets (unbound bk) (append_bound c (_method_type task) task (bound bk))
      | None => mkBuckets (unbound bk ++ [task])%list (bound bk)
      end
  | None => mkBuckets (unbound bk ++ [task])%list (bound bk)
  end.

Definition _get_buckets (self : Container) : buckets :=
  fold_left sort_task (tasks self) (mkBuckets [] []).

(** [tasks = []; for m in buckets['bound'][c]: tasks += buckets['bound'][c][m]]. *)
Definition bucket_tasks (ms : list (string * list Task)) : list Task :=
  flat_map snd ms.

Definition _wait_all (self : Container) (timeout : float) : M pyval :=
  let bk := _get_buckets self in
  bind (for_each (bound bk) (fun cm _ =>
          let ts := bucket_tasks (snd cm) in
          bind (emit (container_wait (fst cm) (map oid ts) ALL timeout)) (fun _ =>
          match ts with
          | t0 :: _ => ret (PyTask (oid t0))
          | [] => raise IndexError
          end)) PyNone) (fun r =>
  for_each (unbound bk) (fun task _ =>
    bind (Task_wait task None) (fun _ => ret (PyTask (oid task)))) r).

(** ** Worker threads of [_wait_any]

    [SagaThread.Run (f, args)] starts a thread on one of these jobs. *)
Inductive work :=
| W_container_wait (c : nat) (ts : list nat) (mode : wmode) (timeout : float)
| W_task_wait (t : nat) (timeout : float).

(** What a worker shows after [thread.join (0.01)]. *)
Record SagaThread := mkThread {
  get_state : tstate;
  get_exception : exn;
  get_result : pyval;
  isAlive_called : bool
}.

(** The attribute [thread.isAlive], not called: the bound method. *)
Definition isAlive (th : SagaThread) : pyval := PyBoundMethod "isAlive".

Variable Run : work -> SagaThread.

Definition start_workers (bk : buckets) (timeout : float) : list SagaThread :=
  (map (fun cm => Run (W_container_wait (fst cm)
                        (map oid (bucket_tasks (snd cm))) ANY timeout)) (bound bk)
  ++ map (fun task => Run (W_task_wait (oid task) timeout)) (unbound bk))%list.

(** The polling loop: [raise] and [return] leave it, falling off its end
    returns [None]. *)
Fixpoint poll (threads : list SagaThread) : exn + pyval :=
  match threads with
  | [] => inr PyNone
  | thread :: rest =>
      if tstate_eqb (get_state thread) FAILED
      then inl (get_exception thread)
      else if negb (truthy (isAlive thread))
      then inr (get_result thread)
      else poll rest
  end.

Definition _wait_any (self : Container) (timeout : float) : exn + pyval :=
  poll (start_workers (_get_buckets self) timeout).

Definition wait (self : Container) (mode : wmode) (timeout : option float)
  : M pyval :=
  let timeout := match timeout with None => minus_one | Some t => t end in
  if Nat.eqb (length (tasks self)) 0 then ret PyNone
  else match mode with
       | ALL => _wait_all self timeout
       | ANY => ([], _wait_any self timeout)
       end.

End Methods.

Arguments thread_run {float}.
Arguments thread_wait {float}.
Arguments task_run {float}.
Arguments task_wait {float}.
Arguments container_wait {float}.
Arguments W_container_wait {float}.
Arguments W_task_wait {float}.

(** ** The constructor of [Task]

    [_method_context] is a dictionary; its values are opaque here ([V]).
    [new_thread call args kwargs] is the identity of the [SagaThread]
    that [SagaThread (call, *args, **kwargs)] creates.  The constructor
    writes the defaults for ['_args'] and ['_kwargs'] into the dictionary
    it was given. *)

Inductive ttype := SYNC | ASYNC | TASK.

Section Constructor.

Variable float : Type.
Variable minus_one : float.
Variable thread_state : nat -> tstate.
Variable V : Type.
Variable empty_tuple : V.
Variable empty_dict : V.
Variable new_thread : V -> V -> V -> nat.

Definition fill_default (key : string) (v : V) (ctx : gmap string V) : gmap string V :=
  match ctx !! key with
  | Some _ => ctx
  | None => <[key := v]> ctx
  end.

Definition Task_init (self_oid : nat) (adaptor : option Adaptor)
  (method_type : string) (ctx : gmap string V) (tt : ttype)
  : M float (Task * gmap string V) :=
  let self := mkTask self_oid None adaptor method_type NEW PyNone None in
  bind float
    (match ctx !! "_call" with
     | Some call =>
         let ctx := fill_default "_args" empty_tuple ctx in
         let ctx := fill_default "_kwargs" empty_dict ctx in
         if negb (Nat.eqb 3 (size ctx))
         then raise float (BadParameter "invalid call context for callable task")
         else
           let args := default empty_tuple (ctx !! "_args") in
           let kwargs := default empty_dict (ctx !! "_kwargs") in
           ret float
             (mkTask self_oid (Some (new_thread call args kwargs)) adaptor
                method_type NEW PyNone None, ctx)
     | None => ret float (self, ctx)
     end)
    (fun sc =>
       let (self, ctx) := sc in
       match tt with
       | SYNC =>
           bind float (Task_run float self) (fun _ =>
           bind float (Task_wait float minus_one thread_state self None) (fun self =>
           ret float (self, ctx)))
       | ASYNC => bind float (Task_run float self) (fun _ => ret float (self, ctx))
       | TASK => ret float (self, ctx)
       end).

End Constructor.

(** ** What [_get_buckets] establishes *)

Definition has_container (c : nat) (t : Task) : Prop :=
  exists a, _adaptor t = Some a /\ _container a = Some c.

Definition is_unbound (t : Task) : Prop :=
  match _adaptor t with
  | Some a => _container a = None
  | None => True
  end.

(** Every task of the buckets, the bound ones first. *)
Definition all_tasks (bk : buckets) : list Task :=
  (flat_map (fun cm => bucket_tasks (snd cm)) (bound bk) ++ unbound bk)%list.

(** [tasks[0]] of a bucket, as [_wait_all] returns it. *)
Definition first_task (cm : nat * list (string * list Task)) : pyval :=
  match bucket_tasks (snd cm) with
  | t0 :: _ => PyTask (oid t0)
  | [] => PyNone
  end.

Definition methods_ok (c : nat) (ms : list (string * list Task)) : Prop :=
  NoDup (map fst ms) /\ ms <> []
  /\ Forall (fun mt => snd mt <> []
                       /\ Forall (fun t => has_container c t
                                          /\ _method_type t = fst mt) (snd mt)) ms.

Definition buckets_ok (bk : buckets) : Prop :=
  NoDup (map fst (bound bk))
  /\ Forall (fun cm => methods_ok (fst cm) (snd cm)) (bound bk)
  /\ Forall is_unbound (unbound bk).

(** ** The iteration order of the dictionaries

    [d'] holds the entries of [d] in some order, the values being the
    [same] up to their own order. *)
Definition same_entries {K V : Type} (same : V -> V -> Prop)
  (d d' : list (K * V)) : Prop :=
  exists l,
    Forall2 (fun e e' => fst e = fst e' /\ same (snd e) (snd e')) d l
    /\ Permutation l d'.

(** [bk'] is [bk] as a [for] loop may see it: the list of unbound tasks
    is a list and keeps its order, the container objects and the method
    types of each come in any order, each method type with its list of
    tasks as it is. *)
Definition iteration_order (bk bk' : buckets) : Prop :=
  unbound bk' = unbound bk
  /\ same_entries (fun ms ms' => Permutation ms ms') (bound bk) (bound bk').

(** ** Sample objects *)

Definition plain_adaptor : Adaptor := mkAdaptor 1 None.
Definition bulk_adaptor : Adaptor := mkAdaptor 2 (Some 9).

(** A finished task of an adaptor without bulk operations. *)
Definition done_task : Task :=
  mkTask 7 None (Some plain_adaptor) "run" DONE PyNone None.

(** A running task of an adaptor with a container object. *)
Definition bound_task : Task :=
  mkTask 8 None (Some bulk_adaptor) "run" RUNNING PyNone None.

(** A worker that has completed and holds the finished task. *)
Definition finished_worker : SagaThread :=
  mkThread DONE (WorkerError 0) (PyTaskList [7]) false.

(** Two call contexts: one with the callable only, one with a foreign
    key. *)
Definition call_only_context : gmap string nat := {[ "_call" := 1 ]}.
Definition foreign_key_context : gmap string nat :=
  <[ "_timeout" := 2 ]> {[ "_call" := 1 ]}.

(** A worker that has failed. *)
Definition failed_worker : SagaThread :=
  mkThread FAILED (WorkerError 3) PyNone false.

(** A second task of the bulk adaptor, for another method. *)
Definition copy_task : Task :=
  mkTask 6 None (Some bulk_adaptor) "copy" NEW PyNone None.

Definition run_copy_tasks : Container := mkContainer [bound_task; copy_task].

Definition one_task : Container := mkContainer [done_task].
Definition two_tasks : Container := mkContainer [bound_task; done_task].

End TaskPy.

(** * Properties of the wrapper script *)

Import Wrapper.

(** ** Text *)

(** A file written with [echo] only: empty, or ending in a newline. *)
Fixpoint complete (s : string) : bool :=
  match s with
  | EmptyString => true
  | String c EmptyString => Ascii.eqb c LF
  | String _ s' => complete s'
  end.

(** No IFS character occurs in the word. *)
Fixpoint no_ifs (w : string) : bool :=
  match w with
  | EmptyString => true
  | String c w' => negb (is_ifs c) && no_ifs w'
  end.

Definition is_word (w : string) : Prop := w <> "" /\ no_ifs w = true.

(** A job id that names the directory [$BASE/<id>] and nothing else: one
    path component, so not empty, without a slash, and neither [.] nor
    [..].  For other ids the path is resolved by the file system
    ([42/] and [./42] name the record [42], [..] a directory outside the
    store) and the lookup by key does not apply. *)
Definition is_component (jid : string) : bool :=
  negb (String.eqb jid "") && negb (contains "/" jid)
  && negb (String.eqb jid ".") && negb (String.eqb jid "..").

(** The text that a successful [RESUME] appends to the state log: the
    content of [state.susp], or the line [RUNNING ] when that file is
    missing or empty. *)
Definition snapshot (d : gmap string string) : string :=
  match d !! "state.susp" with
  | Some c => if String.eqb c "" then echo "RUNNING " else c
  | None => echo "RUNNING "
  end.

(** What the monitor keeps: the state log grows, and it writes no file
    but [state], [exit] and the three markers. *)
Definition monitor_files : list string :=
  ["state"; "exit"; "suspended"; "resumed"; "canceled"].

Definition monitor_kept (d d' : gmap string string) : Prop :=
  (forall st, d !! "state" = Some st ->
     exists suffix, d' !! "state" = Some (st ++ suffix))
  /\ (forall k, ~ In k monitor_files -> d' !! k = d !! k).

(** The verbs of the [case] in [listen]. *)
Definition known_verbs : list string :=
  ["RUN"; "SUSPEND"; "RESUME"; "CANCEL"; "RESULT"; "STATE"; "WAIT"; "STDIN";
   "STDOUT"; "STDERR"; "LIST"; "PURGE"; "QUIT"; "LOG"; "NOOP"].

(** The token the monitor logs for an exit status. *)
Definition final_token (retv : N) : string :=
  if N.eqb retv 0 then "DONE " else "FAILED ".

(** The state log of a record only grows, and the files that no verb
    writes keep their content. *)
Definition verb_files : list string :=
  ["state"; "state.susp"; "in"; "suspended"; "resumed"; "canceled"].

Definition record_kept (d d' : gmap string string) : Prop :=
  (forall st, d !! "state" = Some st ->
     exists suffix, d' !! "state" = Some (st ++ suffix))
  /\ (forall k, ~ In k verb_files -> d' !! k = d !! k).

Definition store_kept (fs fs' : gmap string (gmap string string)) : Prop :=
  (forall id d, fs !! id = Some d ->
     exists d', fs' !! id = Some d' /\ record_kept d d')
  /\ (forall id, fs !! id = None -> fs' !! id = None).

(** Unfold the setters of the shell state; discharge the side conditions
    of the lemmas about a job record. *)
Ltac shell_simpl :=
  try unfold set_DIR; try unfold set_RETVAL; try unfold set_ERROR;
  try unfold set_BASE; cbn [ERROR RETVAL DIR BASE].

Ltac side :=
  shell_simpl;
  first [assumption | reflexivity | exact (lookup_insert_eq _ _ _) | discriminate].

Lemma sapp_cons (c : ascii) (s t : string) : String c s ++ t = String c (s ++ t).
Proof. reflexivity. Qed.

Lemma sapp_nil_l (t : string) : "" ++ t = t.
Proof. reflexivity. Qed.

Lemma string_app_nil (s : string) : s ++ "" = s.
Proof.
  induction s as [|c s IH]; [reflexivity|]. now rewrite sapp_cons, IH.
Qed.

Lemma string_app_assoc (a b c : string) : (a ++ b) ++ c = a ++ (b ++ c).
Proof.
  induction a as [|x a IH]; [reflexivity|]. now rewrite !sapp_cons, IH.
Qed.

Lemma lines_cons_nonempty (c : ascii) (s : string) : lines (String c s) <> [].
Proof.
  cbn [lines]. destruct (Ascii.eqb c LF); [discriminate|].
  destruct (lines s); discriminate.
Qed.

Lemma lines_app (s t : string) :
  complete s = true -> lines (s ++ t) = (lines s ++ lines t)%list.
Proof.
  induction s as [|c s IH]; intros Hc; [reflexivity|].
  rewrite sapp_cons. destruct s as [|c' s'].
  - simpl in Hc. rewrite sapp_nil_l. cbn [lines]. rewrite Hc. reflexivity.
  - assert (Hs : complete (String c' s') = true) by exact Hc.
    specialize (IH Hs).
    cbn [lines]. destruct (Ascii.eqb c LF).
    + cbn [lines] in IH. rewrite IH. reflexivity.
    + cbn [lines] in IH. rewrite IH.
      pose proof (lines_cons_nonempty c' s') as Hne. cbn [lines] in Hne.
      destruct (if Ascii.eqb c' LF then "" :: lines s'
                else match lines s' with
                     | [] => [String c' ""]
                     | l :: ls => String c' l :: ls
                     end) as [|l ls]; [contradiction|reflexivity].
Qed.

Lemma complete_app (s t : string) :
  t <> "" -> complete t = true -> complete (s ++ t) = true.
Proof.
  intros Hne Ht. induction s as [|c s IH]; [exact Ht|].
  rewrite sapp_cons. cbn [complete]. destruct (s ++ t) eqn:E; [|exact IH].
  destruct s; [rewrite sapp_nil_l in E; congruence | discriminate].
Qed.

Lemma last_state_line_app (s t : string) :
  complete s = true ->
  List.filter ends_in_space (lines t) <> [] ->
  last_state_line (s ++ t) = last_state_line t.
Proof.
  intros Hs Hne. unfold last_state_line.
  rewrite lines_app by exact Hs. rewrite List.filter_app.
  rewrite last_app. destruct (last (List.filter ends_in_space (lines t))) eqn:E.
  - reflexivity.
  - apply last_None in E. contradiction.
Qed.

(** ** Decimal numerals *)

Lemma parse_show (n : N) : parse_int (show n) = Some n.
Proof.
  unfold parse_int, show. rewrite NilEmpty.usu. simpl.
  now rewrite DecimalN.Unsigned.of_to.
Qed.

Lemma show_zero (n : N) : String.eqb (show n) "0" = true <-> n = 0%N.
Proof.
  split.
  - intros H. apply String.eqb_eq in H.
    pose proof (parse_show n) as P. rewrite H in P.
    vm_compute in P. congruence.
  - intros ->. reflexivity.
Qed.

Lemma show_nonzero (n : N) : n <> 0%N -> String.eqb (show n) "0" = false.
Proof.
  intros H. destruct (String.eqb (show n) "0") eqn:E; [|reflexivity].
  apply show_zero in E. contradiction.
Qed.

Lemma chomp_uint (d : Decimal.uint) :
  chomp (NilEmpty.string_of_uint d ++ String LF "") = NilEmpty.string_of_uint d.
Proof.
  induction d; simpl; try reflexivity;
    rewrite IHd; destruct (NilEmpty.string_of_uint d); reflexivity.
Qed.

Lemma chomp_echo_show (n : N) : chomp (echo (show n)) = show n.
Proof. apply chomp_uint. Qed.

(** ** Field splitting *)

Lemma fields_sep (c : ascii) (s : string) :
  is_ifs c = true -> fields (String c s) = fields s.
Proof. intros H. simpl. now rewrite H. Qed.

Lemma fields_word_sep (w : string) (c : ascii) (r : string) :
  is_word w -> is_ifs c = true ->
  fields (w ++ String c r) = w :: fields r.
Proof.
  intros [Hne Hw] Hc. induction w as [|a w IH]; [congruence|].
  simpl in Hw. apply andb_true_iff in Hw as [Ha Hw].
  apply negb_true_iff in Ha.
  destruct w as [|b w'].
  - rewrite sapp_cons, sapp_nil_l. cbn [fields]. rewrite Ha, Hc. reflexivity.
  - assert (Hb : is_ifs b = false).
    { simpl in Hw. apply andb_true_iff in Hw as [Hb _].
      now apply negb_true_iff in Hb. }
    assert (IH' := IH ltac:(discriminate) Hw).
    rewrite !sapp_cons. rewrite sapp_cons in IH'.
    cbn [fields]. rewrite Ha, Hb.
    cbn [fields] in IH'. rewrite Hb in IH'.
    rewrite IH'. reflexivity.
Qed.

Lemma fields_one_word (w : string) : is_word w -> fields w = [w].
Proof.
  intros [Hne Hw]. induction w as [|a w IH]; [congruence|].
  simpl in Hw. apply andb_true_iff in Hw as [Ha Hw].
  apply negb_true_iff in Ha.
  destruct w as [|b w'].
  - simpl. now rewrite Ha.
  - assert (Hb : is_ifs b = false).
    { simpl in Hw. apply andb_true_iff in Hw as [Hb _].
      now apply negb_true_iff in Hb. }
    assert (IH' := IH ltac:(discriminate) Hw).
    cbn [fields]. rewrite Ha, Hb.
    cbn [fields] in IH'. rewrite Hb in IH'.
    rewrite IH'. reflexivity.
Qed.

Lemma fields_join_sp (ws : list string) :
  Forall is_word ws -> fields (join_sp ws) = ws.
Proof.
  induction 1 as [|w ws Hw Hws IH]; [reflexivity|].
  destruct ws as [|w2 ws'].
  - simpl. now apply fields_one_word.
  - change (join_sp (w :: w2 :: ws')) with (w ++ " " ++ join_sp (w2 :: ws')).
    change (" " ++ join_sp (w2 :: ws')) with (String SPC (join_sp (w2 :: ws'))).
    rewrite fields_word_sep by (assumption || reflexivity).
    now rewrite IH.
Qed.

Lemma fields_are_words (s : string) : Forall is_word (fields s).
Proof.
  induction s as [|c s IH]; [constructor|].
  cbn [fields]. destruct (is_ifs c) eqn:Hc; [exact IH|].
  assert (W1 : is_word (String c "")).
  { split; [discriminate|]. simpl. now rewrite Hc. }
  destruct s as [|c' s']; [now constructor|].
  destruct (is_ifs c') eqn:Hc'; [now constructor|].
  destruct (fields (String c' s')) as [|w ws]; [now constructor|].
  inversion IH as [|? ? [Hne Hw] Hws]; subst.
  constructor; [|assumption].
  split; [discriminate|]. simpl. now rewrite Hc, Hw.
Qed.

Lemma resplit_words (ws : list string) : Forall is_word ws -> resplit ws = ws.
Proof.
  unfold resplit. induction 1 as [|w ws Hw Hws IH]; [reflexivity|].
  simpl. rewrite fields_one_word by assumption. simpl. now rewrite IH.
Qed.

(** ** Files of a job directory *)

Lemma touch_lookup_ne (name k : string) (d : gmap string string) :
  name <> k -> touch name d !! k = d !! k.
Proof.
  intros Hne. unfold touch. destruct (d !! name); [reflexivity|].
  now rewrite lookup_insert_ne.
Qed.

Lemma touch_lookup_eq (name : string) (d : gmap string string) :
  is_Some (touch name d !! name).
Proof.
  unfold touch. destruct (d !! name) eqn:E.
  - rewrite E. eauto.
  - rewrite lookup_insert_eq. eauto.
Qed.

Lemma write_lookup_eq (name text : string) (d : gmap string string) :
  write name text d !! name = Some text.
Proof. apply lookup_insert_eq. Qed.

Lemma write_lookup_ne (name text k : string) (d : gmap string string) :
  name <> k -> write name text d !! k = d !! k.
Proof. intros Hne. now apply lookup_insert_ne. Qed.

Lemma append_lookup_eq (name text : string) (d : gmap string string) :
  append name text d !! name = Some (default "" (d !! name) ++ text).
Proof. apply lookup_insert_eq. Qed.

Lemma append_lookup_ne (name text k : string) (d : gmap string string) :
  name <> k -> append name text d !! k = d !! k.
Proof. intros Hne. now apply lookup_insert_ne. Qed.

Lemma rm_f_lookup_eq (name : string) (d : gmap string string) :
  rm_f name d !! name = None.
Proof. apply lookup_delete_eq. Qed.

Lemma rm_f_lookup_ne (name k : string) (d : gmap string string) :
  name <> k -> rm_f name d !! k = d !! k.
Proof. intros Hne. now apply lookup_delete_ne. Qed.

Lemma rm_f_touch (name : string) (d : gmap string string) :
  rm_f name (touch name d) = delete name d.
Proof.
  unfold rm_f, touch. destruct (d !! name); [reflexivity|].
  apply delete_insert_eq.
Qed.

(** ** The shell state at a job record *)

Lemma cur_dir_at (jid : string) (sh : shell) :
  jid <> "" -> DIR sh = Some jid -> cur_dir sh = BASE sh !! jid.
Proof.
  intros Hid HD. unfold cur_dir. rewrite HD.
  destruct (decide (jid = "")); [contradiction | reflexivity].
Qed.

Lemma file_at (name jid : string) (sh : shell) (d : gmap string string) :
  jid <> "" -> DIR sh = Some jid -> BASE sh !! jid = Some d ->
  file name sh = d !! name.
Proof.
  intros Hid HD Hd. unfold file. rewrite (cur_dir_at jid), Hd by assumption.
  reflexivity.
Qed.

Lemma in_dir_at (f : gmap string string -> gmap string string)
  (jid : string) (sh : shell) (d : gmap string string) :
  jid <> "" -> DIR sh = Some jid -> BASE sh !! jid = Some d ->
  in_dir f sh = set_BASE (<[jid := f d]> (BASE sh)) sh.
Proof.
  intros Hid HD Hd. unfold in_dir.
  rewrite (cur_dir_at jid), HD, Hd by assumption. reflexivity.
Qed.

Lemma verify_dir_ok (jid : string) (sh : shell) (d : gmap string string) :
  jid <> "" -> BASE sh !! jid = Some d ->
  verify_dir jid sh = (set_DIR jid sh, true).
Proof.
  intros Hid Hd. unfold verify_dir.
  destruct (decide (jid = "")); [contradiction|].
  unfold test_d. rewrite (cur_dir_at jid) by (assumption || reflexivity).
  simpl. rewrite Hd. reflexivity.
Qed.

Lemma verify_file_ok (name jid : string) (sh : shell)
  (d : gmap string string) (c : string) :
  jid <> "" -> BASE sh !! jid = Some d -> d !! name = Some c ->
  test_r name (fst (verify_dir jid sh)) = true.
Proof.
  intros Hid Hd Hc. rewrite (verify_dir_ok jid sh d) by assumption.
  unfold test_r. rewrite (file_at name jid _ d) by (assumption || reflexivity).
  rewrite Hc. reflexivity.
Qed.

Lemma verify_file_missing (name jid : string) (sh : shell) (d : gmap string string) :
  jid <> "" -> BASE sh !! jid = Some d -> d !! name = None ->
  test_r name (fst (verify_dir jid sh)) = false.
Proof.
  intros Hid Hd Hc. rewrite (verify_dir_ok jid sh d) by assumption.
  unfold test_r. rewrite (file_at name jid _ d) by (assumption || reflexivity).
  rewrite Hc. reflexivity.
Qed.

Lemma verify_state_ok (jid : string) (sh : shell) (d : gmap string string) (st : string) :
  jid <> "" -> BASE sh !! jid = Some d -> d !! "state" = Some st ->
  verify_state jid sh = (set_DIR jid sh, true).
Proof.
  intros Hid Hd Hst. unfold verify_state.
  rewrite (verify_file_ok "state" jid sh d st) by assumption.
  now rewrite (verify_dir_ok jid sh d).
Qed.

Lemma verify_pid_ok (jid : string) (sh : shell) (d : gmap string string) (p : string) :
  jid <> "" -> BASE sh !! jid = Some d -> d !! "pid" = Some p ->
  verify_pid jid sh = (set_DIR jid sh, true).
Proof.
  intros Hid Hd Hp. unfold verify_pid.
  rewrite (verify_file_ok "pid" jid sh d p) by assumption.
  now rewrite (verify_dir_ok jid sh d).
Qed.

Lemma verify_in_ok (jid : string) (sh : shell) (d : gmap string string) (c : string) :
  jid <> "" -> BASE sh !! jid = Some d -> d !! "in" = Some c ->
  verify_in jid sh = (set_DIR jid sh, true).
Proof.
  intros Hid Hd Hc. unfold verify_in.
  rewrite (verify_file_ok "in" jid sh d c) by assumption.
  now rewrite (verify_dir_ok jid sh d).
Qed.

Lemma state_subst_at (jid : string) (sh : shell) (d : gmap string string) (st : string) :
  jid <> "" -> DIR sh = Some jid -> BASE sh !! jid = Some d ->
  d !! "state" = Some st ->
  state_subst sh = last_state_line st.
Proof.
  intros Hid HD Hd Hst. unfold state_subst.
  now rewrite (file_at "state" jid sh d), Hst.
Qed.

Lemma cat_subst_at (name jid : string) (sh : shell) (d : gmap string string) :
  jid <> "" -> DIR sh = Some jid -> BASE sh !! jid = Some d ->
  cat_subst name sh = chomp (default "" (d !! name)).
Proof.
  intros Hid HD Hd. unfold cat_subst. now rewrite (file_at name jid sh d).
Qed.

Lemma test_s_at (name jid : string) (sh : shell) (d : gmap string string) (c : string) :
  jid <> "" -> DIR sh = Some jid -> BASE sh !! jid = Some d ->
  d !! name = Some c -> c <> "" ->
  test_s name sh = true.
Proof.
  intros Hid HD Hd Hc Hne. unfold test_s.
  rewrite (file_at name jid sh d), Hc by assumption.
  apply String.eqb_neq in Hne. now rewrite Hne.
Qed.

(** ** What each handler does at a valid record *)

Lemma cmd_state_ok (jid : string) (sh : shell) (d : gmap string string) (st : string) :
  jid <> "" -> BASE sh !! jid = Some d -> d !! "state" = Some st ->
  cmd_state [jid] sh = mkShell (ERROR sh) (last_state_line st) (Some jid) (BASE sh).
Proof.
  intros Hid Hd Hst. unfold cmd_state. cbn [arg1 hd].
  rewrite (verify_state_ok jid sh d st) by assumption.
  rewrite (state_subst_at jid _ d st) by side.
  reflexivity.
Qed.

Lemma cmd_suspend_ok (kill : string -> string -> N * string)
  (jid : string) (sh : shell) (d : gmap string string) (st p out : string) :
  jid <> "" -> BASE sh !! jid = Some d ->
  d !! "state" = Some st -> d !! "pid" = Some p ->
  last_state_line st = "RUNNING " ->
  kill "STOP" (chomp p) = (0%N, out) ->
  cmd_suspend kill [jid] sh =
    mkShell (ERROR sh) (jid ++ " suspended") (Some jid)
      (<[jid := write "state.susp" (echo "RUNNING  ")
                  (append "state" (echo "SUSPENDED ") (touch "suspended" d))]>
         (BASE sh)).
Proof.
  intros Hid Hd Hst Hp Hrun Hk. unfold cmd_suspend. cbn [arg1 hd].
  rewrite (verify_state_ok jid sh d st) by assumption.
  rewrite (verify_pid_ok jid _ d p) by side.
  rewrite (state_subst_at jid _ d st) by side.
  rewrite (cat_subst_at "pid" jid _ d) by side.
  rewrite Hrun, Hp, String.eqb_refl. cbn [negb].
  change (default "" (Some p)) with p. rewrite Hk.
  change (show 0) with "0". rewrite String.eqb_refl. shell_simpl.
  rewrite (in_dir_at (touch _) jid _ d) by side. shell_simpl.
  rewrite (in_dir_at (append _ _) jid _ (touch "suspended" d)) by side.
  shell_simpl.
  rewrite (in_dir_at (write _ _) jid _
             (append "state" (echo "SUSPENDED ") (touch "suspended" d))) by side.
  shell_simpl. rewrite !insert_insert_eq. reflexivity.
Qed.

Lemma cmd_suspend_wrong_state (kill : string -> string -> N * string)
  (jid : string) (sh : shell) (d : gmap string string) (st p : string) :
  jid <> "" -> BASE sh !! jid = Some d ->
  d !! "state" = Some st -> d !! "pid" = Some p ->
  last_state_line st <> "RUNNING " ->
  cmd_suspend kill [jid] sh =
    mkShell ("job " ++ jid ++ " in incorrect state (" ++ last_state_line st
             ++ " != RUNNING)") (RETVAL sh) (Some jid) (BASE sh).
Proof.
  intros Hid Hd Hst Hp Hrun. unfold cmd_suspend. cbn [arg1 hd].
  rewrite (verify_state_ok jid sh d st) by assumption.
  rewrite (verify_pid_ok jid _ d p) by side.
  rewrite (state_subst_at jid _ d st) by side.
  apply String.eqb_neq in Hrun. rewrite Hrun. reflexivity.
Qed.

Lemma cmd_resume_ok (kill : string -> string -> N * string)
  (jid : string) (sh : shell) (d : gmap string string) (st p snap out : string) :
  jid <> "" -> BASE sh !! jid = Some d ->
  d !! "state" = Some st -> d !! "pid" = Some p ->
  d !! "state.susp" = Some snap -> snap <> "" ->
  last_state_line st = "SUSPENDED " ->
  kill "CONT" (chomp p) = (0%N, out) ->
  cmd_resume kill [jid] sh =
    mkShell (ERROR sh) (jid ++ " resumed") (Some jid)
      (<[jid := rm_f "state.susp" (append "state" snap (touch "resumed" d))]>
         (BASE sh)).
Proof.
  intros Hid Hd Hst Hp Hsnap Hne Hsus Hk. unfold cmd_resume. cbn [arg1 hd].
  rewrite (verify_state_ok jid sh d st) by assumption.
  rewrite (verify_pid_ok jid _ d p) by side.
  rewrite (state_subst_at jid _ d st) by side.
  rewrite (cat_subst_at "pid" jid _ d) by side.
  rewrite Hsus, Hp, String.eqb_refl. cbn [negb].
  change (default "" (Some p)) with p. rewrite Hk.
  change (show 0) with "0". rewrite String.eqb_refl. shell_simpl.
  rewrite (in_dir_at (touch _) jid _ d) by side. shell_simpl.
  assert (Hs : (touch "resumed" d) !! "state.susp" = Some snap)
    by (rewrite touch_lookup_ne by discriminate; exact Hsnap).
  rewrite (test_s_at "state.susp" jid _ (touch "resumed" d) snap)
    by first [exact Hs | exact Hne | side].
  rewrite (file_at "state.susp" jid _ (touch "resumed" d)) by side.
  rewrite Hs. change (default "" (Some snap)) with snap.
  rewrite (in_dir_at (append _ _) jid _ (touch "resumed" d)) by side.
  shell_simpl.
  rewrite (in_dir_at (rm_f _) jid _
             (append "state" snap (touch "resumed" d))) by side.
  shell_simpl. rewrite !insert_insert_eq. reflexivity.
Qed.

Lemma not_final_cond (state : string) :
  negb (String.eqb state "DONE ") && negb (String.eqb state "FAILED ")
  && negb (String.eqb state "CANCELED ") = negb (is_final state).
Proof.
  unfold is_final.
  destruct (String.eqb state "DONE "), (String.eqb state "FAILED "),
    (String.eqb state "CANCELED "); reflexivity.
Qed.

Lemma cmd_result_wrong_state (jid : string) (sh : shell)
  (d : gmap string string) (st : string) :
  jid <> "" -> BASE sh !! jid = Some d -> d !! "state" = Some st ->
  is_final (last_state_line st) = false ->
  cmd_result [jid] sh =
    mkShell ("job " ++ jid ++ " in incorrect state (" ++ last_state_line st
             ++ " != DONE|FAILED|CANCELED)") (RETVAL sh) (Some jid) (BASE sh).
Proof.
  intros Hid Hd Hst Hfin. unfold cmd_result. cbn [arg1 hd].
  rewrite (verify_state_ok jid sh d st) by assumption.
  rewrite (state_subst_at jid _ d st) by side.
  rewrite not_final_cond, Hfin. reflexivity.
Qed.

Lemma cmd_result_final (jid : string) (sh : shell)
  (d : gmap string string) (st : string) :
  jid <> "" -> BASE sh !! jid = Some d -> d !! "state" = Some st ->
  is_final (last_state_line st) = true ->
  cmd_result [jid] sh =
    mkShell (match d !! "exit" with
             | Some _ => ERROR sh
             | None => "job " ++ jid ++ " in incorrect state -- no exit code available"
             end)
            (chomp (default "" (d !! "exit"))) (Some jid) (BASE sh).
Proof.
  intros Hid Hd Hst Hfin. unfold cmd_result. cbn [arg1 hd].
  rewrite (verify_state_ok jid sh d st) by assumption.
  rewrite (state_subst_at jid _ d st) by side.
  rewrite not_final_cond, Hfin. cbn [negb].
  unfold test_r. rewrite (file_at "exit" jid _ d) by side.
  destruct (d !! "exit") as [e|] eqn:He.
  - cbn [negb]. replace (bool_decide (is_Some (Some e))) with true by reflexivity.
    cbn [negb]. rewrite (cat_subst_at "exit" jid _ d) by side.
    rewrite He. reflexivity.
  - replace (bool_decide (is_Some (@None string))) with false by reflexivity.
    cbn [negb]. rewrite (cat_subst_at "exit" jid _ d) by side.
    rewrite He. reflexivity.
Qed.

Lemma cmd_cancel_wrong_state (kill : string -> string -> N * string)
  (jid : string) (sh : shell) (d : gmap string string) (st p : string) :
  jid <> "" -> BASE sh !! jid = Some d ->
  d !! "state" = Some st -> d !! "pid" = Some p ->
  last_state_line st <> "SUSPENDED " -> last_state_line st <> "RUNNING " ->
  cmd_cancel kill [jid] sh =
    mkShell ("job " ++ jid ++ " in incorrect state ('" ++ last_state_line st
             ++ "' != 'SUSPENDED|RUNNING')") (RETVAL sh) (Some jid) (BASE sh).
Proof.
  intros Hid Hd Hst Hp Hs Hr. unfold cmd_cancel. cbn [arg1 hd].
  rewrite (verify_state_ok jid sh d st) by assumption.
  rewrite (verify_pid_ok jid _ d p) by side.
  rewrite (state_subst_at jid _ d st) by side.
  apply String.eqb_neq in Hs, Hr. rewrite Hs, Hr. reflexivity.
Qed.

Lemma cmd_cancel_signalled (kill : string -> string -> N * string)
  (jid : string) (sh : shell) (d : gmap string string) (st p : string) :
  jid <> "" -> BASE sh !! jid = Some d ->
  d !! "state" = Some st -> d !! "pid" = Some p ->
  last_state_line st = "SUSPENDED " \/ last_state_line st = "RUNNING " ->
  cmd_cancel kill [jid] sh =
    let (ECODE, out) := kill "KILL" (chomp p) in
    if String.eqb (show ECODE) "0"
    then mkShell (ERROR sh) (jid ++ " canceled") (Some jid)
           (<[jid := touch "canceled" d]> (BASE sh))
    else mkShell ("cancel failed (" ++ show ECODE ++ "): " ++ out) out (Some jid)
           (<[jid := delete "canceled" d]> (BASE sh)).
Proof.
  intros Hid Hd Hst Hp Hsr. unfold cmd_cancel. cbn [arg1 hd].
  rewrite (verify_state_ok jid sh d st) by assumption.
  rewrite (verify_pid_ok jid _ d p) by side.
  rewrite (state_subst_at jid _ d st) by side.
  rewrite (cat_subst_at "pid" jid _ d) by side.
  rewrite Hp. change (default "" (Some p)) with p.
  assert (Hc : negb (String.eqb (last_state_line st) "SUSPENDED ")
               && negb (String.eqb (last_state_line st) "RUNNING ") = false)
    by (destruct Hsr as [-> | ->]; reflexivity).
  rewrite Hc.
  destruct (kill "KILL" (chomp p)) as [ECODE out].
  rewrite (in_dir_at (touch _) jid _ d) by side. shell_simpl.
  destruct (String.eqb (show ECODE) "0"); [reflexivity|].
  rewrite (in_dir_at (rm_f _) jid _ (touch "canceled" d)) by side.
  shell_simpl. rewrite insert_insert_eq, rm_f_touch. reflexivity.
Qed.

Lemma cmd_stdin_ok (jid : string) (ws : list string) (sh : shell)
  (d : gmap string string) (c : string) :
  jid <> "" -> BASE sh !! jid = Some d -> d !! "in" = Some c ->
  cmd_stdin (jid :: ws) sh =
    mkShell (ERROR sh) "stdin refreshed" (Some jid)
      (<[jid := <["in" := c ++ sh_echo [join_sp ws]]> d]> (BASE sh)).
Proof.
  intros Hid Hd Hc. unfold cmd_stdin. cbn [arg1 hd shift tl].
  rewrite (verify_in_ok jid sh d c) by assumption.
  rewrite (in_dir_at (append _ _) jid _ d) by side.
  shell_simpl. unfold append. rewrite Hc. reflexivity.
Qed.

(** ** The frame of a reply *)

Lemma frame_ok (r : string) (dir : option string) (fs : gmap string (gmap string string)) :
  frame (mkShell "OK" r dir fs) = echo "OK" ++ echo r.
Proof. reflexivity. Qed.

Lemma frame_job_error (msg r : string) (dir : option string)
  (fs : gmap string (gmap string string)) :
  frame (mkShell ("job " ++ msg) r dir fs) = echo "ERROR" ++ echo ("job " ++ msg).
Proof. reflexivity. Qed.

Lemma frame_cancel_failed (msg r : string) (dir : option string)
  (fs : gmap string (gmap string string)) :
  frame (mkShell ("cancel failed (" ++ msg) r dir fs)
  = echo "ERROR" ++ echo ("cancel failed (" ++ msg).
Proof. reflexivity. Qed.

(** * The claims about the wrapper script *)

(** C4.  [WAIT] answers exactly as [STATE] does: the two handlers are the
    same function of the arguments and the shell state, and the command
    loop writes the same frame and leaves the same state for [WAIT rest] as
    for [STATE rest], whatever the job record holds.  [WAIT] does not
    block: it reports the last state line. *)
Theorem wait_reports_like_state :
  (forall (args : list string) (sh : shell), cmd_wait args sh = cmd_state args sh)
  /\ (forall (kill : string -> string -> N * string) (rest : string) (sh : shell),
        listen_step kill ("WAIT " ++ rest) sh
        = listen_step kill ("STATE " ++ rest) sh).
Proof.
  split; [reflexivity|].
  intros kill rest sh. unfold listen_step.
  change ("WAIT " ++ rest) with ("WAIT" ++ String SPC rest).
  change ("STATE " ++ rest) with ("STATE" ++ String SPC rest).
  rewrite !fields_word_sep by (reflexivity || (split; [discriminate | reflexivity])).
  unfold get_cmd, get_args. cbn [arg1 hd shift tl].
  destruct (decide ("WAIT" = "")); [discriminate|].
  destruct (decide ("STATE" = "")); [discriminate|].
  reflexivity.
Qed.

(** C1 (as the code behaves).  At a record whose current state line is
    [RUNNING ], after a successful [SUSPEND] and a successful [RESUME] the
    state line that [STATE] reports is [RUNNING] followed by two spaces:
    [cmd_suspend] snapshots ["$state "], and [$state] already ends in the
    space of the log format.  The restored line differs from the one
    before the suspend, and a further [SUSPEND] is refused as an incorrect
    state. *)
Theorem suspend_resume_pads_state
  (kill1 kill2 kill3 : string -> string -> N * string)
  (jid : string) (sh : shell) (d : gmap string string) (st p out1 out2 : string) :
  jid <> "" -> BASE sh !! jid = Some d ->
  d !! "state" = Some st -> d !! "pid" = Some p ->
  complete st = true -> last_state_line st = "RUNNING " ->
  kill1 "STOP" (chomp p) = (0%N, out1) ->
  kill2 "CONT" (chomp p) = (0%N, out2) ->
  let sh1 := cmd_suspend kill1 [jid] sh in
  let sh2 := cmd_resume kill2 [jid] sh1 in
  RETVAL sh1 = jid ++ " suspended"
  /\ RETVAL (cmd_state [jid] sh1) = "SUSPENDED "
  /\ RETVAL sh2 = jid ++ " resumed"
  /\ ERROR sh2 = ERROR sh
  /\ RETVAL (cmd_state [jid] sh) = "RUNNING "
  /\ RETVAL (cmd_state [jid] sh2) = "RUNNING  "
  /\ ERROR (cmd_suspend kill3 [jid] sh2)
     = "job " ++ jid ++ " in incorrect state (RUNNING   != RUNNING)".
Proof.
  intros Hid Hd Hst Hp Hcomp Hrun Hk1 Hk2 sh1 sh2.
  set (d1 := write "state.susp" (echo "RUNNING  ")
               (append "state" (echo "SUSPENDED ") (touch "suspended" d))).
  assert (E1 : sh1 = mkShell (ERROR sh) (jid ++ " suspended") (Some jid)
                       (<[jid := d1]> (BASE sh)))
    by (apply (cmd_suspend_ok kill1 jid sh d st p out1); assumption).
  assert (Hst1 : d1 !! "state" = Some (st ++ echo "SUSPENDED ")).
  { unfold d1. rewrite write_lookup_ne by discriminate.
    rewrite append_lookup_eq, touch_lookup_ne by discriminate.
    now rewrite Hst. }
  assert (Hp1 : d1 !! "pid" = Some p).
  { unfold d1. rewrite write_lookup_ne, append_lookup_ne, touch_lookup_ne
      by discriminate. exact Hp. }
  assert (Hs1 : d1 !! "state.susp" = Some (echo "RUNNING  "))
    by apply write_lookup_eq.
  assert (Hl1 : last_state_line (st ++ echo "SUSPENDED ") = "SUSPENDED ")
    by (rewrite last_state_line_app by (assumption || discriminate); reflexivity).
  assert (Hd1 : BASE sh1 !! jid = Some d1)
    by (rewrite E1; apply lookup_insert_eq).
  set (d2 := rm_f "state.susp"
               (append "state" (echo "RUNNING  ") (touch "resumed" d1))).
  assert (E2 : sh2 = mkShell (ERROR sh1) (jid ++ " resumed") (Some jid)
                       (<[jid := d2]> (BASE sh1)))
    by (apply (cmd_resume_ok kill2 jid sh1 d1 (st ++ echo "SUSPENDED ") p
                 (echo "RUNNING  ") out2); assumption || discriminate).
  assert (Hst2 : d2 !! "state"
                 = Some ((st ++ echo "SUSPENDED ") ++ echo "RUNNING  ")).
  { unfold d2. rewrite rm_f_lookup_ne by discriminate.
    rewrite append_lookup_eq, touch_lookup_ne by discriminate.
    now rewrite Hst1. }
  assert (Hp2 : d2 !! "pid" = Some p).
  { unfold d2. rewrite rm_f_lookup_ne, append_lookup_ne, touch_lookup_ne
      by discriminate. exact Hp1. }
  assert (Hl2 : last_state_line ((st ++ echo "SUSPENDED ") ++ echo "RUNNING  ")
                = "RUNNING  ").
  { rewrite last_state_line_app; [reflexivity | | discriminate].
    apply complete_app; [discriminate | reflexivity]. }
  assert (Hd2 : BASE sh2 !! jid = Some d2)
    by (rewrite E2; apply lookup_insert_eq).
  repeat split.
  - now rewrite E1.
  - rewrite (cmd_state_ok jid sh1 d1 _ Hid Hd1 Hst1). exact Hl1.
  - now rewrite E2.
  - rewrite E2, E1. reflexivity.
  - rewrite (cmd_state_ok jid sh d st Hid Hd Hst). exact Hrun.
  - rewrite (cmd_state_ok jid sh2 d2 _ Hid Hd2 Hst2). exact Hl2.
  - rewrite (cmd_suspend_wrong_state kill3 jid sh2 d2 _ p Hid Hd2 Hst2 Hp2)
      by (rewrite Hl2; discriminate).
    cbn [ERROR]. rewrite Hl2. reflexivity.
Qed.

Lemma suspend_resume_pads_state_witness :
  RETVAL (cmd_state ["42"] (cmd_resume kill_ok ["42"] (cmd_suspend kill_ok ["42"] sh0)))
  = "RUNNING  "
  /\ ERROR (cmd_suspend kill_ok ["42"]
              (cmd_resume kill_ok ["42"] (cmd_suspend kill_ok ["42"] sh0)))
     = "job 42 in incorrect state (RUNNING   != RUNNING)".
Proof.
  pose proof (suspend_resume_pads_state kill_ok kill_ok kill_ok "42" sh0
                running_job
                ("NEW " ++ String LF ("RUNNING " ++ String LF ""))
                ("4711" ++ String LF "") "" ""
                ltac:(discriminate) ltac:(reflexivity) ltac:(reflexivity)
                ltac:(reflexivity) ltac:(reflexivity) ltac:(reflexivity)
                ltac:(reflexivity) ltac:(reflexivity)) as H.
  cbv zeta in H.
  destruct H as (_ & _ & _ & _ & _ & H6 & H7). split; assumption.
Defined.

(** C5, counterexample.  At a running job whose [canceled] marker is
    already present, a [CANCEL] whose [kill] fails replies with the
    [cancel failed] error and has removed the marker: the record is not
    what it was before the call. *)
Lemma cancel_error_changes_record :
  frame (cmd_cancel kill_fails ["42"] sh_marked)
  = echo "ERROR" ++ echo "cancel failed (1): kill: No such process"
  /\ BASE sh_marked !! "42" = Some marked_job
  /\ marked_job !! "canceled" = Some ""
  /\ (forall d', BASE (cmd_cancel kill_fails ["42"] sh_marked) !! "42" = Some d' ->
      d' !! "canceled" = None /\ d' <> marked_job).
Proof.
  split; [reflexivity|]. split; [reflexivity|]. split; [reflexivity|].
  intros d' H. vm_compute in H. injection H as <-.
  split; [reflexivity|].
  intros E. apply (f_equal (fun m : gmap string string => m !! "canceled")) in E.
  vm_compute in E. discriminate.
Qed.

(** C5 (amended).  At a valid record with a pid file, [CANCEL] in a
    current state other than [RUNNING ] and [SUSPENDED ] replies with the
    incorrect-state error and leaves the store as it was.  In one of the
    two states it touches the [canceled] marker and sends the signal: when
    [kill] succeeds the reply is ["<id> canceled"] and the marker stays
    for the monitor; when [kill] fails the reply is the [cancel failed]
    error and the record is the old one without a [canceled] marker, hence
    unchanged when no marker was there before the call. *)
Theorem cancel_outcomes (kill : string -> string -> N * string)
  (jid : string) (sh : shell) (d : gmap string string) (st p : string) :
  jid <> "" -> BASE sh !! jid = Some d ->
  d !! "state" = Some st -> d !! "pid" = Some p ->
  ERROR sh = "OK" ->
  let state := last_state_line st in
  let sh' := cmd_cancel kill [jid] sh in
  (state <> "SUSPENDED " -> state <> "RUNNING " ->
     frame sh' = echo "ERROR"
                 ++ echo ("job " ++ jid ++ " in incorrect state ('" ++ state
                          ++ "' != 'SUSPENDED|RUNNING')")
     /\ BASE sh' = BASE sh)
  /\ (state = "SUSPENDED " \/ state = "RUNNING " ->
      fst (kill "KILL" (chomp p)) = 0%N ->
      frame sh' = echo "OK" ++ echo (jid ++ " canceled")
      /\ BASE sh' = <[jid := touch "canceled" d]> (BASE sh)
      /\ is_Some (touch "canceled" d !! "canceled"))
  /\ (state = "SUSPENDED " \/ state = "RUNNING " ->
      fst (kill "KILL" (chomp p)) <> 0%N ->
      frame sh' = echo "ERROR"
                  ++ echo ("cancel failed (" ++ show (fst (kill "KILL" (chomp p)))
                           ++ "): " ++ snd (kill "KILL" (chomp p)))
      /\ BASE sh' = <[jid := delete "canceled" d]> (BASE sh)
      /\ (d !! "canceled" = None -> BASE sh' = BASE sh)).
Proof.
  intros Hid Hd Hst Hp Herr state sh'. repeat split.
  - unfold sh'.
    rewrite (cmd_cancel_wrong_state kill jid sh d st p) by assumption.
    apply frame_job_error.
  - unfold sh'.
    now rewrite (cmd_cancel_wrong_state kill jid sh d st p) by assumption.
  - unfold sh'.
    rewrite (cmd_cancel_signalled kill jid sh d st p) by assumption.
    destruct (kill "KILL" (chomp p)) as [ECODE out]. cbn [fst] in *. subst ECODE.
    change (show 0) with "0". rewrite String.eqb_refl, Herr. apply frame_ok.
  - unfold sh'.
    rewrite (cmd_cancel_signalled kill jid sh d st p) by assumption.
    destruct (kill "KILL" (chomp p)) as [ECODE out]. cbn [fst] in *. subst ECODE.
    reflexivity.
  - apply touch_lookup_eq.
  - unfold sh'.
    rewrite (cmd_cancel_signalled kill jid sh d st p) by assumption.
    destruct (kill "KILL" (chomp p)) as [ECODE out]. cbn [fst snd] in *.
    rewrite show_nonzero by assumption. apply frame_cancel_failed.
  - unfold sh'.
    rewrite (cmd_cancel_signalled kill jid sh d st p) by assumption.
    destruct (kill "KILL" (chomp p)) as [ECODE out]. cbn [fst snd] in *.
    rewrite show_nonzero by assumption. reflexivity.
  - intros Hnone. unfold sh'.
    rewrite (cmd_cancel_signalled kill jid sh d st p) by assumption.
    destruct (kill "KILL" (chomp p)) as [ECODE out]. cbn [fst snd] in *.
    rewrite show_nonzero by assumption. cbn [BASE].
    rewrite delete_id by assumption. now apply insert_id.
Qed.

Lemma cancel_outcomes_witness :
  frame (cmd_cancel kill_ok ["42"] sh0) = echo "OK" ++ echo "42 canceled"
  /\ BASE (cmd_cancel kill_fails ["42"] sh0) = BASE sh0
  /\ frame (cmd_cancel kill_ok ["42"] sh_failed)
     = echo "ERROR"
       ++ echo "job 42 in incorrect state ('FAILED ' != 'SUSPENDED|RUNNING')".
Proof.
  pose proof (cancel_outcomes kill_ok "42" sh0 running_job
                ("NEW " ++ String LF ("RUNNING " ++ String LF ""))
                ("4711" ++ String LF "")
                ltac:(discriminate) ltac:(reflexivity) ltac:(reflexivity)
                ltac:(reflexivity) ltac:(reflexivity)) as (_ & H2 & _).
  pose proof (cancel_outcomes kill_fails "42" sh0 running_job
                ("NEW " ++ String LF ("RUNNING " ++ String LF ""))
                ("4711" ++ String LF "")
                ltac:(discriminate) ltac:(reflexivity) ltac:(reflexivity)
                ltac:(reflexivity) ltac:(reflexivity)) as (_ & _ & H3).
  pose proof (cancel_outcomes kill_ok "42" sh_failed failed_job
                ("NEW " ++ String LF ("RUNNING " ++ String LF ("FAILED " ++ String LF "")))
                ("4711" ++ String LF "")
                ltac:(discriminate) ltac:(reflexivity) ltac:(reflexivity)
                ltac:(reflexivity) ltac:(reflexivity)) as (H1 & _ & _).
  split; [|split].
  - apply H2; [right; reflexivity | reflexivity].
  - apply H3; [right; reflexivity | discriminate | reflexivity].
  - apply H1; discriminate.
Defined.

(** C6.  At a valid record, [RESULT] replies [OK] with the content of the
    [exit] file (its trailing newline stripped; the decimal numeral the
    monitor wrote) exactly when the current state line is [DONE ],
    [FAILED ] or [CANCELED ] and [exit] is readable.  In any other current
    state the reply is the error ["job <id> in incorrect state (...)"],
    [RETVAL] is not assigned and the store is untouched; in a final state
    without a readable [exit] the reply is the error
    ["job <id> in incorrect state -- no exit code available"]. *)
Theorem result_only_when_final
  (jid : string) (sh : shell) (d : gmap string string) (st : string) :
  jid <> "" -> BASE sh !! jid = Some d -> d !! "state" = Some st ->
  ERROR sh = "OK" ->
  let state := last_state_line st in
  let sh' := cmd_result [jid] sh in
  BASE sh' = BASE sh
  /\ (is_final state = false ->
      frame sh' = echo "ERROR"
                  ++ echo ("job " ++ jid ++ " in incorrect state (" ++ state
                           ++ " != DONE|FAILED|CANCELED)")
      /\ RETVAL sh' = RETVAL sh)
  /\ (is_final state = true -> d !! "exit" = None ->
      frame sh' = echo "ERROR"
                  ++ echo ("job " ++ jid
                           ++ " in incorrect state -- no exit code available"))
  /\ (forall e, is_final state = true -> d !! "exit" = Some e ->
      frame sh' = echo "OK" ++ echo (chomp e))
  /\ (forall n, is_final state = true -> d !! "exit" = Some (echo (show n)) ->
      RETVAL sh' = show n /\ parse_int (RETVAL sh') = Some n)
  /\ (is_final state = true <->
      state = "DONE " \/ state = "FAILED " \/ state = "CANCELED ").
Proof.
  intros Hid Hd Hst Herr state sh'.
  split; [|split; [|split; [|split; [|split]]]].
  - unfold sh'. destruct (is_final state) eqn:Hf.
    + now rewrite (cmd_result_final jid sh d st).
    + now rewrite (cmd_result_wrong_state jid sh d st).
  - intros Hf. unfold sh'.
    rewrite (cmd_result_wrong_state jid sh d st) by assumption.
    split; [apply frame_job_error | reflexivity].
  - intros Hf He. unfold sh'.
    rewrite (cmd_result_final jid sh d st) by assumption.
    rewrite He. apply frame_job_error.
  - intros e Hf He. unfold sh'.
    rewrite (cmd_result_final jid sh d st) by assumption.
    rewrite He, Herr. apply frame_ok.
  - intros n Hf He. unfold sh'.
    rewrite (cmd_result_final jid sh d st) by assumption.
    rewrite He. cbn [RETVAL]. change (default "" (Some (echo (show n)))) with (echo (show n)).
    rewrite chomp_echo_show. split; [reflexivity | apply parse_show].
  - unfold is_final. rewrite !orb_true_iff, !String.eqb_eq. tauto.
Qed.

Lemma result_only_when_final_witness :
  frame (cmd_result ["42"] sh_failed) = echo "OK" ++ echo "7"
  /\ frame (cmd_result ["42"] sh0)
     = echo "ERROR"
       ++ echo "job 42 in incorrect state (RUNNING  != DONE|FAILED|CANCELED)".
Proof.
  pose proof (result_only_when_final "42" sh_failed failed_job
                ("NEW " ++ String LF ("RUNNING " ++ String LF ("FAILED " ++ String LF "")))
                ltac:(discriminate) ltac:(reflexivity) ltac:(reflexivity)
                ltac:(reflexivity)) as (_ & _ & _ & H4 & _).
  pose proof (result_only_when_final "42" sh0 running_job
                ("NEW " ++ String LF ("RUNNING " ++ String LF ""))
                ltac:(discriminate) ltac:(reflexivity) ltac:(reflexivity)
                ltac:(reflexivity)) as (_ & H2 & _).
  split.
  - apply (H4 ("7" ++ String LF "")); reflexivity.
  - apply H2. reflexivity.
Defined.

(** C2.  When [wait] has returned [retv] and neither the [suspended] nor
    the [resumed] marker exists, the monitor leaves its loop having
    written the decimal [retv] to [exit], appended [DONE ] to the state
    log if [retv] is 0 and [FAILED ] otherwise, appended [CANCELED ] as
    well exactly when the [canceled] marker existed, and removed that
    marker; every other file is untouched.  So [exit] parses as [retv],
    [DONE ] was logged only for [retv = 0] and [FAILED ] only for
    [retv <> 0], and without a marker the logged token is the current
    state of a log that ended in a newline. *)
Theorem monitor_records_exit (retv : N) (d : gmap string string) :
  d !! "suspended" = None -> d !! "resumed" = None ->
  let st := default "" (d !! "state") in
  let token := if N.eqb retv 0 then "DONE " else "FAILED " in
  let canceled := match d !! "canceled" with Some _ => true | None => false end in
  exists d',
    monitor_body retv d = (d', false)
    /\ d' !! "exit" = Some (echo (show retv))
    /\ parse_int (chomp (echo (show retv))) = Some retv
    /\ d' !! "state"
       = Some (st ++ echo token ++ (if canceled then echo "CANCELED " else ""))
    /\ d' !! "canceled" = None
    /\ (forall k, k <> "exit" -> k <> "state" -> k <> "canceled" ->
        d' !! k = d !! k)
    /\ (token = "DONE " <-> retv = 0%N)
    /\ (token = "FAILED " <-> retv <> 0%N)
    /\ (complete st = true -> canceled = false ->
        last_state_line (st ++ echo token) = token).
Proof.
  intros Hs Hr st token canceled. unfold monitor_body.
  rewrite Hs, Hr.
  replace (bool_decide (is_Some (@None string))) with false by reflexivity.
  set (t := if String.eqb (show retv) "0" then echo "DONE " else echo "FAILED ").
  assert (Ht : t = echo token).
  { unfold t, token. destruct (N.eqb_spec retv 0) as [->|Hne].
    - reflexivity.
    - now rewrite show_nonzero. }
  set (d1 := write "exit" (echo (show retv)) d).
  set (d2 := append "state" t d1).
  assert (E2 : (let d := if String.eqb (show retv) "0"
                         then append "state" (echo "DONE ") d1 else d1 in
                if String.eqb (show retv) "0" then d
                else append "state" (echo "FAILED ") d) = d2)
    by (unfold d2, t; destruct (String.eqb (show retv) "0"); reflexivity).
  cbv zeta in E2. cbv zeta. fold d1. rewrite E2. clear E2.
  assert (Hc2 : d2 !! "canceled" = d !! "canceled").
  { unfold d2, d1. now rewrite append_lookup_ne, write_lookup_ne by discriminate. }
  assert (Hst2 : d2 !! "state" = Some (st ++ echo token)).
  { unfold d2, d1. rewrite append_lookup_eq, write_lookup_ne by discriminate.
    now rewrite Ht. }
  assert (Hex2 : d2 !! "exit" = Some (echo (show retv))).
  { unfold d2. rewrite append_lookup_ne by discriminate. apply write_lookup_eq. }
  assert (Hk2 : forall k, k <> "exit" -> k <> "state" -> d2 !! k = d !! k).
  { intros k H1 H2. unfold d2, d1.
    now rewrite append_lookup_ne, write_lookup_ne by congruence. }
  assert (Htok : token = "DONE " <-> retv = 0%N).
  { unfold token. destruct (N.eqb_spec retv 0); split; congruence. }
  assert (Htok' : token = "FAILED " <-> retv <> 0%N).
  { unfold token. destruct (N.eqb_spec retv 0); split; congruence. }
  assert (Hlast : complete st = true -> last_state_line (st ++ echo token) = token).
  { intros Hco. rewrite last_state_line_app; [| assumption |];
      unfold token; destruct (N.eqb retv 0); reflexivity || discriminate. }
  unfold canceled. rewrite Hc2. destruct (d !! "canceled") as [c|] eqn:Hc.
  - replace (bool_decide (is_Some (Some c))) with true by reflexivity.
    assert (Hc3 : append "state" (echo "CANCELED ") d2 !! "canceled" = Some c)
      by (rewrite append_lookup_ne by discriminate; congruence).
    rewrite Hc3.
    replace (bool_decide (is_Some (Some c))) with true by reflexivity.
    eexists. split; [reflexivity|]. repeat split.
    + now rewrite rm_f_lookup_ne, append_lookup_ne by discriminate.
    + rewrite chomp_echo_show. apply parse_show.
    + rewrite rm_f_lookup_ne by discriminate.
      rewrite append_lookup_eq, Hst2.
      change (default "" (Some (st ++ echo token))) with (st ++ echo token).
      now rewrite string_app_assoc.
    + apply rm_f_lookup_eq.
    + intros k H1 H2 H3.
      rewrite rm_f_lookup_ne, append_lookup_ne by congruence. now apply Hk2.
    + apply Htok.
    + apply Htok.
    + apply Htok'.
    + apply Htok'.
    + intros _ Hf. discriminate.
  - replace (bool_decide (is_Some (@None string))) with false by reflexivity.
    cbv iota. rewrite Hc2.
    replace (bool_decide (is_Some (@None string))) with false by reflexivity.
    exists d2. split; [reflexivity|]. repeat split.
    + exact Hex2.
    + rewrite chomp_echo_show. apply parse_show.
    + rewrite Hst2. now rewrite string_app_nil.
    + congruence.
    + intros k H1 H2 _. now apply Hk2.
    + apply Htok.
    + apply Htok.
    + apply Htok'.
    + apply Htok'.
    + intros Hco _. now apply Hlast.
Qed.

Lemma monitor_records_exit_witness :
  exists d',
    monitor_body 137 marked_job = (d', false)
    /\ d' !! "exit" = Some (echo "137")
    /\ d' !! "state"
       = Some (default "" (marked_job !! "state")
               ++ echo "FAILED " ++ echo "CANCELED ").
Proof.
  destruct (monitor_records_exit 137 marked_job ltac:(reflexivity) ltac:(reflexivity))
    as (d' & H1 & H2 & _ & H4 & _).
  exists d'. split; [exact H1|]. split; [exact H2 | exact H4].
Defined.

Lemma sh_echo_words (ws : list string) :
  echo_option (hd "" ws) = false -> sh_echo ws = echo (join_sp ws).
Proof.
  destruct ws as [|w rest]; [reflexivity|]. cbn [hd]. intros H. unfold sh_echo.
  destruct (String.eqb w "-n") eqn:E; [|reflexivity].
  apply String.eqb_eq in E. subst w. discriminate.
Qed.

Lemma listen_stdin_step (kill : string -> string -> N * string)
  (LINE jid : string) (ws : list string) (sh : shell)
  (d : gmap string string) (c : string) :
  fields LINE = "STDIN" :: jid :: ws ->
  BASE sh !! jid = Some d -> d !! "in" = Some c ->
  listen_step kill LINE sh
  = Some (mkShell "OK" "stdin refreshed" (Some jid)
            (<[jid := <["in" := c ++ sh_echo [join_sp ws]]> d]> (BASE sh)),
          echo "OK" ++ echo "stdin refreshed").
Proof.
  intros HL Hd Hc.
  assert (HW : Forall is_word ("STDIN" :: jid :: ws))
    by (rewrite <- HL; apply fields_are_words).
  assert (HW' : Forall is_word (jid :: ws)) by (inversion HW; assumption).
  assert (Hid : jid <> "") by (inversion HW' as [|? ? [? _] _]; assumption).
  unfold listen_step. rewrite HL. unfold get_cmd, get_args.
  cbn [arg1 hd shift tl].
  destruct (decide ("STDIN" = "")); [discriminate|].
  shell_simpl. unfold dispatch.
  replace (String.eqb "OK" "OK") with true by reflexivity. cbn [negb].
  replace (String.eqb "STDIN" "SUSPEND") with false by reflexivity.
  replace (String.eqb "STDIN" "RESUME") with false by reflexivity.
  replace (String.eqb "STDIN" "CANCEL") with false by reflexivity.
  replace (String.eqb "STDIN" "RESULT") with false by reflexivity.
  replace (String.eqb "STDIN" "STATE") with false by reflexivity.
  replace (String.eqb "STDIN" "WAIT") with false by reflexivity.
  replace (String.eqb "STDIN" "STDIN") with true by reflexivity.
  rewrite fields_join_sp by assumption.
  rewrite (cmd_stdin_ok jid ws _ d c) by side.
  reflexivity.
Qed.




(** * The claims about [saga/task.py] *)

Import TaskPy.

Lemma tstate_eqb_eq (a b : tstate) : tstate_eqb a b = true <-> a = b.
Proof. destruct a, b; simpl; split; congruence. Qed.

Lemma trace_bind {float A B : Type} (m : M float A) (k : A -> M float B) :
  trace float (bind float m k)
  = (trace float m
     ++ match outcome float m with
        | inr a => trace float (k a)
        | inl _ => []
        end)%list.
Proof.
  destruct m as [tr [e|a]]; simpl.
  - now rewrite app_nil_r.
  - destruct (k a). reflexivity.
Qed.

Lemma for_each_trace {float A S : Type} (P : call float -> Prop)
  (body : A -> S -> M float S) (xs : list A) :
  (forall x s, Forall P (trace float (body x s))) ->
  forall s, Forall P (trace float (for_each float xs body s)).
Proof.
  intros Hbody. induction xs as [|x xs IH]; intros s.
  - constructor.
  - cbn [for_each]. rewrite trace_bind. apply Forall_app. split.
    + apply Hbody.
    + destruct (outcome float (body x s)); [constructor | apply IH].
Qed.

Lemma poll_no_result (threads : list SagaThread) :
  Forall (fun th => get_state th <> FAILED) threads ->
  poll threads = inr PyNone.
Proof.
  induction 1 as [|th ths Hth _ IH]; [reflexivity|].
  cbn [poll]. destruct (tstate_eqb (get_state th) FAILED) eqn:E.
  - apply tstate_eqb_eq in E. contradiction.
  - exact IH.
Qed.

(** C3 (as the code behaves).  [_wait_any] tests [thread.isAlive], the
    bound method, where [Container.run] calls [thread.isAlive ()]; a bound
    method is true, so the branch that returns the worker's result is
    never taken.  Whenever no worker has failed, [_wait_any], and
    [wait (ANY, t)] on a non-empty container, fall off the loop and
    return [None], also when every worker has completed with a task. *)
Theorem wait_any_returns_none (float : Type) (minus_one : float)
  (thread_state : nat -> tstate) (Run : work float -> SagaThread)
  (self : Container) (t : float) :
  (forall w, get_state (Run w) <> FAILED) ->
  _wait_any float Run self t = inr PyNone
  /\ (tasks self <> [] ->
      wait float minus_one thread_state Run self ANY (Some t) = ([], inr PyNone)).
Proof.
  intros HRun.
  assert (H : _wait_any float Run self t = inr PyNone).
  { unfold _wait_any. apply poll_no_result. unfold start_workers.
    apply Forall_app. split; apply Forall_map, Forall_forall; intros; apply HRun. }
  split; [exact H|].
  intros Hne. unfold wait. destruct (tasks self); [contradiction|].
  cbn [length Nat.eqb]. now rewrite H.
Qed.

Lemma wait_any_returns_none_witness :
  get_state finished_worker = DONE
  /\ isAlive_called finished_worker = false
  /\ get_result finished_worker = PyTaskList [7]
  /\ _wait_any Z (fun _ => finished_worker) one_task 5%Z = inr PyNone.
Proof.
  split; [reflexivity|]. split; [reflexivity|]. split; [reflexivity|].
  apply (wait_any_returns_none Z (-1)%Z (fun _ => DONE)
           (fun _ => finished_worker) one_task 5%Z).
  intros w. discriminate.
Defined.

(** C7, counterexample.  [run ()] on a finished task that has an adaptor
    and no thread is no no-op: it issues the adaptor's [task_run] again. *)
Lemma run_reissues_task_run :
  state done_task <> NEW
  /\ Task_run Z done_task = ([task_run 1 7], inr tt)
  /\ Task_run Z done_task <> ret Z tt.
Proof.
  split; [discriminate|]. split; [reflexivity | discriminate].
Qed.

(** C7 (amended).  [Task.run] does not look at the task's state: in every
    state it hands exactly one call to its delegate, the wrapped thread's
    [run ()] if the task wraps a thread and the adaptor's [task_run (self)]
    otherwise, assigns nothing itself and raises nothing when there is a
    delegate; two calls of [run ()] hand two calls to the delegate. *)
Theorem run_delegates_in_every_state (float : Type) (t : Task) (s : tstate) :
  Task_run float (_set_state s t) = Task_run float t
  /\ (forall th, _thread t = Some th ->
      Task_run float t = ([thread_run th], inr tt))
  /\ (forall a, _thread t = None -> _adaptor t = Some a ->
      Task_run float t = ([task_run (a_oid a) (oid t)], inr tt))
  /\ (_thread t <> None \/ _adaptor t <> None ->
      exists c, Task_run float t = ([c], inr tt)
                /\ bind float (Task_run float t) (fun _ => Task_run float t)
                   = ([c; c], inr tt)).
Proof.
  split; [reflexivity|]. split; [|split].
  - intros th H. unfold Task_run. now rewrite H.
  - intros a H1 H2. unfold Task_run. now rewrite H1, H2.
  - intros H. unfold Task_run.
    destruct (_thread t) as [th|]; [eexists; split; reflexivity|].
    destruct (_adaptor t) as [a|]; [eexists; split; reflexivity|].
    destruct H; congruence.
Qed.

Lemma run_delegates_in_every_state_witness :
  Task_run Z (_set_state NEW done_task) = Task_run Z done_task
  /\ Task_run Z done_task = ([task_run 1 7], inr tt).
Proof.
  destruct (run_delegates_in_every_state Z done_task NEW) as (H1 & _ & H3 & _).
  split; [exact H1|].
  apply (H3 plain_adaptor); reflexivity.
Defined.

(** C8 (as the code behaves).  [remove] calls [self.tasks.delete (task)],
    and [delete] is no attribute of a list: for a task that is in the
    list the call raises [AttributeError] and nothing is removed; for a
    task that is not in the list [remove] does nothing.  The list method
    [remove] would have removed the task by value. *)
Theorem remove_member_raises (t : Task) (self : Container) :
  (py_in t (tasks self) = true ->
     remove t self = inl (AttributeError "list" "delete")
     /\ list_call "remove" t (tasks self) = inr (remove_first t (tasks self)))
  /\ (py_in t (tasks self) = false -> remove t self = inr self).
Proof.
  split; intros H; unfold remove; rewrite H.
  - split; [reflexivity|]. unfold list_call.
    replace (existsb (String.eqb "remove") list_attributes) with true by reflexivity.
    cbn [negb].
    replace (String.eqb "remove" "append") with false by reflexivity.
    replace (String.eqb "remove" "remove") with true by reflexivity.
    now rewrite H.
  - reflexivity.
Qed.

Lemma remove_member_raises_witness :
  py_in done_task (tasks two_tasks) = true
  /\ remove done_task two_tasks = inl (AttributeError "list" "delete")
  /\ get_size two_tasks = 2.
Proof.
  split; [reflexivity|]. split; [|reflexivity].
  apply (remove_member_raises done_task two_tasks). reflexivity.
Defined.

(** C9 (as the code behaves).  In [_wait_all] every [container_wait] call
    of a bound bucket receives the mode [ALL] and the timeout [t], but the
    unbound tasks are waited for with [task.wait ()], without the timeout:
    the adaptor's [task_wait] then receives [-1.0], and a wrapped thread
    is waited for with no timeout at all.  No other call is made. *)
Theorem wait_all_timeouts (float : Type) (minus_one : float)
  (thread_state : nat -> tstate) (self : Container) (t : float) :
  Forall (fun c =>
            match c with
            | container_wait _ _ mode timeout => mode = ALL /\ timeout = t
            | task_wait _ _ timeout => timeout = minus_one
            | thread_wait _ => True
            | _ => False
            end)
         (trace float (_wait_all float minus_one thread_state self t)).
Proof.
  unfold _wait_all. rewrite trace_bind. apply Forall_app. split.
  - apply for_each_trace. intros [c ms] s. rewrite trace_bind.
    apply Forall_app. split.
    + repeat constructor.
    + cbn [outcome emit snd fst]. destruct (bucket_tasks ms); constructor.
  - destruct (outcome float _); [constructor|].
    apply for_each_trace. intros task s. rewrite trace_bind.
    apply Forall_app. split.
    + unfold Task_wait. destruct (_thread task).
      * repeat constructor.
      * destruct (_adaptor task); repeat constructor.
    + destruct (outcome float _); constructor.
Qed.

(** [_wait_all] at a container with one bound and one unbound task and a
    timeout of 5: the bucket is waited for with 5, the unbound task with
    [-1]. *)
Example wait_all_drops_timeout :
  _wait_all Z (-1)%Z (fun _ => DONE) two_tasks 5%Z
  = ([container_wait 9 [8] ALL 5%Z; task_wait 1 7 (-1)%Z], inr (PyTask 7)).
Proof. reflexivity. Qed.

(** * Further properties of the wrapper script *)

(** ** The helpers never write *)

Lemma verify_dir_BASE (a1 : string) (sh : shell) :
  BASE (fst (verify_dir a1 sh)) = BASE sh.
Proof.
  unfold verify_dir. destruct (decide (a1 = "")); [reflexivity|].
  destruct (test_d (set_DIR a1 sh)); reflexivity.
Qed.

Ltac verify_BASE :=
  intros;
  match goal with
  | |- BASE (fst (?v ?a ?sh)) = BASE ?sh =>
      unfold v; pose proof (verify_dir_BASE a sh);
      destruct (test_r _ (fst (verify_dir a sh))); assumption
  end.

Lemma verify_state_BASE (a1 : string) (sh : shell) :
  BASE (fst (verify_state a1 sh)) = BASE sh.
Proof. verify_BASE. Qed.

Lemma verify_pid_BASE (a1 : string) (sh : shell) :
  BASE (fst (verify_pid a1 sh)) = BASE sh.
Proof. verify_BASE. Qed.

Lemma verify_in_BASE (a1 : string) (sh : shell) :
  BASE (fst (verify_in a1 sh)) = BASE sh.
Proof. verify_BASE. Qed.

Lemma verify_out_BASE (a1 : string) (sh : shell) :
  BASE (fst (verify_out a1 sh)) = BASE sh.
Proof. verify_BASE. Qed.

Lemma verify_err_BASE (a1 : string) (sh : shell) :
  BASE (fst (verify_err a1 sh)) = BASE sh.
Proof. verify_BASE. Qed.

(** Name the result of a [verify_*] call and keep what it does to the
    store. *)
Ltac name_verify lem a sh sh1 ok H :=
  pose proof (lem a sh) as H;
  match type of H with
  | BASE (fst ?call) = _ => destruct call as [sh1 ok]; cbn [fst] in H
  end.

Ltac split_ifs :=
  repeat match goal with
         | |- context [if ?b then _ else _] => destruct b
         end.

Lemma cmd_state_BASE (args : list string) (sh : shell) :
  BASE (cmd_state args sh) = BASE sh.
Proof.
  unfold cmd_state. name_verify verify_state_BASE (arg1 args) sh sh1 ok H.
  destruct ok; exact H.
Qed.

Lemma cmd_wait_BASE (args : list string) (sh : shell) :
  BASE (cmd_wait args sh) = BASE sh.
Proof.
  unfold cmd_wait. name_verify verify_state_BASE (arg1 args) sh sh1 ok H.
  destruct ok; exact H.
Qed.

Lemma cmd_result_BASE (args : list string) (sh : shell) :
  BASE (cmd_result args sh) = BASE sh.
Proof.
  unfold cmd_result. name_verify verify_state_BASE (arg1 args) sh sh1 ok H.
  destruct ok; [|exact H]. split_ifs; exact H.
Qed.

(** X1.  The verbs that only report ([STATE], [WAIT], [RESULT], [STDOUT],
    [STDERR]) leave the whole job store as it is, whatever their
    arguments and whatever the records hold. *)
Theorem reporting_verbs_keep_store (uuencode : string -> string)
  (args : list string) (sh : shell) :
  BASE (cmd_state args sh) = BASE sh
  /\ BASE (cmd_wait args sh) = BASE sh
  /\ BASE (cmd_result args sh) = BASE sh
  /\ BASE (cmd_stdout uuencode args sh) = BASE sh
  /\ BASE (cmd_stderr uuencode args sh) = BASE sh.
Proof.
  split; [apply cmd_state_BASE|]. split; [apply cmd_wait_BASE|].
  split; [apply cmd_result_BASE|]. split.
  - unfold cmd_stdout. name_verify verify_out_BASE (arg1 args) sh sh1 ok H.
    destruct ok; exact H.
  - unfold cmd_stderr. name_verify verify_err_BASE (arg1 args) sh sh1 ok H.
    destruct ok; exact H.
Qed.

(** ** An id without a record *)

Lemma verify_dir_unknown (jid : string) (sh : shell) :
  jid <> "" -> BASE sh !! jid = None ->
  verify_dir jid sh
  = (mkShell ("pid " ++ jid ++ " not known") (RETVAL sh) (Some jid) (BASE sh), false).
Proof.
  intros Hid Hd. unfold verify_dir.
  destruct (decide (jid = "")); [contradiction|].
  unfold test_d. rewrite (cur_dir_at jid) by side. shell_simpl.
  rewrite Hd. reflexivity.
Qed.

Lemma test_r_unknown (name jid e r : string) (fs : gmap string (gmap string string)) :
  jid <> "" -> fs !! jid = None ->
  test_r name (mkShell e r (Some jid) fs) = false.
Proof.
  intros Hid Hd. unfold test_r, file. rewrite (cur_dir_at jid) by side.
  cbn [BASE]. rewrite Hd. reflexivity.
Qed.

Lemma is_component_nonempty (jid : string) : is_component jid = true -> jid <> "".
Proof. intros H ->. discriminate. Qed.



(** ** What the verbs keep *)

Lemma record_kept_refl (d : gmap string string) : record_kept d d.
Proof.
  split; [|reflexivity]. intros st H. exists "". now rewrite string_app_nil.
Qed.

Lemma record_kept_trans (d1 d2 d3 : gmap string string) :
  record_kept d1 d2 -> record_kept d2 d3 -> record_kept d1 d3.
Proof.
  intros [G1 K1] [G2 K2]. split.
  - intros st H. destruct (G1 st H) as [s1 H1]. destruct (G2 _ H1) as [s2 H2].
    exists (s1 ++ s2). now rewrite <- string_app_assoc.
  - intros k Hk. now rewrite K2, K1.
Qed.

Lemma store_kept_refl (fs : gmap string (gmap string string)) : store_kept fs fs.
Proof.
  split; [|auto]. intros id d H. exists d. split; [exact H | apply record_kept_refl].
Qed.

Lemma record_kept_insert (name v : string) (d : gmap string string) :
  In name verb_files -> name <> "state" -> record_kept d (<[name := v]> d).
Proof.
  intros Hin Hne. split.
  - intros st H. exists "". rewrite lookup_insert_ne by assumption.
    now rewrite string_app_nil.
  - intros k Hk. apply lookup_insert_ne. intros ->. contradiction.
Qed.

Lemma record_kept_touch (name : string) (d : gmap string string) :
  In name verb_files -> name <> "state" -> record_kept d (touch name d).
Proof.
  intros Hin Hne. unfold touch. destruct (d !! name).
  - apply record_kept_refl.
  - now apply record_kept_insert.
Qed.

Lemma record_kept_rm_f (name : string) (d : gmap string string) :
  In name verb_files -> name <> "state" -> record_kept d (rm_f name d).
Proof.
  intros Hin Hne. split.
  - intros st H. exists "". unfold rm_f. rewrite lookup_delete_ne by assumption.
    now rewrite string_app_nil.
  - intros k Hk. apply lookup_delete_ne. intros ->. contradiction.
Qed.

Lemma record_kept_append_state (text : string) (d : gmap string string) :
  record_kept d (append "state" text d).
Proof.
  split.
  - intros st H. exists text. rewrite append_lookup_eq, H. reflexivity.
  - intros k Hk. apply append_lookup_ne. intros <-. apply Hk. simpl. auto.
Qed.

Lemma store_kept_in_dir (f : gmap string string -> gmap string string)
  (fs : gmap string (gmap string string)) (sh : shell) :
  (forall d, record_kept d (f d)) ->
  store_kept fs (BASE sh) -> store_kept fs (BASE (in_dir f sh)).
Proof.
  intros Hf [G N]. unfold in_dir, cur_dir.
  destruct (DIR sh) as [id|]; [|split; assumption].
  destruct (decide (id = "")); [split; assumption|].
  destruct (BASE sh !! id) as [d|] eqn:Hd; [|split; assumption].
  cbn [set_BASE BASE]. split.
  - intros id' d0 H0. destruct (G id' d0 H0) as (d1 & H1 & K1).
    destruct (decide (id = id')) as [<-|Hne].
    + exists (f d). split; [apply lookup_insert_eq|].
      assert (d1 = d) by congruence. subst d1.
      eapply record_kept_trans; [exact K1 | apply Hf].
    + exists d1. split; [|exact K1]. now rewrite lookup_insert_ne.
  - intros id' H0. specialize (N id' H0).
    rewrite lookup_insert_ne; [exact N|]. intros <-. congruence.
Qed.

Ltac kept_file :=
  intros;
  first [ apply record_kept_append_state
        | apply record_kept_touch; [simpl; tauto | discriminate]
        | apply record_kept_rm_f; [simpl; tauto | discriminate]
        | apply record_kept_insert; [simpl; tauto | discriminate] ].

Ltac kept :=
  repeat first
    [ assumption
    | apply store_kept_in_dir; [kept_file|]
    | progress (try unfold set_DIR; try unfold set_RETVAL; try unfold set_ERROR;
                cbn [BASE]) ].

Lemma store_kept_verify (fs : gmap string (gmap string string)) (sh sh1 : shell) :
  BASE sh1 = BASE sh -> store_kept fs (BASE sh) -> store_kept fs (BASE sh1).
Proof. intros ->. auto. Qed.

Lemma cmd_suspend_kept (kill : string -> string -> N * string)
  (args : list string) (fs : gmap string (gmap string string)) (sh : shell) :
  store_kept fs (BASE sh) -> store_kept fs (BASE (cmd_suspend kill args sh)).
Proof.
  intros H0. unfold cmd_suspend.
  name_verify verify_state_BASE (arg1 args) sh sh1 ok1 H1.
  apply (store_kept_verify fs sh sh1 H1) in H0. destruct ok1; [|assumption].
  name_verify verify_pid_BASE (arg1 args) sh1 sh2 ok2 H2.
  apply (store_kept_verify fs sh1 sh2 H2) in H0. destruct ok2; [|assumption].
  destruct (negb _); [kept|].
  destruct (kill _ _) as [ECODE out]. destruct (String.eqb _ _); kept.
Qed.

Lemma cmd_resume_kept (kill : string -> string -> N * string)
  (args : list string) (fs : gmap string (gmap string string)) (sh : shell) :
  store_kept fs (BASE sh) -> store_kept fs (BASE (cmd_resume kill args sh)).
Proof.
  intros H0. unfold cmd_resume.
  name_verify verify_state_BASE (arg1 args) sh sh1 ok1 H1.
  apply (store_kept_verify fs sh sh1 H1) in H0. destruct ok1; [|assumption].
  name_verify verify_pid_BASE (arg1 args) sh1 sh2 ok2 H2.
  apply (store_kept_verify fs sh1 sh2 H2) in H0. destruct ok2; [|assumption].
  destruct (negb _); [kept|].
  destruct (kill _ _) as [ECODE out]. destruct (String.eqb _ _); [|kept].
  destruct (test_s _ _); kept.
Qed.

Lemma cmd_cancel_kept (kill : string -> string -> N * string)
  (args : list string) (fs : gmap string (gmap string string)) (sh : shell) :
  store_kept fs (BASE sh) -> store_kept fs (BASE (cmd_cancel kill args sh)).
Proof.
  intros H0. unfold cmd_cancel.
  name_verify verify_state_BASE (arg1 args) sh sh1 ok1 H1.
  apply (store_kept_verify fs sh sh1 H1) in H0. destruct ok1; [|assumption].
  name_verify verify_pid_BASE (arg1 args) sh1 sh2 ok2 H2.
  apply (store_kept_verify fs sh1 sh2 H2) in H0. destruct ok2; [|assumption].
  destruct (_ && _); [kept|].
  destruct (kill _ _) as [ECODE out]. destruct (String.eqb _ _); kept.
Qed.

Lemma cmd_stdin_kept (args : list string)
  (fs : gmap string (gmap string string)) (sh : shell) :
  store_kept fs (BASE sh) -> store_kept fs (BASE (cmd_stdin args sh)).
Proof.
  intros H0. unfold cmd_stdin.
  name_verify verify_in_BASE (arg1 args) sh sh1 ok1 H1.
  apply (store_kept_verify fs sh sh1 H1) in H0. destruct ok1; [|assumption].
  cbn [set_RETVAL BASE]. apply store_kept_in_dir; [|exact H0].
  intros d. unfold append. apply record_kept_insert; [simpl; tauto | discriminate].
Qed.

(** X3.  Whatever line the command loop reads, the verbs it serves
    ([SUSPEND], [RESUME], [CANCEL], [RESULT], [STATE], [WAIT], [STDIN], the
    empty line and unknown verbs) keep every record: no record appears or
    disappears, the state log of each record keeps its old content as a
    prefix (it only grows), and only the files [state], [state.susp], [in]
    and the three markers are ever written; [pid], [cmd], [exit], [out]
    and [err] keep their content. *)
Theorem verbs_keep_records (kill : string -> string -> N * string)
  (LINE : string) (sh sh' : shell) (out : string) :
  listen_step kill LINE sh = Some (sh', out) ->
  store_kept (BASE sh) (BASE sh').
Proof.
  unfold listen_step. intros H.
  set (sh1 := get_args (fields LINE)
                (get_cmd (fields LINE) (set_RETVAL "" (set_ERROR "OK" sh)))) in H.
  assert (H1 : store_kept (BASE sh) (BASE sh1)).
  { unfold sh1, get_args, get_cmd.
    destruct (decide (arg1 (fields LINE) = "")); apply store_kept_refl. }
  destruct (negb (String.eqb (ERROR sh1) "OK")).
  - injection H as <- _. exact H1.
  - destruct (dispatch kill _ _ LINE sh1) as [sh2|] eqn:E; [|discriminate].
    injection H as <- _. unfold dispatch in E.
    repeat match type of E with
           | (if ?b then _ else _) = _ => destruct b
           end;
      try discriminate; injection E as <-.
    + now apply cmd_suspend_kept.
    + now apply cmd_resume_kept.
    + now apply cmd_cancel_kept.
    + rewrite cmd_result_BASE. exact H1.
    + rewrite cmd_state_BASE. exact H1.
    + rewrite cmd_wait_BASE. exact H1.
    + now apply cmd_stdin_kept.
    + exact H1.
    + exact H1.
Qed.

Lemma verbs_keep_records_witness :
  exists sh',
    listen_step kill_ok "SUSPEND 42" sh0 = Some (sh', echo "OK" ++ echo "42 suspended")
    /\ store_kept (BASE sh0) (BASE sh').
Proof.
  eexists. split; [reflexivity|].
  apply (verbs_keep_records kill_ok "SUSPEND 42" sh0 _ _ eq_refl).
Defined.

(** ** Signals that fail, and the snapshot of [RESUME] *)

Lemma cmd_suspend_signalled (kill : string -> string -> N * string)
  (jid : string) (sh : shell) (d : gmap string string) (st p : string) :
  jid <> "" -> BASE sh !! jid = Some d ->
  d !! "state" = Some st -> d !! "pid" = Some p ->
  last_state_line st = "RUNNING " ->
  cmd_suspend kill [jid] sh =
    let (ECODE, out) := kill "STOP" (chomp p) in
    if String.eqb (show ECODE) "0"
    then mkShell (ERROR sh) (jid ++ " suspended") (Some jid)
           (<[jid := write "state.susp" (echo "RUNNING  ")
                       (append "state" (echo "SUSPENDED ") (touch "suspended" d))]>
              (BASE sh))
    else mkShell ("suspend failed (" ++ show ECODE ++ "): " ++ out) out (Some jid)
           (<[jid := delete "suspended" d]> (BASE sh)).
Proof.
  intros Hid Hd Hst Hp Hrun. unfold cmd_suspend. cbn [arg1 hd].
  rewrite (verify_state_ok jid sh d st) by assumption.
  rewrite (verify_pid_ok jid _ d p) by side.
  rewrite (state_subst_at jid _ d st) by side.
  rewrite (cat_subst_at "pid" jid _ d) by side.
  rewrite Hrun, Hp, String.eqb_refl. cbn [negb].
  change (default "" (Some p)) with p.
  destruct (kill "STOP" (chomp p)) as [ECODE out].
  rewrite (in_dir_at (touch _) jid _ d) by side. shell_simpl.
  destruct (String.eqb (show ECODE) "0").
  - rewrite (in_dir_at (append _ _) jid _ (touch "suspended" d)) by side.
    shell_simpl.
    rewrite (in_dir_at (write _ _) jid _
               (append "state" (echo "SUSPENDED ") (touch "suspended" d))) by side.
    shell_simpl. rewrite !insert_insert_eq. reflexivity.
  - rewrite (in_dir_at (rm_f _) jid _ (touch "suspended" d)) by side.
    shell_simpl. rewrite insert_insert_eq, rm_f_touch. reflexivity.
Qed.

Lemma test_s_eq (name jid : string) (sh : shell) (d : gmap string string) :
  jid <> "" -> DIR sh = Some jid -> BASE sh !! jid = Some d ->
  test_s name sh = match d !! name with
                   | Some c => negb (String.eqb c "")
                   | None => false
                   end.
Proof.
  intros Hid HD Hd. unfold test_s. now rewrite (file_at name jid sh d).
Qed.

Lemma rm_f_append_write (k x t : string) (d : gmap string string) :
  k <> "state" ->
  rm_f k (append "state" t (write k x d)) = rm_f k (append "state" t d).
Proof.
  intros Hne. unfold rm_f, append, write.
  rewrite lookup_insert_ne by assumption.
  rewrite insert_insert_ne by congruence.
  apply delete_insert_eq.
Qed.

Lemma cmd_resume_signalled (kill : string -> string -> N * string)
  (jid : string) (sh : shell) (d : gmap string string) (st p : string) :
  jid <> "" -> BASE sh !! jid = Some d ->
  d !! "state" = Some st -> d !! "pid" = Some p ->
  last_state_line st = "SUSPENDED " ->
  cmd_resume kill [jid] sh =
    let (ECODE, out) := kill "CONT" (chomp p) in
    if String.eqb (show ECODE) "0"
    then mkShell (ERROR sh) (jid ++ " resumed") (Some jid)
           (<[jid := rm_f "state.susp"
                       (append "state" (snapshot d) (touch "resumed" d))]>
              (BASE sh))
    else mkShell ("resume failed (" ++ show ECODE ++ "): " ++ out) out (Some jid)
           (<[jid := delete "resumed" d]> (BASE sh)).
Proof.
  intros Hid Hd Hst Hp Hsus. unfold cmd_resume. cbn [arg1 hd].
  rewrite (verify_state_ok jid sh d st) by assumption.
  rewrite (verify_pid_ok jid _ d p) by side.
  rewrite (state_subst_at jid _ d st) by side.
  rewrite (cat_subst_at "pid" jid _ d) by side.
  rewrite Hsus, Hp, String.eqb_refl. cbn [negb].
  change (default "" (Some p)) with p.
  destruct (kill "CONT" (chomp p)) as [ECODE out].
  rewrite (in_dir_at (touch _) jid _ d) by side. shell_simpl.
  destruct (String.eqb (show ECODE) "0").
  - rewrite (test_s_eq "state.susp" jid _ (touch "resumed" d)) by side.
    rewrite touch_lookup_ne by discriminate. unfold snapshot.
    destruct (d !! "state.susp") as [c|] eqn:Hc;
      [destruct (String.eqb c "") eqn:Hempty|]; cbn [negb].
    + rewrite (in_dir_at (write _ _) jid _ (touch "resumed" d)) by side.
      shell_simpl. rewrite insert_insert_eq.
      rewrite (file_at "state.susp" jid _
                 (write "state.susp" (echo "RUNNING ") (touch "resumed" d))) by side.
      rewrite write_lookup_eq.
      change (default "" (Some (echo "RUNNING "))) with (echo "RUNNING ").
      rewrite (in_dir_at (append _ _) jid _
                 (write "state.susp" (echo "RUNNING ") (touch "resumed" d))) by side.
      shell_simpl.
      rewrite (in_dir_at (rm_f _) jid _
                 (append "state" (echo "RUNNING ")
                    (write "state.susp" (echo "RUNNING ") (touch "resumed" d))))
        by side.
      shell_simpl. rewrite !insert_insert_eq.
      rewrite rm_f_append_write by discriminate. reflexivity.
    + rewrite (file_at "state.susp" jid _ (touch "resumed" d)) by side.
      rewrite touch_lookup_ne, Hc by discriminate.
      change (default "" (Some c)) with c.
      rewrite (in_dir_at (append _ _) jid _ (touch "resumed" d)) by side.
      shell_simpl.
      rewrite (in_dir_at (rm_f _) jid _ (append "state" c (touch "resumed" d)))
        by side.
      shell_simpl. rewrite !insert_insert_eq. reflexivity.
    + rewrite (in_dir_at (write _ _) jid _ (touch "resumed" d)) by side.
      shell_simpl. rewrite insert_insert_eq.
      rewrite (file_at "state.susp" jid _
                 (write "state.susp" (echo "RUNNING ") (touch "resumed" d))) by side.
      rewrite write_lookup_eq.
      change (default "" (Some (echo "RUNNING "))) with (echo "RUNNING ").
      rewrite (in_dir_at (append _ _) jid _
                 (write "state.susp" (echo "RUNNING ") (touch "resumed" d))) by side.
      shell_simpl.
      rewrite (in_dir_at (rm_f _) jid _
                 (append "state" (echo "RUNNING ")
                    (write "state.susp" (echo "RUNNING ") (touch "resumed" d))))
        by side.
      shell_simpl. rewrite !insert_insert_eq.
      rewrite rm_f_append_write by discriminate. reflexivity.
  - rewrite (in_dir_at (rm_f _) jid _ (touch "resumed" d)) by side.
    shell_simpl. rewrite insert_insert_eq, rm_f_touch. reflexivity.
Qed.

Lemma cmd_resume_wrong_state (kill : string -> string -> N * string)
  (jid : string) (sh : shell) (d : gmap string string) (st p : string) :
  jid <> "" -> BASE sh !! jid = Some d ->
  d !! "state" = Some st -> d !! "pid" = Some p ->
  last_state_line st <> "SUSPENDED " ->
  cmd_resume kill [jid] sh =
    mkShell ("job " ++ jid ++ " in incorrect state (" ++ last_state_line st
             ++ " != SUSPENDED)") (RETVAL sh) (Some jid) (BASE sh).
Proof.
  intros Hid Hd Hst Hp Hsus. unfold cmd_resume. cbn [arg1 hd].
  rewrite (verify_state_ok jid sh d st) by assumption.
  rewrite (verify_pid_ok jid _ d p) by side.
  rewrite (state_subst_at jid _ d st) by side.
  apply String.eqb_neq in Hsus. rewrite Hsus. reflexivity.
Qed.

Lemma frame_failed_signal (verb msg r : string) (dir : option string)
  (fs : gmap string (gmap string string)) :
  verb = "suspend" \/ verb = "resume" ->
  frame (mkShell (verb ++ " failed (" ++ msg) r dir fs)
  = echo "ERROR" ++ echo (verb ++ " failed (" ++ msg).
Proof. intros [-> | ->]; reflexivity. Qed.

(** X4.  When the signal cannot be delivered, [SUSPEND] and [RESUME]
    reply with the error ["suspend failed (<status>): <output of kill>"]
    (["resume failed ..."]) and take their marker away again: the record
    is the old one without the [suspended] ([resumed]) marker, so the
    state log and the snapshot are as before and the verb can be sent
    again. *)
Theorem failed_signal_undoes_marker (kill : string -> string -> N * string)
  (jid : string) (sh : shell) (d : gmap string string) (st p : string) :
  jid <> "" -> BASE sh !! jid = Some d ->
  d !! "state" = Some st -> d !! "pid" = Some p ->
  (last_state_line st = "RUNNING " ->
   fst (kill "STOP" (chomp p)) <> 0%N ->
   let sh' := cmd_suspend kill [jid] sh in
   frame sh' = echo "ERROR"
               ++ echo ("suspend failed (" ++ show (fst (kill "STOP" (chomp p)))
                        ++ "): " ++ snd (kill "STOP" (chomp p)))
   /\ BASE sh' = <[jid := delete "suspended" d]> (BASE sh)
   /\ (d !! "suspended" = None -> BASE sh' = BASE sh))
  /\ (last_state_line st = "SUSPENDED " ->
      fst (kill "CONT" (chomp p)) <> 0%N ->
      let sh' := cmd_resume kill [jid] sh in
      frame sh' = echo "ERROR"
                  ++ echo ("resume failed (" ++ show (fst (kill "CONT" (chomp p)))
                           ++ "): " ++ snd (kill "CONT" (chomp p)))
      /\ BASE sh' = <[jid := delete "resumed" d]> (BASE sh)
      /\ (d !! "resumed" = None -> BASE sh' = BASE sh)).
Proof.
  intros Hid Hd Hst Hp. split; intros Hstate Hk sh'; unfold sh'.
  - rewrite (cmd_suspend_signalled kill jid sh d st p) by assumption.
    destruct (kill "STOP" (chomp p)) as [ECODE out]. cbn [fst snd] in *.
    rewrite show_nonzero by assumption. split; [|split].
    + apply (frame_failed_signal "suspend"). now left.
    + reflexivity.
    + intros Hm. cbn [BASE]. rewrite delete_id by assumption. now apply insert_id.
  - rewrite (cmd_resume_signalled kill jid sh d st p) by assumption.
    destruct (kill "CONT" (chomp p)) as [ECODE out]. cbn [fst snd] in *.
    rewrite show_nonzero by assumption. split; [|split].
    + apply (frame_failed_signal "resume"). now right.
    + reflexivity.
    + intros Hm. cbn [BASE]. rewrite delete_id by assumption. now apply insert_id.
Qed.

Lemma failed_signal_undoes_marker_witness :
  frame (cmd_suspend kill_fails ["42"] sh0)
  = echo "ERROR" ++ echo "suspend failed (1): kill: No such process"
  /\ BASE (cmd_suspend kill_fails ["42"] sh0) = BASE sh0.
Proof.
  destruct (failed_signal_undoes_marker kill_fails "42" sh0 running_job
              ("NEW " ++ String LF ("RUNNING " ++ String LF ""))
              ("4711" ++ String LF "")
              ltac:(discriminate) ltac:(reflexivity) ltac:(reflexivity)
              ltac:(reflexivity)) as [H _].
  destruct (H ltac:(reflexivity) ltac:(discriminate)) as (H1 & _ & H3).
  split; [exact H1 | apply H3; reflexivity].
Defined.

(** X5.  A [RESUME] that finds no snapshot ([state.susp] missing or
    empty) logs the line [RUNNING ] itself: on a newline-terminated log
    whose current state is [SUSPENDED ], a successful [RESUME] appends
    exactly [RUNNING ], removes [state.susp], and the current state is
    [RUNNING ] again, so that a following [SUSPEND] is accepted. *)
Theorem resume_without_snapshot (kill1 kill2 : string -> string -> N * string)
  (jid : string) (sh : shell) (d : gmap string string) (st p : string) :
  jid <> "" -> BASE sh !! jid = Some d ->
  d !! "state" = Some st -> d !! "pid" = Some p ->
  complete st = true -> last_state_line st = "SUSPENDED " ->
  d !! "state.susp" = None \/ d !! "state.susp" = Some "" ->
  fst (kill1 "CONT" (chomp p)) = 0%N ->
  fst (kill2 "STOP" (chomp p)) = 0%N ->
  ERROR sh = "OK" ->
  let sh' := cmd_resume kill1 [jid] sh in
  frame sh' = echo "OK" ++ echo (jid ++ " resumed")
  /\ (exists d', BASE sh' !! jid = Some d'
                 /\ d' !! "state" = Some (st ++ echo "RUNNING ")
                 /\ d' !! "state.susp" = None)
  /\ RETVAL (cmd_state [jid] sh') = "RUNNING "
  /\ frame (cmd_suspend kill2 [jid] sh') = echo "OK" ++ echo (jid ++ " suspended").
Proof.
  intros Hid Hd Hst Hp Hco Hsus Hsnap Hk1 Hk2 Herr sh'.
  set (d' := rm_f "state.susp"
               (append "state" (echo "RUNNING ") (touch "resumed" d))).
  assert (Hsn : snapshot d = echo "RUNNING ")
    by (unfold snapshot; destruct Hsnap as [-> | ->]; reflexivity).
  assert (E : sh' = mkShell "OK" (jid ++ " resumed") (Some jid)
                      (<[jid := d']> (BASE sh))).
  { unfold sh'. rewrite (cmd_resume_signalled kill1 jid sh d st p) by assumption.
    destruct (kill1 "CONT" (chomp p)) as [ECODE out]. cbn [fst] in Hk1. subst ECODE.
    change (show 0) with "0". rewrite String.eqb_refl, Hsn, Herr. reflexivity. }
  assert (Hd' : BASE sh' !! jid = Some d') by (rewrite E; apply lookup_insert_eq).
  assert (Hst' : d' !! "state" = Some (st ++ echo "RUNNING ")).
  { unfold d'. rewrite rm_f_lookup_ne by discriminate.
    rewrite append_lookup_eq, touch_lookup_ne by discriminate. now rewrite Hst. }
  assert (Hp' : d' !! "pid" = Some p).
  { unfold d'. rewrite rm_f_lookup_ne, append_lookup_ne, touch_lookup_ne
      by discriminate. exact Hp. }
  assert (Hl : last_state_line (st ++ echo "RUNNING ") = "RUNNING ")
    by (rewrite last_state_line_app by (assumption || discriminate); reflexivity).
  split; [rewrite E; reflexivity|]. split; [|split].
  - exists d'. split; [exact Hd'|]. split; [exact Hst' | apply rm_f_lookup_eq].
  - rewrite (cmd_state_ok jid sh' d' _ Hid Hd' Hst'). exact Hl.
  - rewrite (cmd_suspend_signalled kill2 jid sh' d' _ p Hid Hd' Hst' Hp' Hl).
    destruct (kill2 "STOP" (chomp p)) as [ECODE out]. cbn [fst] in Hk2. subst ECODE.
    change (show 0) with "0". rewrite String.eqb_refl, E. reflexivity.
Qed.

Lemma resume_without_snapshot_witness :
  RETVAL (cmd_state ["42"] (cmd_resume kill_ok ["42"] sh_suspended)) = "RUNNING "
  /\ frame (cmd_suspend kill_ok ["42"] (cmd_resume kill_ok ["42"] sh_suspended))
     = echo "OK" ++ echo "42 suspended".
Proof.
  pose proof (resume_without_snapshot kill_ok kill_ok "42" sh_suspended
                suspended_job
                ("NEW " ++ String LF ("RUNNING " ++ String LF ("SUSPENDED " ++ String LF "")))
                ("4711" ++ String LF "")
                ltac:(discriminate) ltac:(reflexivity) ltac:(reflexivity)
                ltac:(reflexivity) ltac:(reflexivity) ltac:(reflexivity)
                ltac:(left; reflexivity) ltac:(reflexivity) ltac:(reflexivity)
                ltac:(reflexivity)) as H.
  cbv zeta in H. destruct H as (_ & _ & H3 & H4). split; assumption.
Defined.

Lemma is_final_cases (state : string) :
  is_final state = true ->
  state = "DONE " \/ state = "FAILED " \/ state = "CANCELED ".
Proof.
  unfold is_final. rewrite !orb_true_iff, !String.eqb_eq. tauto.
Qed.

(** X6.  Final states absorb: at a record whose current state line is
    [DONE ], [FAILED ] or [CANCELED ], each of [SUSPEND], [RESUME] and
    [CANCEL] replies with its incorrect-state error, sends no signal
    (the reply does not depend on [kill]) and leaves the store as it
    is. *)
Theorem final_states_absorb (kill : string -> string -> N * string)
  (jid : string) (sh : shell) (d : gmap string string) (st p : string) :
  jid <> "" -> BASE sh !! jid = Some d ->
  d !! "state" = Some st -> d !! "pid" = Some p ->
  is_final (last_state_line st) = true ->
  let state := last_state_line st in
  cmd_suspend kill [jid] sh
  = mkShell ("job " ++ jid ++ " in incorrect state (" ++ state ++ " != RUNNING)")
      (RETVAL sh) (Some jid) (BASE sh)
  /\ cmd_resume kill [jid] sh
     = mkShell ("job " ++ jid ++ " in incorrect state (" ++ state ++ " != SUSPENDED)")
         (RETVAL sh) (Some jid) (BASE sh)
  /\ cmd_cancel kill [jid] sh
     = mkShell ("job " ++ jid ++ " in incorrect state ('" ++ state
                ++ "' != 'SUSPENDED|RUNNING')")
         (RETVAL sh) (Some jid) (BASE sh)
  /\ (forall msg r dir fs,
        frame (mkShell ("job " ++ msg) r dir fs) = echo "ERROR" ++ echo ("job " ++ msg)).
Proof.
  intros Hid Hd Hst Hp Hfin state.
  assert (Hr : state <> "RUNNING " /\ state <> "SUSPENDED ").
  { destruct (is_final_cases _ Hfin) as [H | [H | H]]; unfold state; rewrite H;
      split; discriminate. }
  destruct Hr as [Hr Hs]. split; [|split; [|split]].
  - now apply (cmd_suspend_wrong_state kill jid sh d st p).
  - now apply (cmd_resume_wrong_state kill jid sh d st p).
  - now apply (cmd_cancel_wrong_state kill jid sh d st p).
  - intros. apply frame_job_error.
Qed.

Lemma final_states_absorb_witness :
  frame (cmd_suspend kill_ok ["42"] sh_failed)
  = echo "ERROR" ++ echo "job 42 in incorrect state (FAILED  != RUNNING)"
  /\ BASE (cmd_resume kill_ok ["42"] sh_failed) = BASE sh_failed.
Proof.
  destruct (final_states_absorb kill_ok "42" sh_failed failed_job
              ("NEW " ++ String LF ("RUNNING " ++ String LF ("FAILED " ++ String LF "")))
              ("4711" ++ String LF "")
              ltac:(discriminate) ltac:(reflexivity) ltac:(reflexivity)
              ltac:(reflexivity) ltac:(reflexivity)) as (H1 & H2 & _).
  rewrite H1, H2. split; reflexivity.
Defined.

(** ** The monitor's last round, and what the verbs see after it *)

Lemma monitor_body_exit (retv : N) (d : gmap string string) :
  d !! "suspended" = None -> d !! "resumed" = None ->
  monitor_body retv d
  = (let d2 := append "state" (echo (final_token retv))
                 (write "exit" (echo (show retv)) d) in
     match d !! "canceled" with
     | Some _ => rm_f "canceled" (append "state" (echo "CANCELED ") d2)
     | None => d2
     end, false).
Proof.
  intros Hs Hr. unfold monitor_body. rewrite Hs, Hr.
  replace (bool_decide (is_Some (@None string))) with false by reflexivity.
  cbv zeta.
  set (d1 := write "exit" (echo (show retv)) d).
  assert (E : (if String.eqb (show retv) "0"
               then if String.eqb (show retv) "0"
                    then append "state" (echo "DONE ") d1 else d1
               else append "state" (echo "FAILED ")
                      (if String.eqb (show retv) "0"
                       then append "state" (echo "DONE ") d1 else d1))
              = append "state" (echo (final_token retv)) d1).
  { unfold final_token. destruct (N.eqb_spec retv 0) as [->|Hne].
    - reflexivity.
    - now rewrite show_nonzero. }
  rewrite E. clear E.
  set (d2 := append "state" (echo (final_token retv)) d1).
  assert (Hc : d2 !! "canceled" = d !! "canceled").
  { unfold d2, d1. now rewrite append_lookup_ne, write_lookup_ne by discriminate. }
  rewrite Hc. destruct (d !! "canceled") as [c|] eqn:Hcan.
  - replace (bool_decide (is_Some (Some c))) with true by reflexivity.
    cbv iota. rewrite append_lookup_ne, Hc by discriminate.
    replace (bool_decide (is_Some (Some c))) with true by reflexivity.
    reflexivity.
  - replace (bool_decide (is_Some (@None string))) with false by reflexivity.
    cbv iota. rewrite Hc.
    replace (bool_decide (is_Some (@None string))) with false by reflexivity.
    reflexivity.
Qed.

Lemma final_token_is_final (retv : N) : is_final (final_token retv) = true.
Proof. unfold final_token. destruct (N.eqb retv 0); reflexivity. Qed.

Lemma last_state_line_token (st : string) (retv : N) :
  complete st = true ->
  last_state_line (st ++ echo (final_token retv)) = final_token retv.
Proof.
  intros Hco. rewrite last_state_line_app; [| assumption |];
    unfold final_token; destruct (N.eqb retv 0); reflexivity || discriminate.
Qed.

(** X7.  The exit code makes the round trip from the monitor to
    [RESULT]: at a record with a newline-terminated state log and no
    marker, once the monitor has seen the job end with status [retv],
    [STATE] reports [DONE ] if [retv] is 0 and [FAILED ] otherwise, and
    [RESULT] replies [OK] with the decimal [retv], which parses back to
    [retv]. *)
Theorem result_after_exit (retv : N) (jid : string) (sh : shell)
  (d : gmap string string) (st : string) :
  jid <> "" -> BASE sh !! jid = Some d -> d !! "state" = Some st ->
  complete st = true ->
  d !! "suspended" = None -> d !! "resumed" = None -> d !! "canceled" = None ->
  ERROR sh = "OK" ->
  let sh' := set_BASE (monitor_round retv jid (BASE sh)) sh in
  frame (cmd_state [jid] sh') = echo "OK" ++ echo (final_token retv)
  /\ frame (cmd_result [jid] sh') = echo "OK" ++ echo (show retv)
  /\ parse_int (RETVAL (cmd_result [jid] sh')) = Some retv
  /\ (final_token retv = "DONE " <-> retv = 0%N).
Proof.
  intros Hid Hd Hst Hco Hs Hr Hc Herr sh'.
  set (d' := append "state" (echo (final_token retv))
               (write "exit" (echo (show retv)) d)).
  assert (Hd' : BASE sh' !! jid = Some d').
  { unfold sh', monitor_round. cbn [set_BASE BASE]. rewrite Hd.
    rewrite monitor_body_exit by assumption. cbv zeta. rewrite Hc.
    apply lookup_insert_eq. }
  assert (Hst' : d' !! "state" = Some (st ++ echo (final_token retv))).
  { unfold d'. rewrite append_lookup_eq, write_lookup_ne by discriminate.
    now rewrite Hst. }
  assert (Hex : d' !! "exit" = Some (echo (show retv))).
  { unfold d'. rewrite append_lookup_ne by discriminate. apply write_lookup_eq. }
  assert (Hl := last_state_line_token st retv Hco).
  assert (Herr' : ERROR sh' = "OK") by exact Herr.
  split; [|split; [|split]].
  - rewrite (cmd_state_ok jid sh' d' _ Hid Hd' Hst'), Hl, Herr'. reflexivity.
  - rewrite (cmd_result_final jid sh' d' _ Hid Hd' Hst')
      by (rewrite Hl; apply final_token_is_final).
    rewrite Hex, Herr'. change (default "" (Some (echo (show retv)))) with (echo (show retv)).
    rewrite chomp_echo_show. reflexivity.
  - rewrite (cmd_result_final jid sh' d' _ Hid Hd' Hst')
      by (rewrite Hl; apply final_token_is_final).
    rewrite Hex. cbn [RETVAL].
    change (default "" (Some (echo (show retv)))) with (echo (show retv)).
    rewrite chomp_echo_show. apply parse_show.
  - unfold final_token. destruct (N.eqb_spec retv 0); split; congruence.
Qed.

Lemma result_after_exit_witness :
  frame (cmd_state ["42"] (set_BASE (monitor_round 7 "42" (BASE sh0)) sh0))
  = echo "OK" ++ echo "FAILED "
  /\ frame (cmd_result ["42"] (set_BASE (monitor_round 7 "42" (BASE sh0)) sh0))
     = echo "OK" ++ echo "7".
Proof.
  pose proof (result_after_exit 7 "42" sh0 running_job
                ("NEW " ++ String LF ("RUNNING " ++ String LF ""))
                ltac:(discriminate) ltac:(reflexivity) ltac:(reflexivity)
                ltac:(reflexivity) ltac:(reflexivity) ltac:(reflexivity)
                ltac:(reflexivity) ltac:(reflexivity)) as H.
  cbv zeta in H. destruct H as (H1 & H2 & _). split; assumption.
Defined.

(** X8.  Cancelling composes with the monitor: at a newline-terminated
    log whose current state is [RUNNING ] or [SUSPENDED ], with no
    [suspended] or [resumed] marker, after a [CANCEL] whose signal went
    out and the monitor's next round with status [retv], the log has
    gained the line for the status and then [CANCELED ]; [STATE] reports
    [CANCELED ], [RESULT] replies with the decimal [retv], and the
    [canceled] marker is gone. *)
Theorem cancel_then_exit (kill : string -> string -> N * string) (retv : N)
  (jid : string) (sh : shell) (d : gmap string string) (st p : string) :
  jid <> "" -> BASE sh !! jid = Some d ->
  d !! "state" = Some st -> d !! "pid" = Some p ->
  complete st = true ->
  last_state_line st = "SUSPENDED " \/ last_state_line st = "RUNNING " ->
  d !! "suspended" = None -> d !! "resumed" = None ->
  fst (kill "KILL" (chomp p)) = 0%N ->
  ERROR sh = "OK" ->
  let sh1 := cmd_cancel kill [jid] sh in
  let sh2 := set_BASE (monitor_round retv jid (BASE sh1)) sh1 in
  frame sh1 = echo "OK" ++ echo (jid ++ " canceled")
  /\ frame (cmd_state [jid] sh2) = echo "OK" ++ echo "CANCELED "
  /\ frame (cmd_result [jid] sh2) = echo "OK" ++ echo (show retv)
  /\ (exists d2, BASE sh2 !! jid = Some d2
                 /\ d2 !! "state"
                    = Some (st ++ echo (final_token retv) ++ echo "CANCELED ")
                 /\ d2 !! "canceled" = None).
Proof.
  intros Hid Hd Hst Hp Hco Hstate Hs Hr Hk Herr sh1 sh2.
  assert (E1 : sh1 = mkShell "OK" (jid ++ " canceled") (Some jid)
                       (<[jid := touch "canceled" d]> (BASE sh))).
  { unfold sh1. rewrite (cmd_cancel_signalled kill jid sh d st p) by assumption.
    destruct (kill "KILL" (chomp p)) as [ECODE out]. cbn [fst] in Hk. subst ECODE.
    change (show 0) with "0". now rewrite String.eqb_refl, Herr. }
  set (d1 := touch "canceled" d).
  set (d2 := rm_f "canceled"
               (append "state" (echo "CANCELED ")
                  (append "state" (echo (final_token retv))
                     (write "exit" (echo (show retv)) d1)))).
  destruct (touch_lookup_eq "canceled" d) as [c Hc]. fold d1 in Hc.
  assert (Hd2 : BASE sh2 !! jid = Some d2).
  { unfold sh2, monitor_round. cbn [set_BASE BASE]. rewrite E1. cbn [BASE].
    rewrite lookup_insert_eq. fold d1.
    rewrite monitor_body_exit
      by (unfold d1; rewrite touch_lookup_ne by discriminate; assumption).
    cbv zeta. rewrite Hc. apply lookup_insert_eq. }
  assert (Hst2 : d2 !! "state"
                 = Some ((st ++ echo (final_token retv)) ++ echo "CANCELED ")).
  { unfold d2. rewrite rm_f_lookup_ne by discriminate.
    rewrite append_lookup_eq, append_lookup_eq, write_lookup_ne by discriminate.
    unfold d1. rewrite touch_lookup_ne, Hst by discriminate. reflexivity. }
  assert (Hex : d2 !! "exit" = Some (echo (show retv))).
  { unfold d2. rewrite rm_f_lookup_ne, !append_lookup_ne by discriminate.
    apply write_lookup_eq. }
  assert (Hl : last_state_line ((st ++ echo (final_token retv)) ++ echo "CANCELED ")
               = "CANCELED ").
  { rewrite last_state_line_app; [reflexivity | | discriminate].
    apply complete_app; unfold final_token; destruct (N.eqb retv 0);
      reflexivity || discriminate. }
  assert (Herr2 : ERROR sh2 = "OK") by (unfold sh2; rewrite E1; reflexivity).
  split; [rewrite E1; reflexivity|]. split; [|split].
  - rewrite (cmd_state_ok jid sh2 d2 _ Hid Hd2 Hst2), Hl, Herr2. reflexivity.
  - rewrite (cmd_result_final jid sh2 d2 _ Hid Hd2 Hst2) by (rewrite Hl; reflexivity).
    rewrite Hex, Herr2.
    change (default "" (Some (echo (show retv)))) with (echo (show retv)).
    rewrite chomp_echo_show. reflexivity.
  - exists d2. split; [exact Hd2|]. split.
    + rewrite Hst2. now rewrite string_app_assoc.
    + apply rm_f_lookup_eq.
Qed.

Lemma cancel_then_exit_witness :
  frame (cmd_state ["42"]
           (set_BASE (monitor_round 137 "42" (BASE (cmd_cancel kill_ok ["42"] sh0)))
              (cmd_cancel kill_ok ["42"] sh0)))
  = echo "OK" ++ echo "CANCELED "
  /\ frame (cmd_result ["42"]
              (set_BASE (monitor_round 137 "42" (BASE (cmd_cancel kill_ok ["42"] sh0)))
                 (cmd_cancel kill_ok ["42"] sh0)))
     = echo "OK" ++ echo "137".
Proof.
  pose proof (cancel_then_exit kill_ok 137 "42" sh0 running_job
                ("NEW " ++ String LF ("RUNNING " ++ String LF ""))
                ("4711" ++ String LF "")
                ltac:(discriminate) ltac:(reflexivity) ltac:(reflexivity)
                ltac:(reflexivity) ltac:(reflexivity) ltac:(right; reflexivity)
                ltac:(reflexivity) ltac:(reflexivity) ltac:(reflexivity)
                ltac:(reflexivity)) as H.
  cbv zeta in H. destruct H as (_ & H2 & H3 & _). split; assumption.
Defined.

(** ** The monitor loop and the markers *)

Lemma monitor_body_suspended (retv : N) (d : gmap string string) :
  is_Some (d !! "suspended") ->
  monitor_body retv d = (rm_f "suspended" d, true).
Proof.
  intros [m H]. unfold monitor_body. rewrite H. reflexivity.
Qed.

Lemma monitor_body_resumed (retv : N) (d : gmap string string) :
  d !! "suspended" = None -> is_Some (d !! "resumed") ->
  monitor_body retv d = (rm_f "resumed" d, true).
Proof.
  intros Hs [m H]. unfold monitor_body. rewrite Hs, H. reflexivity.
Qed.

Lemma monitor_kept_refl (d : gmap string string) : monitor_kept d d.
Proof.
  split; [|reflexivity]. intros st H. exists "". now rewrite string_app_nil.
Qed.

Lemma monitor_kept_trans (d1 d2 d3 : gmap string string) :
  monitor_kept d1 d2 -> monitor_kept d2 d3 -> monitor_kept d1 d3.
Proof.
  intros [G1 K1] [G2 K2]. split.
  - intros st H. destruct (G1 st H) as [s1 H1]. destruct (G2 _ H1) as [s2 H2].
    exists (s1 ++ s2). now rewrite <- string_app_assoc.
  - intros k Hk. now rewrite K2, K1.
Qed.

Lemma monitor_kept_rm_f (name : string) (d : gmap string string) :
  In name monitor_files -> name <> "state" -> monitor_kept d (rm_f name d).
Proof.
  intros Hin Hne. split.
  - intros st H. exists "". unfold rm_f. rewrite lookup_delete_ne by assumption.
    now rewrite string_app_nil.
  - intros k Hk. apply lookup_delete_ne. intros ->. contradiction.
Qed.

Lemma monitor_kept_write_exit (text : string) (d : gmap string string) :
  monitor_kept d (write "exit" text d).
Proof.
  split.
  - intros st H. exists "". rewrite write_lookup_ne by discriminate.
    now rewrite string_app_nil.
  - intros k Hk. apply write_lookup_ne. intros <-. apply Hk. simpl. auto.
Qed.

Lemma monitor_kept_append_state (text : string) (d : gmap string string) :
  monitor_kept d (append "state" text d).
Proof.
  split.
  - intros st H. exists text. rewrite append_lookup_eq, H. reflexivity.
  - intros k Hk. apply append_lookup_ne. intros <-. apply Hk. simpl. auto.
Qed.

Lemma monitor_body_kept (retv : N) (d : gmap string string) :
  monitor_kept d (fst (monitor_body retv d)).
Proof.
  destruct (d !! "suspended") as [m|] eqn:Hs.
  - rewrite monitor_body_suspended by eauto.
    apply monitor_kept_rm_f; [simpl; tauto | discriminate].
  - destruct (d !! "resumed") as [m|] eqn:Hr.
    + rewrite monitor_body_resumed by eauto.
      apply monitor_kept_rm_f; [simpl; tauto | discriminate].
    + rewrite monitor_body_exit by assumption. cbv zeta. cbn [fst].
      assert (K : monitor_kept d
                    (append "state" (echo (final_token retv))
                       (write "exit" (echo (show retv)) d))).
      { eapply monitor_kept_trans;
          [apply monitor_kept_write_exit | apply monitor_kept_append_state]. }
      destruct (d !! "canceled"); [|exact K].
      eapply monitor_kept_trans; [exact K|].
      eapply monitor_kept_trans; [apply monitor_kept_append_state|].
      apply monitor_kept_rm_f; [simpl; tauto | discriminate].
Qed.

(** X9.  However many times its [wait] returns and whatever the markers,
    the monitor never shortens or rewrites the state log (the old content
    stays a prefix) and never touches [pid], [cmd], [in], [out], [err] or
    [state.susp]: it writes [state], [exit] and the three markers only. *)
Theorem monitor_keeps_log (retvs : list N) (d : gmap string string) :
  monitor_kept d (monitor_loop retvs d).
Proof.
  revert d. induction retvs as [|retv rest IH]; intros d.
  - apply monitor_kept_refl.
  - cbn [monitor_loop]. pose proof (monitor_body_kept retv d) as K.
    destruct (monitor_body retv d) as [d' again]. cbn [fst] in K.
    destruct again; [|exact K].
    eapply monitor_kept_trans; [exact K | apply IH].
Qed.

(** X10.  Each marker swallows one return of [wait]: with both the
    [suspended] and the [resumed] marker present, the first two statuses
    are dropped (after them the record has lost the two markers and
    nothing else has changed), and the status written to [exit] and
    logged is the one of the third [wait]. *)
Theorem markers_swallow_waits (r1 r2 r3 : N) (rest : list N)
  (d : gmap string string) :
  is_Some (d !! "suspended") -> is_Some (d !! "resumed") ->
  monitor_loop [r1; r2] d = rm_f "resumed" (rm_f "suspended" d)
  /\ monitor_loop (r1 :: r2 :: r3 :: rest) d
     = fst (monitor_body r3 (rm_f "resumed" (rm_f "suspended" d)))
  /\ monitor_loop (r1 :: r2 :: r3 :: rest) d !! "exit" = Some (echo (show r3))
  /\ monitor_loop (r1 :: r2 :: r3 :: rest) d !! "state"
     = Some (default "" (d !! "state") ++ echo (final_token r3)
             ++ match d !! "canceled" with
                | Some _ => echo "CANCELED "
                | None => ""
                end).
Proof.
  intros Hs Hr.
  set (d1 := rm_f "suspended" d). set (d2 := rm_f "resumed" d1).
  assert (H1 : monitor_body r1 d = (d1, true)) by now apply monitor_body_suspended.
  assert (Hs1 : d1 !! "suspended" = None) by apply rm_f_lookup_eq.
  assert (Hr1 : is_Some (d1 !! "resumed"))
    by (unfold d1; rewrite rm_f_lookup_ne by discriminate; exact Hr).
  assert (H2 : monitor_body r2 d1 = (d2, true)) by now apply monitor_body_resumed.
  assert (Hs2 : d2 !! "suspended" = None)
    by (unfold d2; rewrite rm_f_lookup_ne by discriminate; exact Hs1).
  assert (Hr2 : d2 !! "resumed" = None) by apply rm_f_lookup_eq.
  assert (Hc2 : d2 !! "canceled" = d !! "canceled")
    by (unfold d2, d1; now rewrite !rm_f_lookup_ne by discriminate).
  assert (Hst2 : d2 !! "state" = d !! "state")
    by (unfold d2, d1; now rewrite !rm_f_lookup_ne by discriminate).
  assert (E : monitor_loop (r1 :: r2 :: r3 :: rest) d = fst (monitor_body r3 d2)).
  { cbn [monitor_loop]. rewrite H1, H2.
    rewrite (monitor_body_exit r3 d2 Hs2 Hr2). reflexivity. }
  split; [cbn [monitor_loop]; now rewrite H1, H2|]. split; [exact E|].
  rewrite E, (monitor_body_exit r3 d2 Hs2 Hr2). cbv zeta. cbn [fst].
  rewrite Hc2. destruct (d !! "canceled"); split.
  - rewrite rm_f_lookup_ne, !append_lookup_ne by discriminate.
    apply write_lookup_eq.
  - rewrite rm_f_lookup_ne by discriminate.
    rewrite !append_lookup_eq, write_lookup_ne, Hst2 by discriminate.
    destruct (d !! "state"); unfold default; cbn [from_option]; unfold id;
      now rewrite string_app_assoc.
  - rewrite append_lookup_ne by discriminate. apply write_lookup_eq.
  - rewrite append_lookup_eq, write_lookup_ne, Hst2 by discriminate.
    now rewrite string_app_nil.
Qed.

Lemma markers_swallow_waits_witness :
  monitor_loop [0; 127; 127]%N cycled_job !! "exit" = Some (echo "127")
  /\ monitor_loop [0; 127; 127]%N cycled_job !! "state"
     = Some ("NEW " ++ String LF ("RUNNING " ++ String LF ("FAILED " ++ String LF ""))).
Proof.
  destruct (markers_swallow_waits 0 127 127 [] cycled_job
              ltac:(eexists; reflexivity) ltac:(eexists; reflexivity))
    as (_ & _ & H3 & H4).
  split; [exact H3 | exact H4].
Defined.

(** ** Lines without a verb the loop knows *)

Lemma no_ifs_app_space (w x : string) : no_ifs (w ++ String SPC x) = false.
Proof.
  induction w as [|c w IH]; [reflexivity|].
  rewrite sapp_cons. cbn [no_ifs]. rewrite IH. apply andb_false_r.
Qed.

Lemma unknown_message_frame (cmd LINE r : string) (dir : option string)
  (fs : gmap string (gmap string string)) :
  frame (mkShell (cmd ++ " unknown (" ++ LINE ++ ")") r dir fs)
  = echo "ERROR" ++ echo (cmd ++ " unknown (" ++ LINE ++ ")").
Proof.
  unfold frame. cbn [ERROR].
  assert (H : forall s, no_ifs s = true ->
                        String.eqb (cmd ++ " unknown (" ++ LINE ++ ")") s = false).
  { intros s Hs. apply String.eqb_neq. intros E.
    change (cmd ++ " unknown (" ++ LINE ++ ")")
      with (cmd ++ String SPC ("unknown (" ++ LINE ++ ")")) in E.
    rewrite <- E, no_ifs_app_space in Hs. discriminate. }
  now rewrite !H by reflexivity.
Qed.



(** ** Purging *)

Lemma last_state_line_in (st l : string) :
  last_state_line st = l -> l <> "" -> In l (lines st).
Proof.
  unfold last_state_line. intros H Hne.
  destruct (last (List.filter ends_in_space (lines st))) as [x|] eqn:E.
  - cbn in H. subst x. apply last_Some_elem_of, list_elem_of_In in E.
    now apply List.filter_In in E.
  - cbn in H. congruence.
Qed.

Lemma cmd_purge_sweep_lookup (sh : shell) (id : string) (d : gmap string string) :
  BASE (cmd_purge [] sh) !! id = Some d
  <-> BASE sh !! id = Some d /\ swept id d = false.
Proof.
  unfold cmd_purge. cbn [arg1 hd].
  destruct (decide ("" = "")); [|congruence].
  cbn [set_RETVAL set_BASE BASE]. apply map_lookup_filter_Some.
Qed.

(** X12.  For an id that is a single path component, [PURGE <id>]
    removes the record of that id whatever state the job is in (it does
    not look at the state log), reports success even when there is no
    such record, and leaves every other record alone; afterwards the id
    is unknown to [STATE]. *)
Theorem purge_by_id (jid : string) (ws : list string) (sh : shell) :
  is_component jid = true ->
  let sh' := cmd_purge (jid :: ws) sh in
  ERROR sh' = ERROR sh
  /\ RETVAL sh' = "purged " ++ jid
  /\ BASE sh' !! jid = None
  /\ (forall other, other <> jid -> BASE sh' !! other = BASE sh !! other)
  /\ ERROR (cmd_state [jid] sh') = "pid " ++ jid ++ " has no state".
Proof.
  intros Hid sh'. apply is_component_nonempty in Hid.
  assert (E : sh' = mkShell (ERROR sh) ("purged " ++ jid) (Some jid)
                      (delete jid (BASE sh))).
  { unfold sh', cmd_purge. cbn [arg1 hd].
    destruct (decide (jid = "")); [contradiction | reflexivity]. }
  assert (Hgone : BASE sh' !! jid = None) by (rewrite E; apply lookup_delete_eq).
  repeat split.
  - now rewrite E.
  - now rewrite E.
  - exact Hgone.
  - intros other Hne. rewrite E. cbn [BASE]. now apply lookup_delete_ne.
  - unfold cmd_state, verify_state. cbn [arg1 hd].
    rewrite verify_dir_unknown by assumption. cbn [fst].
    now rewrite test_r_unknown.
Qed.

Lemma purge_by_id_witness :
  BASE (cmd_purge ["42"] sh0) !! "42" = None
  /\ RETVAL (cmd_purge ["43"] sh0) = "purged 43".
Proof.
  destruct (purge_by_id "42" [] sh0 ltac:(reflexivity)) as (_ & _ & H3 & _).
  destruct (purge_by_id "43" [] sh0 ltac:(reflexivity)) as (_ & H2 & _).
  split; assumption.
Defined.

(** X13.  [PURGE] without an id sweeps the finished jobs: the reply is
    ["purged finished jobs"]; no record is added or changed; every record
    whose current state line is [DONE ], [FAILED ] or [CANCELED ] and
    whose directory name does not start with a dot is removed; a record
    without a state file, or whose log holds only [NEW ], [RUNNING ] and
    [SUSPENDED ] lines (also the padded [RUNNING] line of a resumed job),
    stays; and a second sweep changes nothing. *)
Theorem purge_sweeps_finished (sh : shell) :
  let sh' := cmd_purge [] sh in
  RETVAL sh' = "purged finished jobs"
  /\ ERROR sh' = ERROR sh
  /\ (forall id d, BASE sh' !! id = Some d -> BASE sh !! id = Some d)
  /\ (forall id d st, BASE sh !! id = Some d -> d !! "state" = Some st ->
      is_final (last_state_line st) = true -> glob_star id = true ->
      BASE sh' !! id = None)
  /\ (forall id d, BASE sh !! id = Some d -> d !! "state" = None ->
      BASE sh' !! id = Some d)
  /\ (forall id d st, BASE sh !! id = Some d -> d !! "state" = Some st ->
      Forall (fun l => In l ["NEW "; "RUNNING "; "SUSPENDED "; "RUNNING  "])
        (lines st) ->
      BASE sh' !! id = Some d)
  /\ BASE (cmd_purge [] sh') = BASE sh'.
Proof.
  intros sh'. split; [reflexivity|]. split; [reflexivity|].
  split; [|split; [|split; [|split]]].
  - intros id d H. now apply cmd_purge_sweep_lookup in H.
  - intros id d st Hd Hst Hfin Hvis.
    destruct (BASE sh' !! id) as [d'|] eqn:E; [|reflexivity]. exfalso.
    apply cmd_purge_sweep_lookup in E as [Hd' Hsw].
    assert (d' = d) by congruence. subst d'.
    unfold swept in Hsw. rewrite Hvis, Hst in Hsw. cbn [andb] in Hsw.
    assert (Hin : In (last_state_line st) (lines st)).
    { apply last_state_line_in; [reflexivity|].
      destruct (is_final_cases _ Hfin) as [H | [H | H]]; rewrite H; discriminate. }
    assert (Hex : existsb has_final_word (lines st) = true).
    { apply existsb_exists. exists (last_state_line st). split; [exact Hin|].
      destruct (is_final_cases _ Hfin) as [H | [H | H]]; rewrite H; reflexivity. }
    congruence.
  - intros id d Hd Hst. apply cmd_purge_sweep_lookup. split; [exact Hd|].
    unfold swept. rewrite Hst. apply andb_false_r.
  - intros id d st Hd Hst Hlines. apply cmd_purge_sweep_lookup.
    split; [exact Hd|]. unfold swept. rewrite Hst.
    assert (Hex : existsb has_final_word (lines st) = false).
    { induction Hlines as [|l ls Hl _ IH]; [reflexivity|].
      cbn [existsb]. rewrite IH.
      simpl in Hl. destruct Hl as [<- | [<- | [<- | [<- | []]]]]; reflexivity. }
    rewrite Hex. apply andb_false_r.
  - apply map_eq. intros id. apply option_eq. intros d.
    rewrite cmd_purge_sweep_lookup. split; [tauto|].
    intros H. split; [exact H|]. now apply cmd_purge_sweep_lookup in H.
Qed.

Lemma purge_sweeps_finished_witness :
  BASE (cmd_purge [] sh_failed) !! "42" = None
  /\ BASE (cmd_purge [] sh0) !! "42" = Some running_job.
Proof.
  destruct (purge_sweeps_finished sh_failed) as (_ & _ & _ & H4 & _).
  destruct (purge_sweeps_finished sh0) as (_ & _ & _ & _ & _ & H6 & _).
  split.
  - apply (H4 "42" failed_job
             ("NEW " ++ String LF ("RUNNING " ++ String LF ("FAILED " ++ String LF ""))));
      reflexivity.
  - apply (H6 "42" running_job ("NEW " ++ String LF ("RUNNING " ++ String LF "")));
      try reflexivity.
    repeat constructor; simpl; tauto.
Defined.

(** * Further properties of [saga/task.py] *)

(** ** Buckets *)

Lemma append_method_perm (m : string) (t : Task) (ms : list (string * list Task)) :
  Permutation (bucket_tasks (append_method m t ms)) (bucket_tasks ms ++ [t]).
Proof.
  unfold bucket_tasks. induction ms as [|[m' ts] ms IH]; [reflexivity|].
  cbn [append_method]. destruct (String.eqb m' m); cbn [flat_map snd].
  - rewrite <- !app_assoc. apply Permutation_app_head, Permutation_app_comm.
  - rewrite IH. now rewrite app_assoc.
Qed.

Lemma append_method_keys (m : string) (t : Task) (ms : list (string * list Task)) (k : string) :
  In k (map fst (append_method m t ms)) -> In k (map fst ms) \/ k = m.
Proof.
  induction ms as [|[m' ts] ms IH]; cbn [append_method map fst In].
  - intros [<- | []]. now right.
  - destruct (String.eqb m' m); cbn [map fst In]; [tauto|].
    intros [H | H]; [tauto|]. destruct (IH H); tauto.
Qed.

Lemma append_method_ok (c : nat) (m : string) (t : Task) (ms : list (string * list Task)) :
  has_container c t -> _method_type t = m ->
  NoDup (map fst ms) ->
  Forall (fun mt => snd mt <> []
                    /\ Forall (fun t => has_container c t
                                        /\ _method_type t = fst mt) (snd mt)) ms ->
  methods_ok c (append_method m t ms).
Proof.
  intros Hc Hm. induction ms as [|[m' ts] ms IH]; intros Hnd Hall.
  - repeat split; try discriminate.
    + cbn. apply NoDup_cons. split; [apply not_elem_of_nil | apply NoDup_nil_2].
    + repeat constructor; try discriminate; assumption.
  - cbn [append_method]. apply NoDup_cons in Hnd as [Hnotin Hnd].
    inversion Hall as [|? ? [Hne Hts] Hall']; subst.
    destruct (String.eqb m' (_method_type t)) eqn:E.
    + apply String.eqb_eq in E. repeat split; try discriminate.
      * cbn [map fst]. apply NoDup_cons. split; assumption.
      * constructor; [|assumption]. cbn [fst snd] in *. split.
        -- destruct ts; discriminate.
        -- apply Forall_app. split; [assumption|]. repeat constructor; congruence.
    + destruct (IH Hnd Hall') as (Hnd' & _ & Hall''). repeat split; try discriminate.
      * cbn [map fst]. apply NoDup_cons. split; [|assumption].
        intros Hin. apply list_elem_of_In, append_method_keys in Hin.
        destruct Hin as [Hin | ->].
        -- apply Hnotin, list_elem_of_In, Hin.
        -- rewrite String.eqb_refl in E. discriminate.
      * constructor; [|assumption]. split; assumption.
Qed.

Lemma append_bound_perm (c : nat) (m : string) (t : Task)
  (b : list (nat * list (string * list Task))) :
  Permutation (flat_map (fun cm => bucket_tasks (snd cm)) (append_bound c m t b))
              (flat_map (fun cm => bucket_tasks (snd cm)) b ++ [t]).
Proof.
  induction b as [|[c' ms] b IH]; [reflexivity|].
  cbn [append_bound]. destruct (Nat.eqb c' c); cbn [flat_map snd].
  - rewrite append_method_perm. rewrite <- !app_assoc.
    apply Permutation_app_head, Permutation_app_comm.
  - rewrite IH. now rewrite app_assoc.
Qed.

Lemma append_bound_keys (c : nat) (m : string) (t : Task)
  (b : list (nat * list (string * list Task))) (k : nat) :
  In k (map fst (append_bound c m t b)) -> In k (map fst b) \/ k = c.
Proof.
  induction b as [|[c' ms] b IH]; cbn [append_bound map fst In].
  - intros [<- | []]. now right.
  - destruct (Nat.eqb c' c); cbn [map fst In]; [tauto|].
    intros [H | H]; [tauto|]. destruct (IH H); tauto.
Qed.

Lemma append_bound_ok (c : nat) (t : Task)
  (b : list (nat * list (string * list Task))) :
  has_container c t ->
  NoDup (map fst b) ->
  Forall (fun cm => methods_ok (fst cm) (snd cm)) b ->
  NoDup (map fst (append_bound c (_method_type t) t b))
  /\ Forall (fun cm => methods_ok (fst cm) (snd cm))
       (append_bound c (_method_type t) t b).
Proof.
  intros Hc. induction b as [|[c' ms] b IH]; intros Hnd Hall.
  - split.
    + cbn. apply NoDup_cons. split; [apply not_elem_of_nil | apply NoDup_nil_2].
    + constructor; [|constructor]. cbn [fst snd].
      apply (append_method_ok c (_method_type t) t [] Hc eq_refl); constructor.
  - cbn [append_bound]. apply NoDup_cons in Hnd as [Hnotin Hnd].
    inversion Hall as [|? ? Hms Hall']; subst. cbn [fst snd] in Hms.
    destruct (Nat.eqb_spec c' c) as [->|Hne].
    + split.
      * cbn [map fst]. apply NoDup_cons. split; assumption.
      * constructor; [|assumption]. cbn [fst snd].
        destruct Hms as (Hk & _ & Hm). now apply append_method_ok.
    + destruct (IH Hnd Hall') as [Hnd' Hall'']. split.
      * cbn [map fst]. apply NoDup_cons. split; [|assumption].
        intros Hin. apply list_elem_of_In, append_bound_keys in Hin.
        destruct Hin as [Hin | ->]; [|congruence].
        apply Hnotin, list_elem_of_In, Hin.
      * constructor; assumption.
Qed.

Lemma sort_task_step (bk : buckets) (t : Task) :
  buckets_ok bk ->
  buckets_ok (sort_task bk t)
  /\ Permutation (all_tasks (sort_task bk t)) (all_tasks bk ++ [t]).
Proof.
  intros (Hnd & Hb & Hu). unfold sort_task, all_tasks.
  destruct (_adaptor t) as [a|] eqn:Ha; [destruct (_container a) as [c|] eqn:Hc|];
    cbn [bound unbound].
  - assert (Hhas : has_container c t) by (exists a; split; assumption).
    destruct (append_bound_ok c t (bound bk) Hhas Hnd Hb) as [Hnd' Hb'].
    split; [repeat split; assumption|].
    rewrite append_bound_perm. rewrite <- !app_assoc.
    apply Permutation_app_head, Permutation_app_comm.
  - split; [|now rewrite app_assoc].
    repeat split; try assumption. apply Forall_app. split; [assumption|].
    repeat constructor. unfold is_unbound. now rewrite Ha.
  - split; [|now rewrite app_assoc].
    repeat split; try assumption. apply Forall_app. split; [assumption|].
    repeat constructor. unfold is_unbound. now rewrite Ha.
Qed.

Lemma get_buckets_fold (ts : list Task) (bk : buckets) :
  buckets_ok bk ->
  buckets_ok (fold_left sort_task ts bk)
  /\ Permutation (all_tasks (fold_left sort_task ts bk)) (all_tasks bk ++ ts).
Proof.
  revert bk. induction ts as [|t ts IH]; intros bk Hok.
  - split; [assumption | now rewrite app_nil_r].
  - cbn [fold_left]. destruct (sort_task_step bk t Hok) as [Hok' Hp].
    destruct (IH _ Hok') as [Hok'' Hp']. split; [assumption|].
    rewrite Hp', Hp. now rewrite <- app_assoc.
Qed.

Lemma get_buckets_ok (self : Container) : buckets_ok (_get_buckets self).
Proof.
  apply get_buckets_fold. repeat split; constructor.
Qed.

(** X15.  [_get_buckets] partitions the task list: every task of the
    container lands in exactly one place (the tasks of all buckets and
    the unbound list together are a permutation of the list).  A task
    is in the bucket of its adaptor's container object under its own
    method type, or unbound when the adaptor has no such object; there
    is one entry per container object and, within it, one per method
    type, and no bucket is empty. *)
Theorem get_buckets_partitions (self : Container) :
  Permutation (all_tasks (_get_buckets self)) (tasks self)
  /\ buckets_ok (_get_buckets self).
Proof.
  split; [|apply get_buckets_ok].
  unfold _get_buckets.
  destruct (get_buckets_fold (tasks self) (mkBuckets [] []))
    as [_ H]; [repeat split; constructor | exact H].
Qed.

(** ** What [_wait_all] returns *)

Lemma outcome_bind {float A B : Type} (m : M float A) (k : A -> M float B) :
  outcome float (bind float m k)
  = match outcome float m with
    | inr a => outcome float (k a)
    | inl e => inl e
    end.
Proof.
  destruct m as [tr [e|a]]; simpl; [reflexivity|]. destruct (k a). reflexivity.
Qed.

Lemma for_each_last {float A S : Type} (body : A -> S -> M float S)
  (g : A -> S) (xs : list A) :
  (forall x s, In x xs -> outcome float (body x s) = inr (g x)) ->
  forall s, outcome float (for_each float xs body s)
            = inr (match last xs with Some x => g x | None => s end).
Proof.
  induction xs as [|x xs IH]; intros Hbody s; [reflexivity|].
  cbn [for_each]. rewrite outcome_bind, Hbody by (left; reflexivity).
  rewrite IH by (intros; apply Hbody; right; assumption).
  destruct xs as [|a xs]; [reflexivity|].
  change (last (x :: a :: xs)) with (last (a :: xs)).
  destruct (last (a :: xs)) eqn:E; [reflexivity|].
  apply last_None in E. discriminate.
Qed.

Lemma for_each_errors {float A S : Type} (P : exn -> Prop)
  (body : A -> S -> M float S) (xs : list A) :
  (forall x s e, outcome float (body x s) = inl e -> P e) ->
  forall s e, outcome float (for_each float xs body s) = inl e -> P e.
Proof.
  intros Hbody. induction xs as [|x xs IH]; intros s e; [discriminate|].
  cbn [for_each]. rewrite outcome_bind.
  destruct (outcome float (body x s)) as [e'|s'] eqn:E.
  - intros [= <-]. eapply Hbody, E.
  - apply IH.
Qed.

Lemma methods_ok_nonempty (c : nat) (ms : list (string * list Task)) :
  methods_ok c ms -> bucket_tasks ms <> [].
Proof.
  intros (_ & Hne & Hall). destruct ms as [|[m ts] ms]; [congruence|].
  inversion Hall as [|? ? [Hts _] _]; subst. cbn in Hts.
  unfold bucket_tasks. cbn. destruct ts; [congruence | discriminate].
Qed.

Lemma wait_all_bound_loop (float : Type) (t : float) (bk : buckets) :
  buckets_ok bk ->
  outcome float
    (for_each float (bound bk)
       (fun cm _ =>
          bind float
            (emit float (container_wait (fst cm)
                           (map oid (bucket_tasks (snd cm))) ALL t))
            (fun _ => match bucket_tasks (snd cm) with
                      | t0 :: _ => ret float (PyTask (oid t0))
                      | [] => raise float IndexError
                      end)) PyNone)
  = inr (match last (bound bk) with Some cm => first_task cm | None => PyNone end).
Proof.
  intros (_ & Hb & _). apply for_each_last. intros cm s Hin.
  rewrite Forall_forall in Hb. apply list_elem_of_In, Hb, methods_ok_nonempty in Hin.
  rewrite outcome_bind. cbn [emit outcome snd]. unfold first_task.
  destruct (bucket_tasks (snd cm)); [congruence | reflexivity].
Qed.

Lemma task_wait_outcome (float : Type) (minus_one : float)
  (thread_state : nat -> tstate) (task : Task) (timeout : option float) :
  (_thread task <> None \/ _adaptor task <> None ->
   exists task', outcome float (Task_wait float minus_one thread_state task timeout)
                 = inr task' /\ oid task' = oid task)
  /\ (forall e, outcome float (Task_wait float minus_one thread_state task timeout)
                = inl e -> e = AttributeError "NoneType" "task_wait").
Proof.
  unfold Task_wait. destruct (_thread task) as [th|].
  - split; [|discriminate]. intros _. eexists. split; reflexivity.
  - destruct (_adaptor task) as [a|].
    + split; [|discriminate]. intros _. eexists. split; reflexivity.
    + split; [intros [H|H]; congruence|]. now intros e [= <-].
Qed.

Lemma wait_all_outcome (float : Type) (minus_one : float)
  (thread_state : nat -> tstate) (self : Container) (t : float) :
  (forall task, In task (unbound (_get_buckets self)) ->
     _thread task <> None \/ _adaptor task <> None) ->
  outcome float (_wait_all float minus_one thread_state self t)
  = inr (match last (unbound (_get_buckets self)) with
         | Some task => PyTask (oid task)
         | None => match last (bound (_get_buckets self)) with
                   | Some cm => first_task cm
                   | None => PyNone
                   end
         end).
Proof.
  intros Hall. unfold _wait_all. cbv zeta. rewrite outcome_bind.
  rewrite (wait_all_bound_loop float t (_get_buckets self)) by apply get_buckets_ok.
  rewrite (for_each_last _ (fun task => PyTask (oid task))).
  - destruct (last (unbound (_get_buckets self))); reflexivity.
  - intros task s Hin. rewrite outcome_bind.
    destruct (proj1 (task_wait_outcome float minus_one thread_state task None)
                (Hall task Hin)) as (task' & -> & _).
    reflexivity.
Qed.

Lemma first_task_of_bucket (c : nat) (ms : list (string * list Task)) :
  methods_ok c ms ->
  exists mt t0 rest,
    In mt ms /\ snd mt = (t0 :: rest)%list /\ first_task (c, ms) = PyTask (oid t0).
Proof.
  intros (_ & Hne & Hall). destruct ms as [|[m ts] ms]; [congruence|].
  inversion Hall as [|? ? [Hts _] _]; subst. cbn [snd] in Hts.
  destruct ts as [|t0 rest]; [congruence|].
  exists (m, (t0 :: rest)%list), t0, rest.
  split; [left; reflexivity|]. split; reflexivity.
Qed.

(** X16.  [_wait_all] never fails on [tasks[0]]: no bucket that
    [_get_buckets] builds is empty, so [IndexError] cannot arise, and the
    only error it can raise itself is the [AttributeError] of an unbound
    task that has neither thread nor adaptor.  When every unbound task
    has one of the two, it returns the last unbound task of the task list
    if there is one; for a container without unbound tasks it returns the
    first task of the list of some method type of some container object
    (which of them is a matter of the iteration order of the
    dictionaries), and [None] when there is no bucket at all. *)
Theorem wait_all_result (float : Type) (minus_one : float)
  (thread_state : nat -> tstate) (self : Container) (t : float) :
  let bk := _get_buckets self in
  let r := outcome float (_wait_all float minus_one thread_state self t) in
  (forall e, r = inl e -> e = AttributeError "NoneType" "task_wait")
  /\ ((forall task, In task (unbound bk) ->
         _thread task <> None \/ _adaptor task <> None) ->
      match last (unbound bk) with
      | Some task => r = inr (PyTask (oid task))
      | None =>
          (bound bk = [] -> r = inr PyNone)
          /\ (bound bk <> [] ->
              exists cm mt t0 rest,
                In cm (bound bk) /\ In mt (snd cm) /\ snd mt = (t0 :: rest)%list
                /\ r = inr (PyTask (oid t0)))
      end).
Proof.
  intros bk r. split.
  - unfold r, _wait_all. cbv zeta. fold bk. rewrite outcome_bind.
    rewrite (wait_all_bound_loop float t bk) by apply get_buckets_ok.
    apply for_each_errors. intros task s e. rewrite outcome_bind.
    destruct (outcome float (Task_wait float minus_one thread_state task None))
      as [e'|task'] eqn:E; [|discriminate].
    intros [= <-].
    now apply (task_wait_outcome float minus_one thread_state task None).
  - intros Hall.
    pose proof (wait_all_outcome float minus_one thread_state self t Hall) as H.
    fold bk in H. fold r in H.
    destruct (last (unbound bk)) as [task|]; [exact H|].
    split.
    + intros E. rewrite E in H. exact H.
    + intros Hne. destruct (last (bound bk)) as [cm|] eqn:E.
      * assert (Hin : In cm (bound bk))
          by (apply list_elem_of_In, last_Some_elem_of, E).
        destruct (get_buckets_ok self) as (_ & Hb & _). fold bk in Hb.
        rewrite Forall_forall in Hb.
        pose proof (Hb cm (proj2 (list_elem_of_In _ _) Hin)) as Hm.
        destruct cm as [c ms]. cbn [fst snd] in Hm.
        destruct (first_task_of_bucket c ms Hm) as (mt & t0 & rest & H1 & H2 & H3).
        exists (c, ms), mt, t0, rest. rewrite H, H3. repeat split; assumption.
      * apply last_None in E. contradiction.
Qed.

Lemma wait_all_result_witness :
  outcome Z (_wait_all Z (-1)%Z (fun _ => DONE) two_tasks 5%Z) = inr (PyTask 7)
  /\ exists cm mt t0 rest,
       In cm (bound (_get_buckets run_copy_tasks)) /\ In mt (snd cm)
       /\ snd mt = (t0 :: rest)%list
       /\ outcome Z (_wait_all Z (-1)%Z (fun _ => DONE) run_copy_tasks 5%Z)
          = inr (PyTask (oid t0)).
Proof.
  assert (P1 : forall task, In task (unbound (_get_buckets two_tasks)) ->
                 _thread task <> None \/ _adaptor task <> None).
  { intros task [<- | []]. right. discriminate. }
  assert (P2 : forall task, In task (unbound (_get_buckets run_copy_tasks)) ->
                 _thread task <> None \/ _adaptor task <> None).
  { intros task []. }
  assert (P3 : bound (_get_buckets run_copy_tasks) <> []) by discriminate.
  pose proof (wait_all_result Z (-1)%Z (fun _ => DONE) two_tasks 5%Z) as H1.
  pose proof (wait_all_result Z (-1)%Z (fun _ => DONE) run_copy_tasks 5%Z) as H2.
  cbv zeta in H1, H2.
  split; [exact (proj2 H1 P1) | exact (proj2 (proj2 H2 P2) P3)].
Defined.

(** ** [add] *)

Lemma py_in_false (t : Task) (l : list Task) :
  py_in t l = false -> ~ In (oid t) (map oid l).
Proof.
  unfold py_in. intros H Hin. apply in_map_iff in Hin as (t' & Ho & Hin).
  assert (E : existsb (fun t' => Nat.eqb (oid t') (oid t)) l = true).
  { apply existsb_exists. exists t'. split; [exact Hin|]. now apply Nat.eqb_eq. }
  congruence.
Qed.

Lemma py_in_snoc (t : Task) (l : list Task) : py_in t (l ++ [t]) = true.
Proof.
  unfold py_in. rewrite existsb_app. cbn. rewrite Nat.eqb_refl.
  apply orb_true_r.
Qed.

(** X17.  [add] never raises and keeps the task list free of duplicates:
    a task that is already in the list (by identity) is not added again,
    a new one is appended at the end (the size grows by one), the task is
    in the list afterwards, and adding it a second time changes nothing. *)
Theorem add_keeps_tasks_distinct (t : Task) (self : Container) :
  exists self',
    add t self = inr self'
    /\ py_in t (tasks self') = true
    /\ (py_in t (tasks self) = true -> self' = self)
    /\ (py_in t (tasks self) = false ->
        tasks self' = (tasks self ++ [t])%list
        /\ get_size self' = S (get_size self))
    /\ (NoDup (map oid (tasks self)) -> NoDup (map oid (tasks self')))
    /\ add t self' = inr self'.
Proof.
  unfold add.
  assert (Happ : forall l, list_call "append" t l = inr (l ++ [t])%list)
    by reflexivity.
  destruct (py_in t (tasks self)) eqn:Hin; cbn [negb].
  - exists self. rewrite Hin. cbn [negb]. repeat split; auto; discriminate.
  - rewrite Happ. exists (mkContainer (tasks self ++ [t])). cbn [tasks].
    rewrite py_in_snoc. cbn [negb]. repeat split; try discriminate.
    + unfold get_size. cbn [tasks]. rewrite length_app. cbn. lia.
    + intros Hnd. rewrite map_app. apply NoDup_app. repeat split.
      * exact Hnd.
      * intros x Hx Hx'. cbn in Hx'. apply list_elem_of_In in Hx, Hx'.
        destruct Hx' as [<- | []]. now apply py_in_false in Hin.
      * cbn. apply NoDup_cons. split; [apply not_elem_of_nil | apply NoDup_nil_2].
Qed.

Lemma add_keeps_tasks_distinct_witness :
  add done_task two_tasks = inr two_tasks
  /\ add done_task (mkContainer [bound_task]) = inr two_tasks.
Proof.
  destruct (add_keeps_tasks_distinct done_task two_tasks)
    as (c1 & H1 & _ & H3 & _).
  destruct (add_keeps_tasks_distinct done_task (mkContainer [bound_task]))
    as (c2 & H2 & _ & _ & H4 & _).
  rewrite H1, H2. split; f_equal.
  - apply H3. reflexivity.
  - destruct c2 as [l]. destruct (H4 eq_refl) as [E _]. cbn in E. now subst l.
Defined.

(** ** The first failed worker of [_wait_any] *)

Lemma poll_first_failure (before after : list SagaThread) (th : SagaThread) :
  Forall (fun w => get_state w <> FAILED) before ->
  get_state th = FAILED ->
  poll (before ++ th :: after) = inl (get_exception th).
Proof.
  intros Hb Hf. induction Hb as [|w ws Hw _ IH]; cbn [app poll].
  - now rewrite Hf.
  - destruct (tstate_eqb (get_state w) FAILED) eqn:E.
    + apply tstate_eqb_eq in E. contradiction.
    + exact IH.
Qed.



(** ** The constructor and its call context *)

Local Set Warnings "-clear-no-such-hyp".

Lemma fill_default_dom {V : Type} (key : string) (v : V) (ctx : gmap string V) :
  dom (fill_default V key v ctx) = {[key]} ∪ dom ctx.
Proof.
  unfold fill_default. destruct (ctx !! key) as [x|] eqn:E.
  - assert (key ∈ dom ctx) by (apply elem_of_dom; eauto). set_solver.
  - apply dom_insert_L.
Qed.

Lemma fill_default_lookup_ne {V : Type} (key k : string) (v : V) (ctx : gmap string V) :
  key <> k -> fill_default V key v ctx !! k = ctx !! k.
Proof.
  intros Hne. unfold fill_default. destruct (ctx !! key); [reflexivity|].
  now apply lookup_insert_ne.
Qed.

Lemma fill_default_lookup_eq {V : Type} (key : string) (v : V) (ctx : gmap string V) :
  fill_default V key v ctx !! key = Some (default v (ctx !! key)).
Proof.
  unfold fill_default. destruct (ctx !! key) eqn:E; [now rewrite E|].
  apply lookup_insert_eq.
Qed.

Lemma three_keys_size :
  size ({["_kwargs"]} ∪ ({["_args"]} ∪ {["_call"]}) : gset string) = 3.
Proof.
  rewrite !size_union by set_solver. now rewrite !size_singleton.
Qed.

(** X19.  A call context (one with the key ['_call']) is accepted
    exactly when it has no key besides ['_call'], ['_args'] and
    ['_kwargs'].  With a foreign key the constructor raises
    [BadParameter] before anything is launched.  Otherwise the missing
    ones of ['_args'] and ['_kwargs'] are filled in with the empty tuple
    and the empty dictionary, the task wraps the thread created from the
    three entries, and the launch mode decides what is called: nothing
    for TASK (the task stays NEW), the thread's [run] for ASYNC, [run]
    and then [wait] for SYNC, after which the task has the state the
    thread shows. *)
Theorem task_init_call_context (float : Type) (minus_one : float)
  (thread_state : nat -> tstate) (V : Type) (empty_tuple empty_dict : V)
  (new_thread : V -> V -> V -> nat)
  (self_oid : nat) (adaptor : option Adaptor) (method_type : string)
  (ctx : gmap string V) (tt : ttype) (call : V) :
  ctx !! "_call" = Some call ->
  let init := Task_init float minus_one thread_state V empty_tuple empty_dict
                new_thread self_oid adaptor method_type ctx tt in
  let ctx' := fill_default V "_kwargs" empty_dict
                (fill_default V "_args" empty_tuple ctx) in
  let th := new_thread call (default empty_tuple (ctx !! "_args"))
              (default empty_dict (ctx !! "_kwargs")) in
  let task s := mkTask self_oid (Some th) adaptor method_type s PyNone None in
  ((exists k, is_Some (ctx !! k) /\ ~ In k ["_call"; "_args"; "_kwargs"]) ->
   init = ([], inl (BadParameter "invalid call context for callable task")))
  /\ ((forall k, is_Some (ctx !! k) -> In k ["_call"; "_args"; "_kwargs"]) ->
      init = match tt with
             | TASK => ([], inr (task NEW, ctx'))
             | ASYNC => ([thread_run th], inr (task NEW, ctx'))
             | SYNC => ([thread_run th; thread_wait th],
                        inr (task (thread_state th), ctx'))
             end).
Proof.
  intros Hcall init ctx' th task.
  assert (Hdom : dom ctx' = {["_kwargs"]} ∪ ({["_args"]} ∪ dom ctx))
    by (unfold ctx'; now rewrite !fill_default_dom).
  assert (Hc : "_call" ∈ dom ctx) by (apply elem_of_dom; eauto).
  split.
  - intros (k & Hk & Hout). unfold init, Task_init. rewrite Hcall. fold ctx'.
    assert (Hsz : size ctx' <> 3).
    { rewrite <- size_dom, Hdom.
      assert (Hk' : k ∈ dom ctx) by now apply elem_of_dom.
      assert (Hsub : {[k]} ∪ ({["_kwargs"]} ∪ ({["_args"]} ∪ {["_call"]}))
                     ⊆ {["_kwargs"]} ∪ ({["_args"]} ∪ dom ctx)) by set_solver.
      apply subseteq_size in Hsub.
      rewrite size_union in Hsub
        by (simpl in Hout; set_solver).
      rewrite size_singleton, three_keys_size in Hsub. lia. }
    apply Nat.neq_sym, Nat.eqb_neq in Hsz. rewrite Hsz. reflexivity.
  - intros Hin. unfold init, Task_init. rewrite Hcall. fold ctx'.
    assert (Hsz : size ctx' = 3).
    { rewrite <- size_dom, Hdom, <- three_keys_size. f_equal.
      assert (Hsub : dom ctx ⊆ {["_kwargs"]} ∪ ({["_args"]} ∪ {["_call"]})).
      { intros k Hk. apply elem_of_dom, Hin in Hk. simpl in Hk. set_solver. }
      set_solver. }
    rewrite Hsz. cbn [Nat.eqb negb].
    assert (Ha : ctx' !! "_args" = Some (default empty_tuple (ctx !! "_args"))).
    { unfold ctx'. rewrite fill_default_lookup_ne by discriminate.
      apply fill_default_lookup_eq. }
    assert (Hk : ctx' !! "_kwargs" = Some (default empty_dict (ctx !! "_kwargs"))).
    { unfold ctx'. rewrite fill_default_lookup_eq.
      now rewrite fill_default_lookup_ne by discriminate. }
    rewrite Ha, Hk. destruct tt; reflexivity.
Qed.

Lemma task_init_call_context_witness :
  Task_init Z (-1)%Z (fun _ => DONE) nat 0 0 (fun _ _ _ => 5) 7 (Some plain_adaptor)
    "run" call_only_context SYNC
  = ([thread_run 5; thread_wait 5],
     inr (mkTask 7 (Some 5) (Some plain_adaptor) "run" DONE PyNone None,
          fill_default nat "_kwargs" 0 (fill_default nat "_args" 0 call_only_context)))
  /\ Task_init Z (-1)%Z (fun _ => DONE) nat 0 0 (fun _ _ _ => 5) 7 (Some plain_adaptor)
       "run" foreign_key_context ASYNC
     = raise Z (BadParameter "invalid call context for callable task").
Proof.
  assert (P1 : forall k, is_Some (call_only_context !! k) ->
                         In k ["_call"; "_args"; "_kwargs"]).
  { intros k [v Hk].
    destruct (decide (k = "_call")) as [->|Hne]; [left; reflexivity|].
    unfold call_only_context in Hk.
    rewrite lookup_singleton_ne in Hk by congruence. discriminate. }
  assert (P2 : exists k, is_Some (foreign_key_context !! k)
                         /\ ~ In k ["_call"; "_args"; "_kwargs"]).
  { exists "_timeout". split; [exists 2; vm_compute; reflexivity|].
    intros E. cbn [In] in E. repeat destruct E as [E|E]; try discriminate; exact E. }
  pose proof (task_init_call_context Z (-1)%Z (fun _ => DONE) nat 0 0
                (fun _ _ _ => 5) 7 (Some plain_adaptor) "run"
                call_only_context SYNC 1 ltac:(vm_compute; reflexivity)) as H1.
  pose proof (task_init_call_context Z (-1)%Z (fun _ => DONE) nat 0 0
                (fun _ _ _ => 5) 7 (Some plain_adaptor) "run"
                foreign_key_context ASYNC 1 ltac:(vm_compute; reflexivity)) as H2.
  cbv zeta in H1, H2.
  split; [exact (proj2 H1 P1) | exact (proj1 H2 P2)].
Defined.

(** * More on the command loop *)

Lemma state_subst_base_dir (sh : shell) : state_subst (set_DIR "" sh) = "".
Proof.
  unfold state_subst, file, cur_dir. cbn [set_DIR DIR].
  destruct (decide ("" = "")); [reflexivity | congruence].
Qed.

Lemma in_dir_base_dir (f : gmap string string -> gmap string string) (sh : shell) :
  DIR sh = Some "" -> in_dir f sh = sh.
Proof.
  intros H. unfold in_dir, cur_dir. rewrite H.
  destruct (decide ("" = "")); [reflexivity | congruence].
Qed.

(** X20.  A verb that needs an id and gets none always ends in an error
    and touches nothing: [STATE], [WAIT], [RESULT], [SUSPEND], [RESUME]
    and [CANCEL] without arguments leave the store as it is, and the
    three that signal do not call [kill] (their result does not depend on
    it).  Which message is replied depends on the directory the previous
    command left in [DIR]: ["no pid given"], ["pid  has no state"],
    ["pid  has no process id"], or the incorrect-state message with an
    empty id and an empty state. *)
Theorem missing_id_is_an_error (kill kill' : string -> string -> N * string)
  (sh : shell) :
  (In (ERROR (cmd_state [] sh)) ["no pid given"; "pid  has no state"]
   /\ BASE (cmd_state [] sh) = BASE sh)
  /\ (In (ERROR (cmd_wait [] sh)) ["no pid given"; "pid  has no state"]
      /\ BASE (cmd_wait [] sh) = BASE sh)
  /\ (In (ERROR (cmd_result [] sh))
        ["job  in incorrect state ( != DONE|FAILED|CANCELED)"; "pid  has no state"]
      /\ BASE (cmd_result [] sh) = BASE sh)
  /\ (In (ERROR (cmd_suspend kill [] sh))
        ["job  in incorrect state ( != RUNNING)"; "pid  has no state";
         "pid  has no process id"]
      /\ BASE (cmd_suspend kill [] sh) = BASE sh
      /\ cmd_suspend kill [] sh = cmd_suspend kill' [] sh)
  /\ (In (ERROR (cmd_resume kill [] sh))
        ["job  in incorrect state ( != SUSPENDED)"; "pid  has no state";
         "pid  has no process id"]
      /\ BASE (cmd_resume kill [] sh) = BASE sh
      /\ cmd_resume kill [] sh = cmd_resume kill' [] sh)
  /\ (In (ERROR (cmd_cancel kill [] sh))
        ["job  in incorrect state ('' != 'SUSPENDED|RUNNING')"; "pid  has no state";
         "pid  has no process id"]
      /\ BASE (cmd_cancel kill [] sh) = BASE sh
      /\ cmd_cancel kill [] sh = cmd_cancel kill' [] sh).
Proof.
  assert (V : verify_dir "" sh = (set_ERROR "no pid given" sh, false)) by reflexivity.
  assert (V' : verify_dir "" (set_ERROR "no pid given" sh)
               = (set_ERROR "no pid given" sh, false)) by reflexivity.
  repeat split.
  all: unfold cmd_state, cmd_wait, cmd_result, cmd_suspend, cmd_resume, cmd_cancel,
         verify_state, verify_pid; cbn [arg1 hd]; rewrite V; cbn [fst].
  all: destruct (test_r "state" (set_ERROR "no pid given" sh));
         try rewrite V'; cbn [fst];
         try destruct (test_r "pid" (set_ERROR "no pid given" sh));
         try rewrite !state_subst_base_dir; cbn; tauto.
Qed.

Lemma after_suspend_resume (kill1 kill2 : string -> string -> N * string)
  (jid : string) (sh : shell) (d : gmap string string) (st p out1 out2 : string) :
  jid <> "" -> BASE sh !! jid = Some d ->
  d !! "state" = Some st -> d !! "pid" = Some p ->
  complete st = true -> last_state_line st = "RUNNING " ->
  kill1 "STOP" (chomp p) = (0%N, out1) ->
  kill2 "CONT" (chomp p) = (0%N, out2) ->
  exists d2 st2,
    BASE (cmd_resume kill2 [jid] (cmd_suspend kill1 [jid] sh)) !! jid = Some d2
    /\ d2 !! "state" = Some st2 /\ d2 !! "pid" = Some p
    /\ last_state_line st2 = "RUNNING  ".
Proof.
  intros Hid Hd Hst Hp Hcomp Hrun Hk1 Hk2.
  set (d1 := write "state.susp" (echo "RUNNING  ")
               (append "state" (echo "SUSPENDED ") (touch "suspended" d))).
  rewrite (cmd_suspend_ok kill1 jid sh d st p out1) by assumption. fold d1.
  assert (Hst1 : d1 !! "state" = Some (st ++ echo "SUSPENDED ")).
  { unfold d1. rewrite write_lookup_ne by discriminate.
    rewrite append_lookup_eq, touch_lookup_ne by discriminate.
    now rewrite Hst. }
  assert (Hp1 : d1 !! "pid" = Some p).
  { unfold d1. rewrite write_lookup_ne, append_lookup_ne, touch_lookup_ne
      by discriminate. exact Hp. }
  assert (Hl1 : last_state_line (st ++ echo "SUSPENDED ") = "SUSPENDED ")
    by (rewrite last_state_line_app by (assumption || discriminate); reflexivity).
  rewrite (cmd_resume_ok kill2 jid _ d1 (st ++ echo "SUSPENDED ") p
             (echo "RUNNING  ") out2)
    by first [assumption | discriminate | apply lookup_insert_eq
             | apply write_lookup_eq].
  cbn [BASE]. eexists. eexists. split; [apply lookup_insert_eq|]. split; [|split].
  - rewrite rm_f_lookup_ne by discriminate.
    rewrite append_lookup_eq, touch_lookup_ne by discriminate.
    rewrite Hst1. reflexivity.
  - rewrite rm_f_lookup_ne, append_lookup_ne, touch_lookup_ne by discriminate.
    exact Hp1.
  - change (default "" (Some (st ++ echo "SUSPENDED ")))
      with (st ++ echo "SUSPENDED ").
    rewrite last_state_line_app; [reflexivity | | discriminate].
    apply complete_app; [discriminate | reflexivity].
Qed.

(** X21.  A job that has been suspended and resumed can no longer be
    cancelled through the wrapper: the state line that [RESUME] logged is
    [RUNNING] with two spaces, which is neither [RUNNING ] nor
    [SUSPENDED ], so [CANCEL] replies with the incorrect-state error,
    sends no signal and leaves the record as it is. *)
Theorem resumed_job_refuses_cancel (kill1 kill2 kill3 : string -> string -> N * string)
  (jid : string) (sh : shell) (d : gmap string string) (st p out1 out2 : string) :
  jid <> "" -> BASE sh !! jid = Some d ->
  d !! "state" = Some st -> d !! "pid" = Some p ->
  complete st = true -> last_state_line st = "RUNNING " ->
  kill1 "STOP" (chomp p) = (0%N, out1) ->
  kill2 "CONT" (chomp p) = (0%N, out2) ->
  let sh2 := cmd_resume kill2 [jid] (cmd_suspend kill1 [jid] sh) in
  cmd_cancel kill3 [jid] sh2
  = mkShell ("job " ++ jid
             ++ " in incorrect state ('RUNNING  ' != 'SUSPENDED|RUNNING')")
      (RETVAL sh2) (Some jid) (BASE sh2).
Proof.
  intros Hid Hd Hst Hp Hcomp Hrun Hk1 Hk2 sh2.
  destruct (after_suspend_resume kill1 kill2 jid sh d st p out1 out2)
    as (d2 & st2 & Hd2 & Hst2 & Hp2 & Hl2); try assumption.
  fold sh2 in Hd2.
  rewrite (cmd_cancel_wrong_state kill3 jid sh2 d2 st2 p)
    by (assumption || (rewrite Hl2; discriminate)).
  now rewrite Hl2.
Qed.

Lemma resumed_job_refuses_cancel_witness :
  frame (cmd_cancel kill_ok ["42"]
           (cmd_resume kill_ok ["42"] (cmd_suspend kill_ok ["42"] sh0)))
  = echo "ERROR"
    ++ echo "job 42 in incorrect state ('RUNNING  ' != 'SUSPENDED|RUNNING')".
Proof.
  pose proof (resumed_job_refuses_cancel kill_ok kill_ok kill_ok "42" sh0
                running_job
                ("NEW " ++ String LF ("RUNNING " ++ String LF ""))
                ("4711" ++ String LF "") "" ""
                ltac:(discriminate) ltac:(reflexivity) ltac:(reflexivity)
                ltac:(reflexivity) ltac:(reflexivity) ltac:(reflexivity)
                ltac:(reflexivity) ltac:(reflexivity)) as H.
  cbv zeta in H. rewrite H. reflexivity.
Defined.

Lemma cmd_state_reply (jid r : string) (ws : list string) (dir : option string)
  (fs : gmap string (gmap string string)) :
  jid <> "" ->
  let sh1 := cmd_state (jid :: ws) (mkShell "OK" r dir fs) in
  frame sh1
  = match fs !! jid ≫= (.!! "state") with
    | Some st => echo "OK" ++ echo (last_state_line st)
    | None => echo "ERROR" ++ echo ("pid " ++ jid ++ " has no state")
    end
  /\ BASE sh1 = fs /\ DIR sh1 = Some jid.
Proof.
  intros Hid sh1. subst sh1. unfold cmd_state, verify_state. cbn [arg1 hd].
  destruct (fs !! jid) as [d|] eqn:Hd.
  - rewrite (verify_dir_ok jid _ d) by side. cbn [fst].
    unfold test_r. rewrite (file_at "state" jid _ d) by side.
    cbn [mbind option_bind]. destruct (d !! "state") as [st|] eqn:Hst.
    + rewrite bool_decide_eq_true_2 by eauto.
      rewrite (state_subst_at jid _ d st) by side.
      repeat split.
    + rewrite bool_decide_eq_false_2 by (intros [? ?]; discriminate).
      repeat split.
  - rewrite verify_dir_unknown by side. cbn [fst].
    rewrite test_r_unknown by assumption. repeat split.
Qed.

Lemma listen_state_step (kill : string -> string -> N * string)
  (LINE jid : string) (ws : list string) (sh : shell) :
  fields LINE = "STATE" :: jid :: ws ->
  listen_step kill LINE sh
  = let sh1 := cmd_state (jid :: ws)
                 (mkShell "OK" (join_sp (jid :: ws)) (DIR sh) (BASE sh)) in
    Some (sh1, frame sh1).
Proof.
  intros HL. pose proof (fields_are_words LINE) as HW. rewrite HL in HW.
  inversion HW as [|? ? _ HW']; subst.
  unfold listen_step, get_cmd, get_args. rewrite HL. cbn [arg1 hd shift tl].
  destruct (decide ("STATE" = "")); [discriminate|]. shell_simpl.
  cbn [negb String.eqb Ascii.eqb Bool.eqb]. unfold dispatch. cbn [String.eqb Ascii.eqb Bool.eqb].
  rewrite fields_join_sp by assumption. reflexivity.
Qed.

(** X14.  The reply to a [STATE] line depends only on the store and on the
    id, the first word after the verb: the spacing of the line, any
    further words, the state the previous command left ([ERROR],
    [RETVAL], [DIR]) and the signal oracle do not matter, and the store
    is not changed.  So asking twice gives the same reply twice. *)
Theorem state_reply_depends_on_store (kill kill' : string -> string -> N * string)
  (LINE LINE' jid : string) (ws ws' : list string) (sh sh' : shell) :
  fields LINE = "STATE" :: jid :: ws ->
  fields LINE' = "STATE" :: jid :: ws' ->
  BASE sh' = BASE sh ->
  exists sh1 sh1' out,
    listen_step kill LINE sh = Some (sh1, out)
    /\ listen_step kill' LINE' sh' = Some (sh1', out)
    /\ BASE sh1 = BASE sh /\ BASE sh1' = BASE sh
    /\ listen_step kill' LINE' sh1 = Some (sh1', out).
Proof.
  intros HL HL' HB.
  assert (Hid : jid <> "").
  { pose proof (fields_are_words LINE) as HW. rewrite HL in HW.
    inversion HW as [|? ? _ HW']; subst. inversion HW' as [|? ? [H _] _]; subst.
    exact H. }
  rewrite (listen_state_step kill LINE jid ws sh HL).
  rewrite (listen_state_step kill' LINE' jid ws' sh' HL').
  cbv zeta. rewrite HB.
  destruct (cmd_state_reply jid (join_sp (jid :: ws)) ws (DIR sh) (BASE sh) Hid)
    as (F1 & B1 & D1).
  destruct (cmd_state_reply jid (join_sp (jid :: ws')) ws' (DIR sh') (BASE sh) Hid)
    as (F2 & B2 & D2).
  cbv zeta in F1, B1, D1, F2, B2, D2.
  eexists. eexists. eexists. split; [reflexivity|].
  split; [rewrite F1, F2; reflexivity|].
  split; [exact B1|]. split; [exact B2|].
  rewrite (listen_state_step kill' LINE' jid ws' _ HL'). cbv zeta.
  rewrite B1, D1.
  destruct (cmd_state_reply jid (join_sp (jid :: ws')) ws' (Some jid) (BASE sh) Hid)
    as (F3 & B3 & D3).
  cbv zeta in F3, B3, D3.
  rewrite F1, F3. f_equal. f_equal.
  unfold cmd_state, verify_state, verify_dir. cbn [arg1 hd].
  destruct (decide (jid = "")); [contradiction|]. reflexivity.
Qed.

Lemma state_reply_depends_on_store_witness :
  exists sh1 sh1' out,
    listen_step kill_ok ("STATE 42" ++ String LF "") sh0 = Some (sh1, out)
    /\ listen_step kill_fails (String TAB "STATE   42 now")
         (mkShell "pid 7 not known" "old" (Some "7") (BASE sh0)) = Some (sh1', out)
    /\ BASE sh1 = BASE sh0 /\ BASE sh1' = BASE sh0
    /\ listen_step kill_fails (String TAB "STATE   42 now") sh1 = Some (sh1', out).
Proof.
  apply (state_reply_depends_on_store kill_ok kill_fails
           ("STATE 42" ++ String LF "") (String TAB "STATE   42 now") "42" [] ["now"]
           sh0 (mkShell "pid 7 not known" "old" (Some "7") (BASE sh0)));
    vm_compute; reflexivity.
Defined.
